(** * Proxmox MCP server: a shallow embedding of the tool layer

    The tool modules of [src/proxmox_mcp/tools] all follow one pattern: they
    issue one or more calls on the proxmoxer client (the "Facade"), and wrap
    the decoded answer into a [TextContent] whose text is [json.dumps(...)]
    of it, or a formatted summary.  This file models

    - JSON values as Python's [json] module sees them, with [json.dumps]
      (default separators, [ensure_ascii=True]) and [json.loads] (its C
      scanner): a [str] is held as UTF-8, so strings range over all code
      points, written by [json.dumps] as [\uXXXX] escapes and surrogate
      pairs; a [float] is a binary64 value, written with [repr] (the
      shortest round-tripping digits) and read back with a correctly
      rounded [float()];
    - the Facade as a fixed function from requests to decoded answers, and
      a tool as a computation that records the requests it issues;
    - the tools verified below: [get_vms], [create_vm], [reset_vm],
      [delete_vm], [proxmox_request], [service_action], [get_storage], ...,
      every tool that sends a single request ([single_op]), and the
      argument validation done by the tool registration in [server.py]. *)

From Stdlib Require Import String Ascii List ZArith NArith Bool Lia.
Import ListNotations.
Open Scope string_scope.
Open Scope nat_scope.
Set Warnings "-register-all".

(* ------------------------------------------------------------------ *)
(** ** Characters and small string helpers *)

Definition chr (n : nat) : ascii := ascii_of_nat n.
Definition dq : ascii := chr 34.   (* the double quote *)
Definition bsl : ascii := chr 92.  (* the backslash *)

Definition str1 (c : ascii) : string := String c EmptyString.

Definition is_ws (c : ascii) : bool :=
  let n := nat_of_ascii c in
  (Nat.eqb n 32) || (Nat.eqb n 9) || (Nat.eqb n 10) || (Nat.eqb n 13).

Definition is_digit (c : ascii) : bool :=
  let n := nat_of_ascii c in (48 <=? n) && (n <=? 57).

Definition digit_val (c : ascii) : N := N.of_nat (nat_of_ascii c - 48).

Definition digit_char (d : N) : ascii := ascii_of_N (48 + d).

(** [str.startswith] *)
Fixpoint starts_with (p s : string) : bool :=
  match p, s with
  | EmptyString, _ => true
  | String c p', String d s' => Ascii.eqb c d && starts_with p' s'
  | String _ _, EmptyString => false
  end.

(** the [in] operator on two strings *)
Fixpoint contains (p s : string) : bool :=
  starts_with p s ||
  match s with
  | EmptyString => false
  | String _ s' => contains p s'
  end.

(** [s[n:]] *)
Fixpoint str_drop (n : nat) (s : string) : string :=
  match n, s with
  | O, _ => s
  | S n', String _ s' => str_drop n' s'
  | S _, EmptyString => EmptyString
  end.

(** [s[:n]] *)
Fixpoint str_take (n : nat) (s : string) : string :=
  match n, s with
  | O, _ => EmptyString
  | S n', String c s' => String c (str_take n' s')
  | S _, EmptyString => EmptyString
  end.

(** [str.lstrip("/")] *)
Fixpoint lstrip_slash (s : string) : string :=
  match s with
  | String c s' => if Ascii.eqb c "/"%char then lstrip_slash s' else s
  | EmptyString => EmptyString
  end.

(* ------------------------------------------------------------------ *)
(** ** Text

    A Python [str] is held as the UTF-8 encoding of its code points, each
    code point encoded on its own: a lone surrogate (which [json.loads]
    makes of an unpaired [\udXXX] escape) takes the three bytes of its
    value, as the "surrogatepass" error handler writes it. *)

Open Scope Z_scope.

Definition byte (c : ascii) : Z := Z.of_N (N_of_ascii c).
Definition chrZ (z : Z) : ascii := ascii_of_N (Z.to_N z).

(** [chr(cp).encode("utf-8", "surrogatepass")] *)
Definition utf8_enc (cp : Z) : string :=
  if cp <? 0x80 then str1 (chrZ cp)
  else if cp <? 0x800 then
    String (chrZ (0xC0 + Z.shiftr cp 6)) (str1 (chrZ (0x80 + Z.land cp 63)))
  else if cp <? 0x10000 then
    String (chrZ (0xE0 + Z.shiftr cp 12))
      (String (chrZ (0x80 + Z.land (Z.shiftr cp 6) 63))
        (str1 (chrZ (0x80 + Z.land cp 63))))
  else
    String (chrZ (0xF0 + Z.shiftr cp 18))
      (String (chrZ (0x80 + Z.land (Z.shiftr cp 12) 63))
        (String (chrZ (0x80 + Z.land (Z.shiftr cp 6) 63))
          (str1 (chrZ (0x80 + Z.land cp 63))))).

Fixpoint encode (cs : list Z) : string :=
  match cs with
  | [] => EmptyString
  | c :: t => utf8_enc c ++ encode t
  end.

(** a continuation byte [10xxxxxx] *)
Definition cont (c : ascii) : option Z :=
  let b := byte c in
  if (0x80 <=? b) && (b <? 0xC0) then Some (b - 0x80) else None.

(** [bytes.decode("utf-8", "surrogatepass")]: the code points, [None] on a
    malformed sequence *)
Fixpoint decode (s : string) : option (list Z) :=
  match s with
  | EmptyString => Some []
  | String c t =>
      let b := byte c in
      if b <? 0x80 then option_map (cons b) (decode t)
      else if (0xC2 <=? b) && (b <? 0xE0) then
        match t with
        | String c1 t1 =>
            match cont c1 with
            | Some x1 => option_map (cons ((b - 0xC0) * 64 + x1)) (decode t1)
            | None => None
            end
        | EmptyString => None
        end
      else if (0xE0 <=? b) && (b <? 0xF0) then
        match t with
        | String c1 (String c2 t2) =>
            match cont c1, cont c2 with
            | Some x1, Some x2 =>
                let cp := ((b - 0xE0) * 64 + x1) * 64 + x2 in
                if 0x800 <=? cp then option_map (cons cp) (decode t2) else None
            | _, _ => None
            end
        | _ => None
        end
      else if (0xF0 <=? b) && (b <? 0xF5) then
        match t with
        | String c1 (String c2 (String c3 t3)) =>
            match cont c1, cont c2, cont c3 with
            | Some x1, Some x2, Some x3 =>
                let cp := (((b - 0xF0) * 64 + x1) * 64 + x2) * 64 + x3 in
                if (0x10000 <=? cp) && (cp <? 0x110000)
                then option_map (cons cp) (decode t3) else None
            | _, _, _ => None
            end
        | _ => None
        end
      else None
  end.

(** The code points of a string; bytes that are not UTF-8 are read one
    code point per byte. *)
Definition code_points (s : string) : list Z :=
  match decode s with
  | Some cs => cs
  | None => map byte (list_ascii_of_string s)
  end.

Definition is_high (c : Z) : bool := (0xD800 <=? c) && (c <? 0xDC00).
Definition is_low (c : Z) : bool := (0xDC00 <=? c) && (c <? 0xE000).

(** [Py_UNICODE_JOIN_SURROGATES] *)
Definition join_surrogates (hi lo : Z) : Z :=
  Z.lor (Z.shiftl (Z.land hi 0x3FF) 10) (Z.land lo 0x3FF) + 0x10000.

(** [str.upper] and [str.lower]: the ASCII letters, and every character
    whose Python case mapping holds an ASCII character ([str.upper]: "ß"
    is "SS", "ſ" is "S", U+FB05 is "ST", ...; [str.lower]: U+0130 is "i"
    and U+0307, the Kelvin sign is "k").  Any other character keeps its
    code point: its Python mapping, if it has one, is again free of ASCII,
    and the tools only compare or search the result with ASCII literals. *)
Definition upper_cp (c : Z) : list Z :=
  if (97 <=? c) && (c <=? 122) then [c - 32]
  else if c =? 0xDF then [83; 83]
  else if c =? 0x131 then [73]
  else if c =? 0x149 then [0x2BC; 78]
  else if c =? 0x17F then [83]
  else if c =? 0x1F0 then [74; 0x30C]
  else if c =? 0x1E96 then [72; 0x331]
  else if c =? 0x1E97 then [84; 0x308]
  else if c =? 0x1E98 then [87; 0x30A]
  else if c =? 0x1E99 then [89; 0x30A]
  else if c =? 0x1E9A then [65; 0x2BE]
  else if c =? 0xFB00 then [70; 70]
  else if c =? 0xFB01 then [70; 73]
  else if c =? 0xFB02 then [70; 76]
  else if c =? 0xFB03 then [70; 70; 73]
  else if c =? 0xFB04 then [70; 70; 76]
  else if c =? 0xFB05 then [83; 84]
  else if c =? 0xFB06 then [83; 84]
  else [c].

Definition lower_cp (c : Z) : list Z :=
  if (65 <=? c) && (c <=? 90) then [c + 32]
  else if c =? 0x130 then [105; 0x307]
  else if c =? 0x212A then [107]
  else [c].

Definition upper (s : string) : string := encode (flat_map upper_cp (code_points s)).
Definition lower (s : string) : string := encode (flat_map lower_cp (code_points s)).

Close Scope Z_scope.

(* ------------------------------------------------------------------ *)
(** ** Decimal integers, as [str(int)] prints them *)

Fixpoint dec_acc (fuel : nat) (n : N) (acc : string) : string :=
  match fuel with
  | O => acc
  | S f =>
      let acc' := String (digit_char (n mod 10)) acc in
      if (n <? 10)%N then acc' else dec_acc f (n / 10)%N acc'
  end.

Definition dec_N (n : N) : string := dec_acc (S (N.to_nat (N.log2 n))) n EmptyString.

Definition dec_Z (z : Z) : string :=
  match z with
  | Z0 => "0"
  | Zpos p => dec_N (Npos p)
  | Zneg p => String "-" (dec_N (Npos p))
  end.


(* ------------------------------------------------------------------ *)
(** ** Floats: IEEE 754 binary64, as Python's [float] *)

Open Scope Z_scope.

(** [FFin neg m e] is the finite value (-1)^neg * m * 2^e, [FInf neg] an
    infinity, [FNaN] a NaN. *)
Inductive pyfloat : Type :=
| FFin (neg : bool) (m e : Z)
| FInf (neg : bool)
| FNaN.

(** The pair (m, e) of a binary64 value: a normal 53-bit significand, or a
    subnormal one (zero included) at the least exponent. *)
Definition fl_canon (m e : Z) : bool :=
  ((2^52 <=? m) && (m <? 2^53) && (-1074 <=? e) && (e <=? 971))
  || ((0 <=? m) && (m <? 2^52) && (e =? -1074)).

(** The rational [num / den] divided by 2^k, and by 10^k, as a pair. *)
Definition scale2 (num den k : Z) : Z * Z :=
  (num * 2 ^ Z.max 0 (- k), den * 2 ^ Z.max 0 k).
Definition scale10 (num den k : Z) : Z * Z :=
  (num * 10 ^ Z.max 0 (- k), den * 10 ^ Z.max 0 k).

(** floor(log2 (num / den)), for [num, den > 0] *)
Definition flog2 (num den : Z) : Z :=
  let d := Z.log2 num - Z.log2 den in
  let '(n', d') := scale2 num den d in
  if d' <=? n' then d else d - 1.

(** The binary64 magnitude nearest to [num / den > 0], ties to even, as
    its pair (m, e); [None] when it rounds past the largest finite
    value. *)
Definition round_mag (num den : Z) : option (Z * Z) :=
  let e := Z.max (flog2 num den - 52) (-1074) in
  let '(n', d') := scale2 num den e in
  let q := n' / d' in
  let r := n' mod d' in
  let m := if d' <? 2 * r then q + 1
           else if 2 * r =? d' then (if Z.odd q then q + 1 else q)
           else q in
  let '(m, e) := if m =? 2^53 then (2^52, e + 1) else (m, e) in
  if 971 <? e then None else Some (m, e).

(** [float(s)] ([_Py_dg_strtod]) of a numeral with the digits [D] and the
    exponent [E], the value D * 10^E, rounded to nearest *)
Definition float_of_dec (neg : bool) (D E : Z) : pyfloat :=
  if D =? 0 then FFin neg 0 (-1074)
  else
    let '(num, den) := scale10 D 1 (- E) in
    match round_mag num den with
    | Some (m, e) => FFin neg m e
    | None => FInf neg
    end.

Definition fl_eqb (a b : pyfloat) : bool :=
  match a, b with
  | FFin n1 m1 e1, FFin n2 m2 e2 => Bool.eqb n1 n2 && (m1 =? m2) && (e1 =? e2)
  | FInf n1, FInf n2 => Bool.eqb n1 n2
  | FNaN, FNaN => true
  | _, _ => false
  end.

(** floor(log10 (num / den)), for [num, den > 0] and a quotient in the
    range of the floats: [k0] is within one of it. *)
Definition flog10 (num den : Z) : Z :=
  let k0 := (Z.log2 num - Z.log2 den) * 1233 / 4096 in
  let ge k := let '(n', d') := scale10 num den k in d' <=? n' in
  if ge (k0 + 1) then k0 + 1 else if ge k0 then k0 else k0 - 1.

(** The digit loop of [_Py_dg_dtoa] in mode 0, for the positive value
    [x = num / den] of decimal exponent [k]: at the n-th digit the
    candidates are the first n digits of [x] ([lo]) and the next n-digit
    number ([lo + 1]); the first n at which one of them reads back as [x]
    gives the digits, the nearer one when both do (a tie goes to the even
    last digit).  The result (C, E) stands for C * 10^E. *)
Fixpoint dtoa_loop (fuel : nat) (x : pyfloat) (num den k n : Z) : option (Z * Z) :=
  match fuel with
  | O => None
  | S f =>
      let s := n - 1 - k in
      let '(n', d') := scale10 num den (- s) in
      let lo := n' / d' in
      let r := n' mod d' in
      let lo_ok := fl_eqb (float_of_dec false lo (- s)) x in
      let hi_ok := fl_eqb (float_of_dec false (lo + 1) (- s)) x in
      if lo_ok && hi_ok then
        Some (if (d' <? 2 * r) || ((2 * r =? d') && Z.odd lo) then lo + 1 else lo, - s)
      else if lo_ok then Some (lo, - s)
      else if hi_ok then Some (lo + 1, - s)
      else dtoa_loop f x num den k (n + 1)
  end.

(** C * 10^E without the trailing zeros of C *)
Fixpoint strip_zeros (fuel : nat) (C E : Z) : Z * Z :=
  match fuel with
  | O => (C, E)
  | S f => if (0 <? C) && (C mod 10 =? 0) then strip_zeros f (C / 10) (E + 1) else (C, E)
  end.

(** The digits d1...dn of [repr] of the positive value m * 2^e, and the
    position [decpt] of the decimal point: the value is 0.d1...dn *
    10^decpt.  The loop always stops by the digit where the first n
    digits are the exact value; the exact expansion after it is not
    reached. *)
Definition shortest_digits (m e : Z) : string * Z :=
  let '(num, den) := scale2 m 1 (- e) in
  let k := flog10 num den in
  let '(C, E) :=
    match dtoa_loop (S (Z.to_nat (k + 1 + Z.max 0 (- e)))) (FFin false m e) num den k 1 with
    | Some ce => ce
    | None => (num * 10 ^ Z.max 0 (- e) / den, - Z.max 0 (- e))
    end in
  let '(C, E) := strip_zeros (String.length (dec_Z C)) C E in
  (dec_Z C, Z.of_nat (String.length (dec_Z C)) + E).

Close Scope Z_scope.

Fixpoint zeros (n : nat) : string :=
  match n with
  | O => EmptyString
  | S n' => String "0" (zeros n')
  end.

Open Scope Z_scope.

(** ["%+.02d"], the exponent of [repr] *)
Definition fmt_exp (x : Z) : string :=
  (if x <? 0 then "-" else "+") ++ (if Z.abs x <? 10 then "0" else "") ++ dec_Z (Z.abs x).

(** [format_float_short] for the format code 'r' with [Py_DTSF_ADD_DOT_0]:
    an exponent below 1e-4 and from 1e16 on, and ".0" after an integral
    value *)
Definition format_r (ds : string) (decpt : Z) : string :=
  let n := Z.of_nat (String.length ds) in
  if (decpt <=? -4) || (16 <? decpt) then
    match ds with
    | String d1 rest =>
        String d1 ((if String.eqb rest "" then "" else "." ++ rest) ++ "e" ++ fmt_exp (decpt - 1))
    | EmptyString => EmptyString
    end
  else if decpt <=? 0 then "0." ++ zeros (Z.to_nat (- decpt)) ++ ds
  else if decpt <? n then str_take (Z.to_nat decpt) ds ++ "." ++ str_drop (Z.to_nat decpt) ds
  else ds ++ zeros (Z.to_nat (decpt - n)) ++ ".0".

(** [float.__repr__] of a finite value *)
Definition repr_fin (neg : bool) (m e : Z) : string :=
  (if neg then "-" else "") ++
  (if m =? 0 then "0.0" else let '(ds, decpt) := shortest_digits m e in format_r ds decpt).

Definition float_repr (f : pyfloat) : string :=
  match f with
  | FFin neg m e => repr_fin neg m e
  | FInf neg => if neg then "-inf" else "inf"
  | FNaN => "nan"
  end.

Close Scope Z_scope.

(* ------------------------------------------------------------------ *)
(** ** JSON values *)

Inductive json : Type :=
| JNull
| JBool (b : bool)
| JInt (z : Z)
| JFloat (f : pyfloat)
| JStr (s : string)
| JArr (l : list json)
| JObj (l : list (string * json)).

(** Induction with hypotheses for the elements of arrays and objects. *)
Section json_ind2.
Variable P : json -> Prop.
Hypothesis HNull : P JNull.
Hypothesis HBool : forall b, P (JBool b).
Hypothesis HInt : forall z, P (JInt z).
Hypothesis HFloat : forall f, P (JFloat f).
Hypothesis HStr : forall s, P (JStr s).
Hypothesis HArr : forall l, Forall P l -> P (JArr l).
Hypothesis HObj : forall l, Forall (fun kv => P (snd kv)) l -> P (JObj l).

Fixpoint json_ind2 (j : json) : P j :=
  match j with
  | JNull => HNull
  | JBool b => HBool b
  | JInt z => HInt z
  | JFloat f => HFloat f
  | JStr s => HStr s
  | JArr l =>
      HArr l ((fix go (l : list json) : Forall P l :=
                 match l with
                 | [] => Forall_nil _
                 | x :: t => Forall_cons _ (json_ind2 x) (go t)
                 end) l)
  | JObj l =>
      HObj l ((fix go (l : list (string * json))
                 : Forall (fun kv => P (snd kv)) l :=
                 match l with
                 | [] => Forall_nil _
                 | kv :: t => Forall_cons _ (json_ind2 (snd kv)) (go t)
                 end) l)
  end.
End json_ind2.

(** Dictionary operations on an object's association list, with Python's
    semantics: assigning an existing key keeps its position. *)
Fixpoint dict_set {A} (l : list (string * A)) (k : string) (v : A)
  : list (string * A) :=
  match l with
  | [] => [(k, v)]
  | (k', v') :: t =>
      if String.eqb k k' then (k, v) :: t else (k', v') :: dict_set t k v
  end.

Definition dict_of_pairs {A} (l : list (string * A)) : list (string * A) :=
  fold_left (fun d kv => dict_set d (fst kv) (snd kv)) l [].

Fixpoint dict_lookup {A} (l : list (string * A)) (k : string) : option A :=
  match l with
  | [] => None
  | (k', v) :: t => if String.eqb k k' then Some v else dict_lookup t k
  end.

(* ------------------------------------------------------------------ *)
(** ** [json.dumps] (separators [", "] and [": "], [ensure_ascii=True]),
    as the C encoder of [_json.c] writes it *)

Open Scope Z_scope.

Definition hex_digit (n : Z) : ascii := if n <? 10 then chrZ (48 + n) else chrZ (87 + n).

(** ["\\u"] and four digits of [Py_hexdigits] *)
Definition esc_u (c : Z) : string :=
  String bsl (String "u"
    (String (hex_digit (Z.land (Z.shiftr c 12) 15))
      (String (hex_digit (Z.land (Z.shiftr c 8) 15))
        (String (hex_digit (Z.land (Z.shiftr c 4) 15))
          (str1 (hex_digit (Z.land c 15))))))).

(** One code point of [ascii_escape_unicode]: the printable ASCII
    characters as they are, the short escapes, [\uXXXX], and a surrogate
    pair above U+FFFF *)
Definition esc_cp (c : Z) : string :=
  if c =? 34 then String bsl (str1 dq)
  else if c =? 92 then String bsl (str1 bsl)
  else if c =? 8 then String bsl "b"
  else if c =? 12 then String bsl "f"
  else if c =? 10 then String bsl "n"
  else if c =? 13 then String bsl "r"
  else if c =? 9 then String bsl "t"
  else if (32 <=? c) && (c <=? 126) then str1 (chrZ c)
  else if c <? 0x10000 then esc_u c
  else esc_u (0xD800 - Z.shiftr 0x10000 10 + Z.shiftr c 10) ++ esc_u (0xDC00 + Z.land c 0x3FF).

Close Scope Z_scope.

Fixpoint esc_all (cs : list Z) : string :=
  match cs with
  | [] => EmptyString
  | c :: t => esc_cp c ++ esc_all t
  end.

Definition escape (s : string) : string := esc_all (code_points s).

Definition dumps_str (s : string) : string := String dq (escape s ++ str1 dq).

(** [floatstr] of the encoder, with [allow_nan=True] *)
Definition json_float (f : pyfloat) : string :=
  match f with
  | FFin neg m e => repr_fin neg m e
  | FInf neg => if neg then "-Infinity" else "Infinity"
  | FNaN => "NaN"
  end.

Fixpoint dumps (j : json) : string :=
  match j with
  | JNull => "null"
  | JBool true => "true"
  | JBool false => "false"
  | JInt z => dec_Z z
  | JFloat f => json_float f
  | JStr s => dumps_str s
  | JArr l =>
      "[" ++
      match l with
      | [] => ""
      | x :: t =>
          dumps x ++
          (fix rest (t : list json) : string :=
             match t with
             | [] => ""
             | y :: t' => ", " ++ dumps y ++ rest t'
             end) t
      end ++ "]"
  | JObj l =>
      "{" ++
      match l with
      | [] => ""
      | (k, v) :: t =>
          dumps_str k ++ ": " ++ dumps v ++
          (fix rest (t : list (string * json)) : string :=
             match t with
             | [] => ""
             | (k', v') :: t' => ", " ++ dumps_str k' ++ ": " ++ dumps v' ++ rest t'
             end) t
      end ++ "}"
  end.

(* ------------------------------------------------------------------ *)
(** ** [json.loads] (the C scanner of [_json.c]) *)

Fixpoint skip_ws (s : string) : string :=
  match s with
  | String c s' => if is_ws c then skip_ws s' else s
  | EmptyString => EmptyString
  end.

Open Scope Z_scope.

Definition hex_val (c : ascii) : option Z :=
  let n := byte c in
  if (48 <=? n) && (n <=? 57) then Some (n - 48)
  else if (97 <=? n) && (n <=? 102) then Some (n - 87)
  else if (65 <=? n) && (n <=? 70) then Some (n - 55)
  else None.

Definition hex4_val (a b c d : ascii) : option Z :=
  match hex_val a, hex_val b, hex_val c, hex_val d with
  | Some w, Some x, Some y, Some z => Some (((w * 16 + x) * 16 + y) * 16 + z)
  | _, _, _, _ => None
  end.

Close Scope Z_scope.

(** the one-character escapes *)
Definition simple_escape (e : ascii) : option ascii :=
  let n := nat_of_ascii e in
  if Nat.eqb n 34 then Some dq
  else if Nat.eqb n 92 then Some bsl
  else if Nat.eqb n 47 then Some "/"%char
  else if Nat.eqb n 98 then Some (chr 8)
  else if Nat.eqb n 102 then Some (chr 12)
  else if Nat.eqb n 110 then Some (chr 10)
  else if Nat.eqb n 114 then Some (chr 13)
  else if Nat.eqb n 116 then Some (chr 9)
  else None.

Definition prepend (p : string) (o : option (string * string)) : option (string * string) :=
  match o with
  | Some (r, rest) => Some (p ++ r, rest)
  | None => None
  end.

(** [scanstring_unicode] (strict), from just after the opening quote: the
    decoded string and the text after the closing quote.  A control
    character is an error; a [\uXXXX] escape needs a character after its
    digits; a high surrogate followed by [\u] and a low surrogate (and one
    more character) is joined with it, and followed by [\u] and four
    non-hex characters it is an error. *)
Fixpoint scan_str (s : string) : option (string * string) :=
  match s with
  | EmptyString => None
  | String c t =>
      if Ascii.eqb c dq then Some (EmptyString, t)
      else if Ascii.eqb c bsl then
        match t with
        | EmptyString => None
        | String e t' =>
            match simple_escape e with
            | Some c' => prepend (str1 c') (scan_str t')
            | None =>
                if Ascii.eqb e "u"%char then
                  match t' with
                  | String h1 (String h2 (String h3 (String h4 t''))) =>
                      match hex4_val h1 h2 h3 h4, t'' with
                      | None, _ => None
                      | Some _, EmptyString => None
                      | Some v, String _ _ =>
                          let single := prepend (utf8_enc v) (scan_str t'') in
                          if is_high v then
                            match t'' with
                            | String b (String u (String g1 (String g2 (String g3
                                (String g4 (String _ _ as t3)))))) =>
                                if Ascii.eqb b bsl && Ascii.eqb u "u"%char then
                                  match hex4_val g1 g2 g3 g4 with
                                  | Some w =>
                                      if is_low w
                                      then prepend (utf8_enc (join_surrogates v w)) (scan_str t3)
                                      else single
                                  | None => None
                                  end
                                else single
                            | _ => single
                            end
                          else single
                      end
                  | _ => None
                  end
                else None
            end
        end
      else if (byte c <? 32)%Z then None
      else prepend (str1 c) (scan_str t)
  end.

(** the longest run of digits at the head of [s], and the rest *)
Fixpoint span_digits (s : string) : string * string :=
  match s with
  | String c t =>
      if is_digit c then let '(d, r) := span_digits t in (String c d, r)
      else (EmptyString, s)
  | EmptyString => (EmptyString, EmptyString)
  end.

Fixpoint digits_acc (acc : Z) (s : string) : Z :=
  match s with
  | String c t => digits_acc (acc * 10 + Z.of_N (digit_val c))%Z t
  | EmptyString => acc
  end.

Definition digits_val (s : string) : Z := digits_acc 0 s.

(** the exponent [[eE][-+]?[0-9]+], or nothing, and the rest *)
Definition match_exp (s : string) : option Z * string :=
  match s with
  | String c t =>
      if Ascii.eqb c "e"%char || Ascii.eqb c "E"%char then
        let '(neg, t') :=
          match t with
          | String c' t' =>
              if Ascii.eqb c' "+"%char then (false, t')
              else if Ascii.eqb c' "-"%char then (true, t')
              else (false, t)
          | EmptyString => (false, t)
          end in
        match span_digits t' with
        | (EmptyString, _) => (None, s)
        | (ds, r) => (Some (if neg then (- digits_val ds)%Z else digits_val ds), r)
        end
      else (None, s)
  | EmptyString => (None, s)
  end.

(** [_match_number_unicode]: an optional minus sign, then "0" or a
    non-zero digit and more digits, then optionally "." and digits, then
    optionally "e" or "E", an optional sign and digits (without digits the
    exponent is not taken).  A fraction or an exponent makes a [float],
    whose value [float(...)] gives; otherwise the numeral is an [int]. *)
Definition parse_number (s : string) : option (json * string) :=
  let '(neg, s1) :=
    match s with
    | String c t => if Ascii.eqb c "-"%char then (true, t) else (false, s)
    | EmptyString => (false, s)
    end in
  match s1 with
  | String c t =>
      if is_digit c then
        let '(ip, r1) := if Ascii.eqb c "0"%char then (str1 c, t) else span_digits s1 in
        let '(fp, r2) :=
          match r1 with
          | String p (String d _ as t1) =>
              if Ascii.eqb p "."%char && is_digit d then span_digits t1 else (EmptyString, r1)
          | _ => (EmptyString, r1)
          end in
        let D := digits_val (ip ++ fp) in
        let fl := Z.of_nat (String.length fp) in
        match match_exp r2 with
        | (Some x, r3) => Some (JFloat (float_of_dec neg D (x - fl)), r3)
        | (None, _) =>
            if String.eqb fp "" then
              let v := digits_val ip in Some (JInt (if neg then (- v)%Z else v), r2)
            else Some (JFloat (float_of_dec neg D (- fl)), r2)
        end
      else None
  | EmptyString => None
  end.

(** [scan_once_unicode] and the array and object scanners; [fuel] bounds
    the nesting, [s] starts at a non-blank character. *)
Fixpoint parse_value (fuel : nat) (s : string) : option (json * string) :=
  match fuel with
  | O => None
  | S f =>
      match s with
      | EmptyString => None
      | String c t =>
          if Ascii.eqb c dq then
            match scan_str t with
            | Some (str, r) => Some (JStr str, r)
            | None => None
            end
          else if Ascii.eqb c "["%char then
            match skip_ws t with
            | String c' t' =>
                if Ascii.eqb c' "]"%char then Some (JArr [], t')
                else match parse_elems f (skip_ws t) with
                     | Some (vs, r) => Some (JArr vs, r)
                     | None => None
                     end
            | EmptyString => None
            end
          else if Ascii.eqb c "{"%char then
            match skip_ws t with
            | String c' t' =>
                if Ascii.eqb c' "}"%char then Some (JObj [], t')
                else match parse_members f (skip_ws t) with
                     | Some (kvs, r) => Some (JObj (dict_of_pairs kvs), r)
                     | None => None
                     end
            | EmptyString => None
            end
          else if starts_with "null" s then Some (JNull, str_drop 4 s)
          else if starts_with "true" s then Some (JBool true, str_drop 4 s)
          else if starts_with "false" s then Some (JBool false, str_drop 5 s)
          else if starts_with "NaN" s then Some (JFloat FNaN, str_drop 3 s)
          else if starts_with "Infinity" s then Some (JFloat (FInf false), str_drop 8 s)
          else if starts_with "-Infinity" s then Some (JFloat (FInf true), str_drop 9 s)
          else parse_number s
      end
  end
with parse_elems (fuel : nat) (s : string) : option (list json * string) :=
  match fuel with
  | O => None
  | S f =>
      match parse_value f s with
      | None => None
      | Some (v, r) =>
          match skip_ws r with
          | String c t =>
              if Ascii.eqb c "]"%char then Some ([v], t)
              else if Ascii.eqb c ","%char then
                match parse_elems f (skip_ws t) with
                | Some (vs, r') => Some (v :: vs, r')
                | None => None
                end
              else None
          | EmptyString => None
          end
      end
  end
with parse_members (fuel : nat) (s : string)
  : option (list (string * json) * string) :=
  match fuel with
  | O => None
  | S f =>
      match s with
      | String c t =>
          if Ascii.eqb c dq then
            match scan_str t with
            | None => None
            | Some (k, r) =>
                match skip_ws r with
                | String c2 t2 =>
                    if Ascii.eqb c2 ":"%char then
                      match parse_value f (skip_ws t2) with
                      | None => None
                      | Some (v, r3) =>
                          match skip_ws r3 with
                          | String c3 t3 =>
                              if Ascii.eqb c3 "}"%char then Some ([(k, v)], t3)
                              else if Ascii.eqb c3 ","%char then
                                match parse_members f (skip_ws t3) with
                                | Some (kvs, r4) => Some ((k, v) :: kvs, r4)
                                | None => None
                                end
                              else None
                          | EmptyString => None
                          end
                      end
                    else None
                | EmptyString => None
                end
            end
          else None
      | EmptyString => None
      end
  end.

Definition loads (s : string) : option json :=
  match parse_value (String.length s) (skip_ws s) with
  | Some (v, r) =>
      match skip_ws r with
      | EmptyString => Some v
      | String _ _ => None
      end
  | None => None
  end.

(** A decoded value is well formed: the keys of every object are distinct
    (it is a Python [dict]); every string is one that [json.loads] can
    produce (its bytes are UTF-8, and no high surrogate is followed by a
    low one, since the scanner joins such a pair); every float is a
    binary64 value other than NaN, the one value that is not equal to
    itself in Python. *)
Fixpoint keys_distinct (l : list string) : bool :=
  match l with
  | [] => true
  | k :: t => negb (existsb (String.eqb k) t) && keys_distinct t
  end.

Fixpoint no_pair (cs : list Z) : bool :=
  match cs with
  | c :: ((c' :: _) as t) => negb (is_high c && is_low c') && no_pair t
  | _ => true
  end.

Definition wf_str (s : string) : bool :=
  match decode s with
  | Some cs => no_pair cs
  | None => false
  end.

Definition fl_wf (f : pyfloat) : bool :=
  match f with
  | FFin _ m e => fl_canon m e
  | FInf _ => true
  | FNaN => false
  end.

Fixpoint wf (j : json) : bool :=
  match j with
  | JFloat f => fl_wf f
  | JStr s => wf_str s
  | JArr l => forallb wf l
  | JObj l => keys_distinct (map fst l) && forallb (fun kv => wf_str (fst kv) && wf (snd kv)) l
  | _ => true
  end.

(** The pieces of [dumps] after the first element of an array or object. *)
Definition dumps_items (t : list json) : string :=
  (fix rest (t : list json) : string :=
     match t with
     | [] => ""
     | y :: t' => ", " ++ dumps y ++ rest t'
     end) t.

Definition dumps_members (t : list (string * json)) : string :=
  (fix rest (t : list (string * json)) : string :=
     match t with
     | [] => ""
     | (k', v') :: t' => ", " ++ dumps_str k' ++ ": " ++ dumps v' ++ rest t'
     end) t.

(** A bound on the nesting the decoder must be given fuel for. *)
Fixpoint json_size (j : json) : nat :=
  match j with
  | JArr l =>
      S ((fix go (l : list json) : nat :=
            match l with
            | [] => 0
            | x :: t => S (json_size x + go t)
            end) l)
  | JObj l =>
      S ((fix go (l : list (string * json)) : nat :=
            match l with
            | [] => 0
            | (_, v) :: t => S (json_size v + go t)
            end) l)
  | _ => 1
  end.

(** What may follow a value inside a [dumps] output. *)
Definition delim (r : string) : bool :=
  match r with
  | EmptyString => true
  | String c _ => Ascii.eqb c ","%char || Ascii.eqb c "]"%char || Ascii.eqb c "}"%char
  end.

(* ------------------------------------------------------------------ *)
(** ** Python's view of a decoded value *)

Definition py_bool_str (b : bool) : string := if b then "True" else "False".

(** [repr] of a decoded value, as [str] prints the contents of a list or a
    dict; strings are single-quoted (Python switches to double quotes or
    escapes for strings holding quotes or control characters). *)
Fixpoint py_repr (j : json) : string :=
  match j with
  | JNull => "None"
  | JBool b => py_bool_str b
  | JInt z => dec_Z z
  | JFloat f => float_repr f
  | JStr s => "'" ++ s ++ "'"
  | JArr l =>
      "[" ++
      match l with
      | [] => ""
      | x :: t =>
          py_repr x ++
          (fix rest (t : list json) : string :=
             match t with
             | [] => ""
             | y :: t' => ", " ++ py_repr y ++ rest t'
             end) t
      end ++ "]"
  | JObj l =>
      "{" ++
      match l with
      | [] => ""
      | (k, v) :: t =>
          "'" ++ k ++ "': " ++ py_repr v ++
          (fix rest (t : list (string * json)) : string :=
             match t with
             | [] => ""
             | (k', v') :: t' => ", '" ++ k' ++ "': " ++ py_repr v' ++ rest t'
             end) t
      end ++ "}"
  end.

(** [str(v)], as an f-string formats [v] *)
Definition py_str (j : json) : string :=
  match j with
  | JStr s => s
  | _ => py_repr j
  end.

(** [v == "lit"] for a decoded value [v] and a string literal *)
Definition py_eq_str (v : json) (lit : string) : bool :=
  match v with
  | JStr s => String.eqb s lit
  | _ => false
  end.

(** [v is None] *)
Definition is_none (v : json) : bool :=
  match v with JNull => true | _ => false end.

(** The value of a number as a dyadic (a, e), standing for a * 2^e:
    [True] and [False] are 1 and 0, an [int] is itself, a finite float
    its signed significand and exponent. *)
Definition num_view (j : json) : option (Z * Z) :=
  match j with
  | JBool b => Some ((if b then 1 else 0)%Z, 0%Z)
  | JInt z => Some (z, 0%Z)
  | JFloat (FFin neg m e) => Some ((if neg then - m else m)%Z, e)
  | _ => None
  end.

Definition dyadic_eqb (x y : Z * Z) : bool :=
  let '(a, ea) := x in
  let '(b, eb) := y in
  (a * 2 ^ Z.max 0 (ea - eb) =? b * 2 ^ Z.max 0 (eb - ea))%Z.

(** Equality of two hashable dict keys: strings by their text, numbers by
    their value ([True == 1 == 1.0], [0.0 == -0.0]), an infinity only with
    itself, and a NaN with nothing. *)
Definition py_key_eq (a b : json) : bool :=
  match a, b with
  | JStr x, JStr y => String.eqb x y
  | JNull, JNull => true
  | JFloat (FInf x), JFloat (FInf y) => Bool.eqb x y
  | _, _ =>
      match num_view a, num_view b with
      | Some x, Some y => dyadic_eqb x y
      | _, _ => false
      end
  end.

Definition py_hashable (k : json) : bool :=
  match k with JArr _ | JObj _ => false | _ => true end.

(* ------------------------------------------------------------------ *)
(** ** The Facade: requests on the proxmoxer client *)

Inductive verb : Type := GET | POST | PUT | DELETE.

(** A request: the verb, the path segments as the client was given them
    ([self.proxmox.nodes(node).qemu] is [["nodes"; node; "qemu"]]) and the
    keyword arguments. *)
Record request : Type := mkReq {
  r_verb : verb;
  r_path : list json;
  r_args : list (string * json)
}.

(** What the client answers: the decoded body, or an exception with its
    message. *)
Inductive response : Type :=
| ROk (j : json)
| RErr (msg : string).

Definition is_write (r : request) : bool :=
  match r_verb r with GET => false | _ => true end.

(* ------------------------------------------------------------------ *)
(** ** Exceptions and the tool monad *)

(** The error kinds the tool layer reports to the client. *)
Inductive err_kind : Type :=
| NotFound | InvalidArgument | Conflict | RemoteFailure | Unsupported.

Inductive exc : Type :=
| ValueError (msg : string)
| KeyError (key : string)
| TypeError (msg : string)
| AttributeError (msg : string)
| FacadeError (msg : string)                 (* raised by the client *)
| ToolError (k : err_kind) (msg : string).   (* reported to the caller *)

(** [str(e)] *)
Definition exc_str (e : exc) : string :=
  match e with
  | ValueError m | TypeError m | AttributeError m | FacadeError m => m
  | KeyError k => "'" ++ k ++ "'"
  | ToolError _ m => m
  end.

Inductive outcome (A : Type) : Type :=
| Ok (a : A)
| Raise (e : exc).
Arguments Ok {A} a.
Arguments Raise {A} e.

(** A tool runs against the list of requests issued so far and appends
    the ones it issues. *)
Definition M (A : Type) : Type := list request -> outcome A * list request.

Definition ret {A} (a : A) : M A := fun tr => (Ok a, tr).
Definition raise {A} (e : exc) : M A := fun tr => (Raise e, tr).
Definition bind {A B} (m : M A) (k : A -> M B) : M B :=
  fun tr => match m tr with
            | (Ok a, tr') => k a tr'
            | (Raise e, tr') => (Raise e, tr')
            end.
(** [try: m except Exception as e: h(e)] *)
Definition try_except {A} (m : M A) (h : exc -> M A) : M A :=
  fun tr => match m tr with
            | (Ok a, tr') => (Ok a, tr')
            | (Raise e, tr') => h e tr'
            end.

Notation "x <- c1 ;; c2" := (bind c1 (fun x => c2))
  (at level 61, c1 at next level, right associativity).
Notation "c1 ;;; c2" := (bind c1 (fun _ => c2))
  (at level 61, right associativity).

(** [TextContent(type="text", text=...)] *)
Record content : Type := Text { text : string }.

(** Subscripts and method calls on decoded values. *)

(** [d[k]] *)
Definition getitem (d : json) (k : string) : M json :=
  match d with
  | JObj l =>
      match dict_lookup l k with
      | Some v => ret v
      | None => raise (KeyError k)
      end
  | JArr _ => raise (TypeError "list indices must be integers or slices, not str")
  | JStr _ => raise (TypeError "string indices must be integers, not 'str'")
  | _ => raise (TypeError "object is not subscriptable")
  end.

(** [d.get(k, default)] *)
Definition py_get (d : json) (k : string) (default : json) : M json :=
  match d with
  | JObj l =>
      match dict_lookup l k with
      | Some v => ret v
      | None => ret default
      end
  | _ => raise (AttributeError "object has no attribute 'get'")
  end.

(** [needle in v] for a string [needle] *)
Definition py_in_str (needle : string) (v : json) : M bool :=
  match v with
  | JStr s => ret (contains needle s)
  | JArr l => ret (existsb (fun e => py_eq_str e needle) l)
  | JObj l => ret (existsb (fun kv => String.eqb (fst kv) needle) l)
  | _ => raise (TypeError "argument of type is not iterable")
  end.

(** [for x in v] *)
Definition py_iter (v : json) : M (list json) :=
  match v with
  | JArr l => ret l
  | JObj l => ret (map (fun kv => JStr (fst kv)) l)
  | JStr s => ret (map (fun c => JStr (utf8_enc c)) (code_points s))
  | _ => raise (TypeError "object is not iterable")
  end.

(** [lhs in ["a"; "b"; ...]] for a list of string literals *)
Definition py_in_lits (v : json) (lits : list string) : bool :=
  existsb (py_eq_str v) lits.

(** [{**a, **b}] on keyword-argument dicts *)
Definition dict_merge {A} (a b : list (string * A)) : list (string * A) :=
  fold_left (fun d kv => dict_set d (fst kv) (snd kv)) b a.

(** [s[n:]] *)
Definition nl : string := str1 (chr 10).

(** [f"{x/1024:.1f}"] for an [int] [x]: the quotient is exact for
    [|x| < 2^53], and [.1f] rounds it half to even. *)
Definition fmt_div1024_1f (x : Z) : string :=
  let n := (Z.abs x * 10)%Z in
  let q := (n / 1024)%Z in
  let r := (n mod 1024)%Z in
  let q' := if (r * 2 >? 1024)%Z then (q + 1)%Z
            else if (r * 2 =? 1024)%Z then (if Z.even q then q else q + 1)%Z
            else q in
  (if (x <? 0)%Z then "-" else "") ++ dec_Z (q' / 10) ++ "." ++ dec_Z (q' mod 10).

(** Modelled from the spec: [ProxmoxTool._handle_error] of
    [tools/base.py], which is not among the sources; every tool calls it
    from its [except Exception] branch.  The spec's Error Normalizer (4.5):
    a message containing "not found" or "does not exist" is NotFound, a
    parameter validation failure is InvalidArgument, any other exception
    is RemoteFailure with its message preserved.  It always raises. *)
Definition handle_error {A} (operation : string) (e : exc) : M A :=
  let m := exc_str e in
  let low := lower m in
  if contains "not found" low || contains "does not exist" low
  then raise (ToolError NotFound m)
  else match e with
       | ValueError _ => raise (ToolError InvalidArgument m)
       | _ => raise (ToolError RemoteFailure m)
       end.

(* ------------------------------------------------------------------ *)
(** ** The tools ([tools/vm.py], [tools/generic.py], [tools/admin.py], ...) *)

Section Tools.

(** The hypervisor, as the client sees it: the answer to each request.  A
    fixed function: runs are compared with no hypervisor change in
    between. *)
Variable api : request -> response.

(** [self.proxmox.<path>.<verb>(args)] *)
Definition call (r : request) : M json :=
  fun tr => (match api r with
             | ROk j => Ok j
             | RErr m => Raise (FacadeError m)
             end, (tr ++ [r])%list).

Definition lits (l : list string) : list json := map JStr l.

(** [self.proxmox.nodes(node).qemu(vmid).<rest>] *)
Definition vm_path (node vmid : string) (rest : list string) : list json :=
  (lits ["nodes"; node; "qemu"; vmid] ++ lits rest)%list.

(** *** [VMTools.get_vms] *)

Fixpoint collect_vms (node_name : json) (vms : list json) (result : list json)
  : M (list json) :=
  match vms with
  | [] => ret result
  | vm :: t =>
      vmid <- getitem vm "vmid" ;;
      name <- py_get vm "name" JNull ;;
      status <- py_get vm "status" JNull ;;
      mem <- py_get vm "mem" JNull ;;
      maxmem <- py_get vm "maxmem" JNull ;;
      let vm_info := JObj [("vmid", vmid); ("name", name); ("status", status);
                           ("node", node_name); ("cpus", JNull);
                           ("mem", mem); ("maxmem", maxmem)] in
      collect_vms node_name t (result ++ [vm_info])%list
  end.

Fixpoint collect_nodes (nodes : list json) (result : list json) : M (list json) :=
  match nodes with
  | [] => ret result
  | node :: t =>
      node_name <- getitem node "node" ;;
      vms <- call (mkReq GET [JStr "nodes"; node_name; JStr "qemu"] []) ;;
      vl <- py_iter vms ;;
      result' <- collect_vms node_name vl result ;;
      collect_nodes t result'
  end.

Definition get_vms : M (list content) :=
  try_except
    (nodes <- call (mkReq GET [JStr "nodes"] []) ;;
     nl <- py_iter nodes ;;
     result <- collect_nodes nl [] ;;
     ret [Text (dumps (JArr result))])
    (fun e => handle_error "get VMs" e).

(** the [except] branch of the power operations and of [delete_vm]'s
    status lookup: a missing VM becomes a [ValueError] *)
Definition vm_missing (e : exc) : bool :=
  let low := lower (exc_str e) in
  contains "does not exist" low || contains "not found" low.

(** *** [VMTools.reset_vm] *)
Definition reset_vm (node vmid : string) : M (list content) :=
  try_except
    (vm_status <- call (mkReq GET (vm_path node vmid ["status"; "current"]) []) ;;
     current_status <- py_get vm_status "status" JNull ;;
     if py_eq_str current_status "stopped" then
       ret [Text ("⚠️ Cannot reset VM " ++ vmid ++ ": VM is currently stopped" ++ nl ++
                  "Use start_vm to start it first")]
     else
       task_result <- call (mkReq POST (vm_path node vmid ["status"; "reset"]) []) ;;
       ret [Text ("🔄 VM " ++ vmid ++ " reset initiated successfully" ++ nl ++
                  "Task ID: " ++ py_str task_result)])
    (fun e => if vm_missing e
              then raise (ValueError ("VM " ++ vmid ++ " not found on node " ++ node))
              else handle_error ("reset VM " ++ vmid) e).

(** *** [VMTools.delete_vm] *)
Definition delete_vm_text (node vmid : string) (vm_name task_result : json) : string :=
  "🗑️ VM " ++ vmid ++ " (" ++ py_str vm_name ++ ") deletion initiated successfully!" ++ nl ++
  nl ++
  "⚠️ WARNING: This operation will permanently remove:" ++ nl ++
  "  • VM configuration" ++ nl ++
  "  • All virtual disks" ++ nl ++
  "  • All snapshots" ++ nl ++
  "  • Cannot be undone!" ++ nl ++
  nl ++
  "🔧 Task ID: " ++ py_str task_result ++ nl ++
  nl ++
  "✅ VM " ++ vmid ++ " (" ++ py_str vm_name ++ ") is being deleted from node " ++ node.

Definition delete_vm (node vmid : string) (force : bool) : M (list content) :=
  try_except
    (st <- try_except
             (vm_status <- call (mkReq GET (vm_path node vmid ["status"; "current"]) []) ;;
              current_status <- py_get vm_status "status" JNull ;;
              vm_name <- py_get vm_status "name" (JStr ("VM-" ++ vmid)) ;;
              ret (current_status, vm_name))
             (fun e => if vm_missing e
                       then raise (ValueError ("VM " ++ vmid ++ " not found on node " ++ node))
                       else raise e) ;;
     let '(current_status, vm_name) := st in
     prefix <-
       (if py_eq_str current_status "running" then
          if negb force then
            raise (ValueError ("VM " ++ vmid ++ " (" ++ py_str vm_name ++ ") is currently running. " ++
                               "Please stop it first or use force=True to stop and delete."))
          else
            call (mkReq POST (vm_path node vmid ["status"; "stop"]) []) ;;;
            ret ("🛑 Stopping VM " ++ vmid ++ " (" ++ py_str vm_name ++ ") before deletion..." ++ nl)
        else ret ("🗑️ Deleting VM " ++ vmid ++ " (" ++ py_str vm_name ++ ")..." ++ nl)) ;;
     task_result <- call (mkReq DELETE (vm_path node vmid []) []) ;;
     ret [Text (prefix ++ delete_vm_text node vmid vm_name task_result)])
    (fun e => match e with
              | ValueError _ => raise e
              | _ => handle_error ("delete VM " ++ vmid) e
              end).


(** *** [VMTools.create_vm] *)

(** [storage_info], a dict keyed by the [s["storage"]] values *)
Definition py_dict_set (d : list (json * json)) (k v : json) : M (list (json * json)) :=
  if py_hashable k then
    if existsb (fun kv => py_key_eq (fst kv) k) d
    then ret (map (fun kv => if py_key_eq (fst kv) k then (fst kv, v) else kv) d)
    else ret (d ++ [(k, v)])%list
  else raise (TypeError "unhashable type").

Definition py_dict_find (d : list (json * json)) (k : json) : option json :=
  match find (fun kv => py_key_eq (fst kv) k) d with
  | Some kv => Some (snd kv)
  | None => None
  end.

(** [k in d] *)
Definition py_dict_in (d : list (json * json)) (k : json) : M bool :=
  if py_hashable k then
    match py_dict_find d k with Some _ => ret true | None => ret false end
  else raise (TypeError "unhashable type").

(** [d[k]] *)
Definition py_dict_getitem (d : list (json * json)) (k : json) : M json :=
  if py_hashable k then
    match py_dict_find d k with
    | Some v => ret v
    | None => raise (KeyError (py_repr k))
    end
  else raise (TypeError "unhashable type").

(** [for s in storage_list: storage_info[s["storage"]] = s] *)
Fixpoint build_storage_info (l : list json) (d : list (json * json))
  : M (list (json * json)) :=
  match l with
  | [] => ret d
  | s :: t =>
      k <- getitem s "storage" ;;
      d' <- py_dict_set d k s ;;
      build_storage_info t d'
  end.

(** [s["storage"] == name and "images" in s.get("content", "")] *)
Definition named_with_images (name : string) (s : json) : M bool :=
  n <- getitem s "storage" ;;
  if py_eq_str n name then
    c <- py_get s "content" (JStr "") ;;
    py_in_str "images" c
  else ret false.

Definition with_images (s : json) : M bool :=
  c <- py_get s "content" (JStr "") ;;
  py_in_str "images" c.

(** [for s in storage_list: if test(s): storage = s["storage"]; break];
    [JNull] stands for [None] *)
Fixpoint first_storage (test : json -> M bool) (l : list json) : M json :=
  match l with
  | [] => ret JNull
  | s :: t =>
      b <- test s ;;
      if b then getitem s "storage" else first_storage test t
  end.

(** The auto-detection block of [create_vm] (entered when [storage is None]). *)
Definition autodetect_storage (storage_list : list json) : M json :=
  storage <- first_storage (named_with_images "local-lvm") storage_list ;;
  storage <- (if is_none storage
              then first_storage (named_with_images "vm-storage") storage_list
              else ret storage) ;;
  if is_none storage then
    storage <- first_storage with_images storage_list ;;
    if is_none storage
    then raise (ValueError "No suitable storage found for VM images")
    else ret storage
  else ret storage.

Definition create_vm_text (node vmid name : string) (cpus memory disk_size : Z)
  (storage : json) (disk_format : string) (storage_type : json) (ostype : string)
  (cloudinit_note : string) (task_result : json) : string :=
  "🎉 VM " ++ vmid ++ " created successfully!" ++ nl ++
  nl ++
  "📋 VM Configuration:" ++ nl ++
  "  • Name: " ++ name ++ nl ++
  "  • Node: " ++ node ++ nl ++
  "  • VM ID: " ++ vmid ++ nl ++
  "  • CPU Cores: " ++ dec_Z cpus ++ nl ++
  "  • Memory: " ++ dec_Z memory ++ " MB (" ++ fmt_div1024_1f memory ++ " GB)" ++ nl ++
  "  • Disk: " ++ dec_Z disk_size ++ " GB (" ++ py_str storage ++ ", " ++ disk_format ++ " format)" ++ nl ++
  "  • Storage Type: " ++ py_str storage_type ++ nl ++
  "  • OS Type: " ++ ostype ++ nl ++
  "  • Network: virtio (bridge=vmbr0)" ++ nl ++
  "  • QEMU Agent: Enabled" ++ cloudinit_note ++ nl ++
  nl ++
  "🔧 Task ID: " ++ py_str task_result ++ nl ++
  nl ++
  "💡 Next steps:" ++ nl ++
  "  1. Upload an ISO to install the operating system" ++ nl ++
  "  2. Start the VM using start_vm tool" ++ nl ++
  "  3. Access the console to complete OS installation".

Definition create_vm (node vmid name : string) (cpus memory disk_size : Z)
  (storage : option string) (ostype : option string) : M (list content) :=
  try_except
    (try_except
       (existing_vm <- call (mkReq GET (vm_path node vmid ["config"]) []) ;;
        raise (ValueError ("VM " ++ vmid ++ " already exists on node " ++ node)))
       (fun e => if negb (contains "does not exist" (lower (exc_str e)))
                 then raise e else ret JNull) ;;;
     storage_list <- call (mkReq GET (lits ["nodes"; node; "storage"]) []) ;;
     sl <- py_iter storage_list ;;
     storage_info <- build_storage_info sl [] ;;
     storage <- (match storage with
                 | None => autodetect_storage sl
                 | Some s => ret (JStr s)
                 end) ;;
     known <- py_dict_in storage_info storage ;;
     if negb known then
       raise (ValueError ("Storage '" ++ py_str storage ++ "' not found on node " ++ node))
     else
     info <- py_dict_getitem storage_info storage ;;
     c <- py_get info "content" (JStr "") ;;
     has_images <- py_in_str "images" c ;;
     if negb has_images then
       raise (ValueError ("Storage '" ++ py_str storage ++ "' does not support VM images"))
     else
     storage_type <- getitem info "type" ;;
     let scsi0 := fun fmt => JStr (py_str storage ++ ":" ++ dec_Z disk_size ++ ",format=" ++ fmt) in
     let '(disk_format, vm_config_storage) :=
       if py_in_lits storage_type ["lvm"; "lvmthin"] then
         ("raw", [("scsi0", scsi0 "raw")])
       else if py_in_lits storage_type ["dir"; "nfs"; "cifs"] then
         ("qcow2", [("scsi0", scsi0 "qcow2");
                    ("ide2", JStr (py_str storage ++ ":cloudinit"))])
       else ("raw", [("scsi0", scsi0 "raw")]) in
     let ostype := match ostype with None => "l26" | Some o => o end in
     let vm_config :=
       [("vmid", JStr vmid); ("name", JStr name); ("cores", JInt cpus);
        ("memory", JInt memory); ("ostype", JStr ostype);
        ("scsihw", JStr "virtio-scsi-pci"); ("boot", JStr "order=scsi0");
        ("agent", JStr "1"); ("vga", JStr "std");
        ("net0", JStr "virtio,bridge=vmbr0")] in
     let vm_config := dict_merge vm_config vm_config_storage in
     task_result <- call (mkReq POST (lits ["nodes"; node; "qemu"]) vm_config) ;;
     let cloudinit_note :=
       if py_in_lits storage_type ["lvm"; "lvmthin"]
       then nl ++ "  ⚠️  Note: LVM storage doesn't support cloud-init image"
       else "" in
     ret [Text (create_vm_text node vmid name cpus memory disk_size storage
                  disk_format storage_type ostype cloudinit_note task_result)])
    (fun e => match e with
              | ValueError _ => raise e
              | _ => handle_error ("create VM " ++ vmid) e
              end).

(** *** [GenericTools.proxmox_request] *)

(** the path normalisation of [proxmox_request] *)
Definition norm_path (path : string) : string :=
  let norm := lstrip_slash path in
  if starts_with "api2/json/" norm then str_drop (String.length "api2/json/") norm
  else norm.

(** [params], [data]: [None] is the empty dict *)
Definition proxmox_request (method path : string)
  (params data : list (string * json)) : M (list content) :=
  try_except
    (if String.eqb path "" then raise (ValueError "path must be a non-empty string")
     else
     let norm := norm_path path in
     let method_upper := upper method in
     let write_payload := dict_merge params data in
     result <-
       (if String.eqb method_upper "GET" then call (mkReq GET [JStr norm] params)
        else if String.eqb method_upper "POST" then call (mkReq POST [JStr norm] write_payload)
        else if String.eqb method_upper "PUT" then call (mkReq PUT [JStr norm] write_payload)
        else if String.eqb method_upper "DELETE" then call (mkReq DELETE [JStr norm] params)
        else raise (ValueError "Unsupported method. Use GET, POST, PUT or DELETE")) ;;
     ret [Text (dumps result)])
    (fun e => handle_error ("generic request " ++ method ++ " " ++ path) e).

(** *** [AdminTools.service_action] *)

(** [getattr(resource, name)] on a proxmoxer resource: names starting with
    an underscore are refused by its [__getattr__]; the resource's own
    methods are found before it (and have no [.post]); any other name is a
    further path segment. *)
Definition resource_methods : list string :=
  ["get"; "post"; "put"; "delete"; "create"; "set"; "url_join"].

Definition service_action (node service action : string) : M (list content) :=
  if starts_with "_" action then raise (AttributeError action)
  else if existsb (String.eqb action) resource_methods
  then raise (AttributeError "'function' object has no attribute 'post'")
  else
    result <- call (mkReq POST (lits ["nodes"; node; "services"; service; action]) []) ;;
    ret [Text (dumps (JObj [("task", result)]))].

(** *** Single-request tools *)

(** [VMTools.create_vm_snapshot] *)
Definition create_vm_snapshot (node vmid snapname : string)
  (vmstate : option bool) (description : option string) : M (list content) :=
  try_except
    (let payload := [("snapname", JStr snapname)] in
     let payload := match vmstate with
                    | Some b => dict_set payload "vmstate" (JInt (if b then 1 else 0)%Z)
                    | None => payload end in
     let payload := match description with
                    | Some d => dict_set payload "description" (JStr d)
                    | None => payload end in
     result <- call (mkReq POST (vm_path node vmid ["snapshot"]) payload) ;;
     ret [Text (dumps (JObj [("task", result)]))])
    (fun e => handle_error ("create snapshot for VM " ++ vmid ++ " on node " ++ node) e).

(** [AccessTools.create_user] *)
Definition create_user (user : string) (password comment : option string)
  (expire : option Z) (enable : option bool) : M (list content) :=
  let payload := [("userid", JStr user)] in
  let payload := match password with
                 | Some p => dict_set payload "password" (JStr p) | None => payload end in
  let payload := match comment with
                 | Some c => dict_set payload "comment" (JStr c) | None => payload end in
  let payload := match expire with
                 | Some x => dict_set payload "expire" (JInt x) | None => payload end in
  let payload := match enable with
                 | Some b => dict_set payload "enable" (JInt (if b then 1 else 0)%Z)
                 | None => payload end in
  result <- call (mkReq POST (lits ["access"; "users"]) payload) ;;
  ret [Text (dumps result)].

(** [StorageTools.get_storage] *)
Definition get_storage : M (list content) :=
  try_except
    (result <- call (mkReq GET [JStr "storage"] []) ;;
     ret [Text (dumps result)])
    (fun e => handle_error "get storage" e).

(** [VMTools.get_vm_status] *)
Definition get_vm_status (node vmid : string) : M (list content) :=
  try_except
    (result <- call (mkReq GET (vm_path node vmid ["status"; "current"]) []) ;;
     ret [Text (dumps result)])
    (fun e => handle_error ("get VM " ++ vmid ++ " status on node " ++ node) e).

(** [NodeTools.get_nodes] *)
Definition get_nodes : M (list content) :=
  try_except
    (result <- call (mkReq GET [JStr "nodes"] []) ;;
     ret [Text (dumps result)])
    (fun e => handle_error "get nodes" e).

(** *** [VMTools.start_vm], [VMTools.stop_vm], [VMTools.shutdown_vm] *)
Definition start_vm (node vmid : string) : M (list content) :=
  try_except
    (vm_status <- call (mkReq GET (vm_path node vmid ["status"; "current"]) []) ;;
     current_status <- py_get vm_status "status" JNull ;;
     if py_eq_str current_status "running" then
       ret [Text ("🟢 VM " ++ vmid ++ " is already running")]
     else
       task_result <- call (mkReq POST (vm_path node vmid ["status"; "start"]) []) ;;
       ret [Text ("🚀 VM " ++ vmid ++ " start initiated successfully" ++ nl ++
                  "Task ID: " ++ py_str task_result)])
    (fun e => if vm_missing e
              then raise (ValueError ("VM " ++ vmid ++ " not found on node " ++ node))
              else handle_error ("start VM " ++ vmid) e).

Definition stop_vm (node vmid : string) : M (list content) :=
  try_except
    (vm_status <- call (mkReq GET (vm_path node vmid ["status"; "current"]) []) ;;
     current_status <- py_get vm_status "status" JNull ;;
     if py_eq_str current_status "stopped" then
       ret [Text ("🔴 VM " ++ vmid ++ " is already stopped")]
     else
       task_result <- call (mkReq POST (vm_path node vmid ["status"; "stop"]) []) ;;
       ret [Text ("🛑 VM " ++ vmid ++ " stop initiated successfully" ++ nl ++
                  "Task ID: " ++ py_str task_result)])
    (fun e => if vm_missing e
              then raise (ValueError ("VM " ++ vmid ++ " not found on node " ++ node))
              else handle_error ("stop VM " ++ vmid) e).

Definition shutdown_vm (node vmid : string) : M (list content) :=
  try_except
    (vm_status <- call (mkReq GET (vm_path node vmid ["status"; "current"]) []) ;;
     current_status <- py_get vm_status "status" JNull ;;
     if py_eq_str current_status "stopped" then
       ret [Text ("🔴 VM " ++ vmid ++ " is already stopped")]
     else
       task_result <- call (mkReq POST (vm_path node vmid ["status"; "shutdown"]) []) ;;
       ret [Text ("💤 VM " ++ vmid ++ " graceful shutdown initiated" ++ nl ++
                  "Task ID: " ++ py_str task_result)])
    (fun e => if vm_missing e
              then raise (ValueError ("VM " ++ vmid ++ " not found on node " ++ node))
              else handle_error ("shutdown VM " ++ vmid) e).

(** *** The task-returning VM wrappers *)

(** [int(bool(b))] *)
Definition py_int_bool (b : bool) : json := JInt (if b then 1 else 0)%Z.

(** [try: result = <request>; return json.dumps({"task": result})
     except Exception as e: self._handle_error(operation, e)] *)
Definition task_call (operation : string) (r : request) : M (list content) :=
  try_except
    (result <- call r ;;
     ret [Text (dumps (JObj [("task", result)]))])
    (fun e => handle_error operation e).

(** [VMTools.delete_vm_snapshot] *)
Definition delete_vm_snapshot (node vmid snapname : string) : M (list content) :=
  task_call ("delete snapshot " ++ snapname ++ " for VM " ++ vmid ++ " on node " ++ node)
    (mkReq DELETE (vm_path node vmid ["snapshot"; snapname]) []).

(** [VMTools.rollback_vm_snapshot] *)
Definition rollback_vm_snapshot (node vmid snapname : string) : M (list content) :=
  task_call ("rollback snapshot " ++ snapname ++ " for VM " ++ vmid ++ " on node " ++ node)
    (mkReq POST (vm_path node vmid ["snapshot"; snapname; "rollback"]) []).

(** [VMTools.clone_vm] *)
Definition clone_vm (node vmid : string) (target newid name : option string)
  (full : option bool) (storage : option string) : M (list content) :=
  let payload : list (string * json) := [] in
  let payload := match target with Some t => dict_set payload "target" (JStr t) | None => payload end in
  let payload := match newid with Some n => dict_set payload "newid" (JStr n) | None => payload end in
  let payload := match name with Some n => dict_set payload "name" (JStr n) | None => payload end in
  let payload := match full with Some b => dict_set payload "full" (py_int_bool b) | None => payload end in
  let payload := match storage with Some s => dict_set payload "storage" (JStr s) | None => payload end in
  task_call ("clone VM " ++ vmid ++ " on node " ++ node)
    (mkReq POST (vm_path node vmid ["clone"]) payload).

(** [VMTools.migrate_vm] *)
Definition migrate_vm (node vmid target : string) (online : option bool) : M (list content) :=
  let payload := [("target", JStr target)] in
  let payload := match online with Some b => dict_set payload "online" (py_int_bool b) | None => payload end in
  task_call ("migrate VM " ++ vmid ++ " from node " ++ node ++ " to " ++ target)
    (mkReq POST (vm_path node vmid ["migrate"]) payload).

(** [VMTools.update_vm_config]; [changes] of [None] is the empty dict *)
Definition update_vm_config (node vmid : string) (changes : list (string * json))
  : M (list content) :=
  task_call ("update VM " ++ vmid ++ " config on node " ++ node)
    (mkReq POST (vm_path node vmid ["config"]) changes).

(** [VMTools.resize_vm_disk] *)
Definition resize_vm_disk (node vmid disk size : string) : M (list content) :=
  task_call ("resize disk " ++ disk ++ " for VM " ++ vmid ++ " on node " ++ node)
    (mkReq POST (vm_path node vmid ["resize"]) [("disk", JStr disk); ("size", JStr size)]).

(** [VMTools.move_disk] *)
Definition move_disk (node vmid disk storage : string) : M (list content) :=
  task_call ("move disk " ++ disk ++ " for VM " ++ vmid ++ " to " ++ storage)
    (mkReq POST (vm_path node vmid ["move_disk"]) [("disk", JStr disk); ("storage", JStr storage)]).

(** [VMTools.import_disk] *)
Definition import_disk (node vmid source storage : string) : M (list content) :=
  task_call ("import disk from " ++ source ++ " to VM " ++ vmid ++ " on " ++ storage)
    (mkReq POST (vm_path node vmid ["importdisk"]) [("source", JStr source); ("storage", JStr storage)]).

(** [VMTools.attach_disk] *)
Definition attach_disk (node vmid disk : string) (opts : list (string * json)) : M (list content) :=
  task_call ("attach disk " ++ disk ++ " to VM " ++ vmid)
    (mkReq POST (vm_path node vmid ["config"]) [(disk, JObj opts)]).

(** [VMTools.detach_disk] *)
Definition detach_disk (node vmid disk : string) : M (list content) :=
  task_call ("detach disk " ++ disk ++ " from VM " ++ vmid)
    (mkReq POST (vm_path node vmid ["config"]) [(disk, JStr "")]).

(** [AccessTools.set_acl] *)
Definition set_acl (path : string) (roles users groups : option string)
  (propagate delete : option bool) : M (list content) :=
  let payload := [("path", JStr path)] in
  let payload := match roles with Some r => dict_set payload "roles" (JStr r) | None => payload end in
  let payload := match users with Some u => dict_set payload "users" (JStr u) | None => payload end in
  let payload := match groups with Some g => dict_set payload "groups" (JStr g) | None => payload end in
  let payload := match propagate with Some b => dict_set payload "propagate" (py_int_bool b) | None => payload end in
  let payload := match delete with Some b => dict_set payload "delete" (py_int_bool b) | None => payload end in
  result <- call (mkReq PUT (lits ["access"; "acl"]) payload) ;;
  ret [Text (dumps result)].

(** *** The other single-request tools *)

(** [result = <request>; return [Content(type="text", text=json.dumps(result))]] *)
Definition json_call (r : request) : M (list content) :=
  result <- call r ;;
  ret [Text (dumps result)].

(** the same inside [try: ... except Exception as e:
    self._handle_error(operation, e)] *)
Definition json_call_h (operation : string) (r : request) : M (list content) :=
  try_except (json_call r) (fun e => handle_error operation e).

(** [result = <request>; return [Content(type="text", text=json.dumps({"task": result}))]] *)
Definition task_call_bare (r : request) : M (list content) :=
  result <- call r ;;
  ret [Text (dumps (JObj [("task", result)]))].

(** [NodeTools.get_node_status] *)
Definition get_node_status (node : string) : M (list content) :=
  json_call_h ("get status for node " ++ node)
    (mkReq GET (lits ["nodes"; node; "status"]) []).

(** [NodeTools.get_task_status] *)
Definition get_task_status (node upid : string) : M (list content) :=
  json_call_h ("get task status " ++ upid ++ " on node " ++ node)
    (mkReq GET (lits ["nodes"; node; "tasks"; upid; "status"]) []).

(** [NodeTools.get_task_log] *)
Definition get_task_log (node upid : string) : M (list content) :=
  json_call_h ("get task log " ++ upid ++ " on node " ++ node)
    (mkReq GET (lits ["nodes"; node; "tasks"; upid; "log"]) []).

(** [VMTools.get_vm_snapshots] *)
Definition get_vm_snapshots (node vmid : string) : M (list content) :=
  json_call_h ("get VM " ++ vmid ++ " snapshots on node " ++ node)
    (mkReq GET (vm_path node vmid ["snapshot"]) []).

(** [VMTools.vncproxy] *)
Definition vncproxy (node vmid : string) : M (list content) :=
  json_call_h ("create VNC proxy for VM " ++ vmid ++ " on " ++ node)
    (mkReq POST (vm_path node vmid ["vncproxy"]) []).

(** [VMTools.spiceproxy] *)
Definition spiceproxy (node vmid : string) : M (list content) :=
  json_call_h ("create SPICE proxy for VM " ++ vmid ++ " on " ++ node)
    (mkReq POST (vm_path node vmid ["spiceproxy"]) []).

(** [StorageTools.get_storage_content] *)
Definition get_storage_content (node storage : string) : M (list content) :=
  json_call_h ("get storage content for " ++ storage ++ " on node " ++ node)
    (mkReq GET (lits ["nodes"; node; "storage"; storage; "content"]) []).

(** [StorageTools.delete_storage_content] *)
Definition delete_storage_content (node storage volume : string) : M (list content) :=
  json_call_h ("delete storage content " ++ volume ++ " on " ++ storage ++ "@" ++ node)
    (mkReq DELETE (lits ["nodes"; node; "storage"; storage; "content"; volume]) []).

(** [AccessTools.list_users] *)
Definition list_users : M (list content) :=
  json_call (mkReq GET (lits ["access"; "users"]) []).

(** [AccessTools.update_user]; [changes] of [None] is the empty dict *)
Definition update_user (user : string) (changes : list (string * json)) : M (list content) :=
  json_call (mkReq PUT (lits ["access"; "users"; user]) changes).

(** [AccessTools.delete_user] *)
Definition delete_user (user : string) : M (list content) :=
  json_call (mkReq DELETE (lits ["access"; "users"; user]) []).

(** [AccessTools.list_groups] *)
Definition list_groups : M (list content) :=
  json_call (mkReq GET (lits ["access"; "groups"]) []).

(** [AccessTools.create_group] *)
Definition create_group (groupid : string) (comment : option string) : M (list content) :=
  let payload := [("groupid", JStr groupid)] in
  let payload := match comment with
                 | Some c => dict_set payload "comment" (JStr c) | None => payload end in
  json_call (mkReq POST (lits ["access"; "groups"]) payload).

(** [AccessTools.delete_group] *)
Definition delete_group (groupid : string) : M (list content) :=
  json_call (mkReq DELETE (lits ["access"; "groups"; groupid]) []).

(** [AccessTools.list_roles] *)
Definition list_roles : M (list content) :=
  json_call (mkReq GET (lits ["access"; "roles"]) []).

(** [AccessTools.create_role] *)
Definition create_role (roleid privs : string) : M (list content) :=
  json_call (mkReq POST (lits ["access"; "roles"]) [("roleid", JStr roleid); ("privs", JStr privs)]).

(** [AccessTools.delete_role] *)
Definition delete_role (roleid : string) : M (list content) :=
  json_call (mkReq DELETE (lits ["access"; "roles"; roleid]) []).

(** [AccessTools.get_acl] *)
Definition get_acl : M (list content) :=
  json_call (mkReq GET (lits ["access"; "acl"]) []).

(** [FirewallTools.list_dc_rules] *)
Definition list_dc_rules : M (list content) :=
  json_call (mkReq GET (lits ["cluster"; "firewall"; "rules"]) []).

(** [FirewallTools.add_dc_rule]; [rule or {}] *)
Definition add_dc_rule (rule : list (string * json)) : M (list content) :=
  json_call (mkReq POST (lits ["cluster"; "firewall"; "rules"]) rule).

(** [FirewallTools.delete_dc_rule]: [rules(pos)] with the integer [pos] *)
Definition delete_dc_rule (pos : Z) : M (list content) :=
  json_call (mkReq DELETE (lits ["cluster"; "firewall"; "rules"] ++ [JInt pos])%list []).

(** [PoolTools.list_pools] *)
Definition list_pools : M (list content) :=
  json_call (mkReq GET (lits ["pools"]) []).

(** [PoolTools.create_pool]: [if comment:] leaves out an empty comment *)
Definition create_pool (poolid : string) (comment : option string) : M (list content) :=
  let payload := [("poolid", JStr poolid)] in
  let payload := match comment with
                 | Some c => if String.eqb c "" then payload else dict_set payload "comment" (JStr c)
                 | None => payload end in
  json_call (mkReq POST (lits ["pools"]) payload).

(** [PoolTools.delete_pool] *)
Definition delete_pool (poolid : string) : M (list content) :=
  json_call (mkReq DELETE (lits ["pools"; poolid]) []).

(** [BackupTools.vzdump]; [params or {}] *)
Definition vzdump (node : string) (params : list (string * json)) : M (list content) :=
  task_call_bare (mkReq POST (lits ["nodes"; node; "vzdump"]) params).

(** [AdminTools.list_services] *)
Definition list_services (node : string) : M (list content) :=
  json_call (mkReq GET (lits ["nodes"; node; "services"]) []).

(** [AdminTools.network_get] *)
Definition network_get (node : string) : M (list content) :=
  json_call (mkReq GET (lits ["nodes"; node; "network"]) []).

(** [AdminTools.network_apply] *)
Definition network_apply (node : string) : M (list content) :=
  json_call (mkReq POST (lits ["nodes"; node; "network"; "apply"]) []).

(** [AdminTools.list_updates] *)
Definition list_updates (node : string) : M (list content) :=
  json_call (mkReq GET (lits ["nodes"; node; "apt"; "update"]) []).

(** [AdminTools.list_repositories] *)
Definition list_repositories (node : string) : M (list content) :=
  json_call (mkReq GET (lits ["nodes"; node; "apt"; "repositories"]) []).

(** [AdminTools.get_certificates] *)
Definition get_certificates (node : string) : M (list content) :=
  json_call (mkReq GET (lits ["nodes"; node; "certificates"; "info"]) []).

(** [AdminTools.list_disks] *)
Definition list_disks (node : string) : M (list content) :=
  json_call (mkReq GET (lits ["nodes"; node; "disks"; "list"]) []).

(** [HATools.list_groups] (the tool [ha_list_groups]) *)
Definition ha_list_groups : M (list content) :=
  json_call (mkReq GET (lits ["cluster"; "ha"; "groups"]) []).

(** [HATools.create_group]: [if comment:] leaves out an empty comment *)
Definition ha_create_group (group nodes : string) (comment : option string) : M (list content) :=
  let payload := [("group", JStr group); ("nodes", JStr nodes)] in
  let payload := match comment with
                 | Some c => if String.eqb c "" then payload else dict_set payload "comment" (JStr c)
                 | None => payload end in
  json_call (mkReq POST (lits ["cluster"; "ha"; "groups"]) payload).

(** [HATools.list_resources] *)
Definition ha_list_resources : M (list content) :=
  json_call (mkReq GET (lits ["cluster"; "ha"; "resources"]) []).

(** [HATools.add_resource] *)
Definition ha_add_resource (sid group : string) : M (list content) :=
  json_call (mkReq POST (lits ["cluster"; "ha"; "resources"]) [("sid", JStr sid); ("group", JStr group)]).

(** [HATools.delete_resource] *)
Definition ha_delete_resource (sid : string) : M (list content) :=
  json_call (mkReq DELETE (lits ["cluster"; "ha"; "resources"; sid]) []).

(** [ReplicationTools.list_jobs] *)
Definition replication_list_jobs : M (list content) :=
  json_call (mkReq GET (lits ["cluster"; "replication"]) []).

(** [ReplicationTools.create_job]; [job or {}] *)
Definition replication_create_job (job : list (string * json)) : M (list content) :=
  json_call (mkReq POST (lits ["cluster"; "replication"]) job).

(** [ReplicationTools.delete_job] *)
Definition replication_delete_job (jobid : string) : M (list content) :=
  json_call (mkReq DELETE (lits ["cluster"; "replication"; jobid]) []).

(** [SDNTools.list_zones] *)
Definition list_zones : M (list content) :=
  json_call (mkReq GET (lits ["cluster"; "sdn"; "zones"]) []).

(** [SDNTools.list_vnets] *)
Definition list_vnets : M (list content) :=
  json_call (mkReq GET (lits ["cluster"; "sdn"; "vnets"]) []).

(** [CephTools.status] *)
Definition ceph_status (node : string) : M (list content) :=
  json_call (mkReq GET (lits ["nodes"; node; "ceph"; "status"]) []).

(** [CephTools.df] *)
Definition ceph_df (node : string) : M (list content) :=
  json_call (mkReq GET (lits ["nodes"; node; "ceph"; "df"]) []).


End Tools.

(* ------------------------------------------------------------------ *)
(** ** The tools that send one request

    Every tool whose body sends exactly one request to the hypervisor and
    serializes its answer, with its arguments.  The tools left out send
    several requests or none ([get_vms], [create_vm], the power operations,
    [delete_vm], [reset_vm]), read a local file ([upload_storage_content]),
    or are not among the sources ([execute_vm_command]'s console manager,
    the cluster and container tools). *)
Inductive single_op : Type :=
(* tools/vm.py *)
| OpGetVmStatus (node vmid : string)
| OpGetVmSnapshots (node vmid : string)
| OpCreateVmSnapshot (node vmid snapname : string) (vmstate : option bool)
    (description : option string)
| OpDeleteVmSnapshot (node vmid snapname : string)
| OpRollbackVmSnapshot (node vmid snapname : string)
| OpCloneVm (node vmid : string) (target newid name : option string)
    (full : option bool) (storage : option string)
| OpMigrateVm (node vmid target : string) (online : option bool)
| OpUpdateVmConfig (node vmid : string) (changes : list (string * json))
| OpResizeVmDisk (node vmid disk size : string)
| OpVncproxy (node vmid : string)
| OpSpiceproxy (node vmid : string)
| OpMoveDisk (node vmid disk storage : string)
| OpImportDisk (node vmid source storage : string)
| OpAttachDisk (node vmid disk : string) (opts : list (string * json))
| OpDetachDisk (node vmid disk : string)
(* tools/node.py *)
| OpGetNodes
| OpGetNodeStatus (node : string)
| OpGetTaskStatus (node upid : string)
| OpGetTaskLog (node upid : string)
(* tools/storage.py *)
| OpGetStorage
| OpGetStorageContent (node storage : string)
| OpDeleteStorageContent (node storage volume : string)
(* tools/access.py *)
| OpListUsers
| OpCreateUser (user : string) (password comment : option string)
    (expire : option Z) (enable : option bool)
| OpUpdateUser (user : string) (changes : list (string * json))
| OpDeleteUser (user : string)
| OpListGroups
| OpCreateGroup (groupid : string) (comment : option string)
| OpDeleteGroup (groupid : string)
| OpListRoles
| OpCreateRole (roleid privs : string)
| OpDeleteRole (roleid : string)
| OpGetAcl
| OpSetAcl (path : string) (roles users groups : option string)
    (propagate delete : option bool)
(* tools/firewall.py *)
| OpListDcRules
| OpAddDcRule (rule : list (string * json))
| OpDeleteDcRule (pos : Z)
(* tools/pools.py *)
| OpListPools
| OpCreatePool (poolid : string) (comment : option string)
| OpDeletePool (poolid : string)
(* tools/backups.py *)
| OpVzdump (node : string) (params : list (string * json))
(* tools/admin.py *)
| OpListServices (node : string)
| OpServiceAction (node service action : string)
| OpNetworkGet (node : string)
| OpNetworkApply (node : string)
| OpListUpdates (node : string)
| OpListRepositories (node : string)
| OpGetCertificates (node : string)
| OpListDisks (node : string)
(* tools/ha.py *)
| OpHaListGroups
| OpHaCreateGroup (group nodes : string) (comment : option string)
| OpHaListResources
| OpHaAddResource (sid group : string)
| OpHaDeleteResource (sid : string)
(* tools/replication.py *)
| OpReplicationListJobs
| OpReplicationCreateJob (job : list (string * json))
| OpReplicationDeleteJob (jobid : string)
(* tools/sdn.py *)
| OpListZones
| OpListVnets
(* tools/ceph.py *)
| OpCephStatus (node : string)
| OpCephDf (node : string)
(* tools/generic.py *)
| OpProxmoxRequest (method path : string) (params data : list (string * json)).

(** Running the tool. *)
Definition run_op (api : request -> response) (op : single_op) : M (list content) :=
  match op with
  | OpGetVmStatus node vmid => get_vm_status api node vmid
  | OpGetVmSnapshots node vmid => get_vm_snapshots api node vmid
  | OpCreateVmSnapshot node vmid snapname vmstate description =>
      create_vm_snapshot api node vmid snapname vmstate description
  | OpDeleteVmSnapshot node vmid snapname => delete_vm_snapshot api node vmid snapname
  | OpRollbackVmSnapshot node vmid snapname => rollback_vm_snapshot api node vmid snapname
  | OpCloneVm node vmid target newid name full storage =>
      clone_vm api node vmid target newid name full storage
  | OpMigrateVm node vmid target online => migrate_vm api node vmid target online
  | OpUpdateVmConfig node vmid changes => update_vm_config api node vmid changes
  | OpResizeVmDisk node vmid disk size => resize_vm_disk api node vmid disk size
  | OpVncproxy node vmid => vncproxy api node vmid
  | OpSpiceproxy node vmid => spiceproxy api node vmid
  | OpMoveDisk node vmid disk storage => move_disk api node vmid disk storage
  | OpImportDisk node vmid source storage => import_disk api node vmid source storage
  | OpAttachDisk node vmid disk opts => attach_disk api node vmid disk opts
  | OpDetachDisk node vmid disk => detach_disk api node vmid disk
  | OpGetNodes => get_nodes api
  | OpGetNodeStatus node => get_node_status api node
  | OpGetTaskStatus node upid => get_task_status api node upid
  | OpGetTaskLog node upid => get_task_log api node upid
  | OpGetStorage => get_storage api
  | OpGetStorageContent node storage => get_storage_content api node storage
  | OpDeleteStorageContent node storage volume => delete_storage_content api node storage volume
  | OpListUsers => list_users api
  | OpCreateUser user password comment expire enable =>
      create_user api user password comment expire enable
  | OpUpdateUser user changes => update_user api user changes
  | OpDeleteUser user => delete_user api user
  | OpListGroups => list_groups api
  | OpCreateGroup groupid comment => create_group api groupid comment
  | OpDeleteGroup groupid => delete_group api groupid
  | OpListRoles => list_roles api
  | OpCreateRole roleid privs => create_role api roleid privs
  | OpDeleteRole roleid => delete_role api roleid
  | OpGetAcl => get_acl api
  | OpSetAcl path roles users groups propagate delete =>
      set_acl api path roles users groups propagate delete
  | OpListDcRules => list_dc_rules api
  | OpAddDcRule rule => add_dc_rule api rule
  | OpDeleteDcRule pos => delete_dc_rule api pos
  | OpListPools => list_pools api
  | OpCreatePool poolid comment => create_pool api poolid comment
  | OpDeletePool poolid => delete_pool api poolid
  | OpVzdump node params => vzdump api node params
  | OpListServices node => list_services api node
  | OpServiceAction node service action => service_action api node service action
  | OpNetworkGet node => network_get api node
  | OpNetworkApply node => network_apply api node
  | OpListUpdates node => list_updates api node
  | OpListRepositories node => list_repositories api node
  | OpGetCertificates node => get_certificates api node
  | OpListDisks node => list_disks api node
  | OpHaListGroups => ha_list_groups api
  | OpHaCreateGroup group nodes comment => ha_create_group api group nodes comment
  | OpHaListResources => ha_list_resources api
  | OpHaAddResource sid group => ha_add_resource api sid group
  | OpHaDeleteResource sid => ha_delete_resource api sid
  | OpReplicationListJobs => replication_list_jobs api
  | OpReplicationCreateJob job => replication_create_job api job
  | OpReplicationDeleteJob jobid => replication_delete_job api jobid
  | OpListZones => list_zones api
  | OpListVnets => list_vnets api
  | OpCephStatus node => ceph_status api node
  | OpCephDf node => ceph_df api node
  | OpProxmoxRequest method path params data => proxmox_request api method path params data
  end.

(** The request of the passthrough, for a method it accepts. *)
Definition passthrough_request (method path : string) (params data : list (string * json))
  : request :=
  let norm := norm_path path in
  let method_upper := upper method in
  if String.eqb method_upper "POST" then mkReq POST [JStr norm] (dict_merge params data)
  else if String.eqb method_upper "PUT" then mkReq PUT [JStr norm] (dict_merge params data)
  else if String.eqb method_upper "DELETE" then mkReq DELETE [JStr norm] params
  else mkReq GET [JStr norm] params.

(** [dict_set] on an optional value, as [if x is not None: payload[k] = x] *)
Definition set_opt {A} (payload : list (string * json)) (k : string) (f : A -> json)
  (x : option A) : list (string * json) :=
  match x with Some v => dict_set payload k (f v) | None => payload end.

(** [if comment: payload["comment"] = comment] *)
Definition set_truthy (payload : list (string * json)) (k : string) (x : option string)
  : list (string * json) :=
  match x with
  | Some c => if String.eqb c "" then payload else dict_set payload k (JStr c)
  | None => payload
  end.

(** The one request each tool sends, with its verb, path and payload. *)
Definition op_request (op : single_op) : request :=
  match op with
  | OpGetVmStatus node vmid => mkReq GET (vm_path node vmid ["status"; "current"]) []
  | OpGetVmSnapshots node vmid => mkReq GET (vm_path node vmid ["snapshot"]) []
  | OpCreateVmSnapshot node vmid snapname vmstate description =>
      mkReq POST (vm_path node vmid ["snapshot"])
        (set_opt (set_opt [("snapname", JStr snapname)] "vmstate" py_int_bool vmstate)
           "description" JStr description)
  | OpDeleteVmSnapshot node vmid snapname =>
      mkReq DELETE (vm_path node vmid ["snapshot"; snapname]) []
  | OpRollbackVmSnapshot node vmid snapname =>
      mkReq POST (vm_path node vmid ["snapshot"; snapname; "rollback"]) []
  | OpCloneVm node vmid target newid name full storage =>
      mkReq POST (vm_path node vmid ["clone"])
        (set_opt (set_opt (set_opt (set_opt (set_opt [] "target" JStr target)
           "newid" JStr newid) "name" JStr name) "full" py_int_bool full) "storage" JStr storage)
  | OpMigrateVm node vmid target online =>
      mkReq POST (vm_path node vmid ["migrate"])
        (set_opt [("target", JStr target)] "online" py_int_bool online)
  | OpUpdateVmConfig node vmid changes => mkReq POST (vm_path node vmid ["config"]) changes
  | OpResizeVmDisk node vmid disk size =>
      mkReq POST (vm_path node vmid ["resize"]) [("disk", JStr disk); ("size", JStr size)]
  | OpVncproxy node vmid => mkReq POST (vm_path node vmid ["vncproxy"]) []
  | OpSpiceproxy node vmid => mkReq POST (vm_path node vmid ["spiceproxy"]) []
  | OpMoveDisk node vmid disk storage =>
      mkReq POST (vm_path node vmid ["move_disk"]) [("disk", JStr disk); ("storage", JStr storage)]
  | OpImportDisk node vmid source storage =>
      mkReq POST (vm_path node vmid ["importdisk"])
        [("source", JStr source); ("storage", JStr storage)]
  | OpAttachDisk node vmid disk opts => mkReq POST (vm_path node vmid ["config"]) [(disk, JObj opts)]
  | OpDetachDisk node vmid disk => mkReq POST (vm_path node vmid ["config"]) [(disk, JStr "")]
  | OpGetNodes => mkReq GET [JStr "nodes"] []
  | OpGetNodeStatus node => mkReq GET (lits ["nodes"; node; "status"]) []
  | OpGetTaskStatus node upid => mkReq GET (lits ["nodes"; node; "tasks"; upid; "status"]) []
  | OpGetTaskLog node upid => mkReq GET (lits ["nodes"; node; "tasks"; upid; "log"]) []
  | OpGetStorage => mkReq GET [JStr "storage"] []
  | OpGetStorageContent node storage =>
      mkReq GET (lits ["nodes"; node; "storage"; storage; "content"]) []
  | OpDeleteStorageContent node storage volume =>
      mkReq DELETE (lits ["nodes"; node; "storage"; storage; "content"; volume]) []
  | OpListUsers => mkReq GET (lits ["access"; "users"]) []
  | OpCreateUser user password comment expire enable =>
      mkReq POST (lits ["access"; "users"])
        (set_opt (set_opt (set_opt (set_opt [("userid", JStr user)] "password" JStr password)
           "comment" JStr comment) "expire" JInt expire) "enable" py_int_bool enable)
  | OpUpdateUser user changes => mkReq PUT (lits ["access"; "users"; user]) changes
  | OpDeleteUser user => mkReq DELETE (lits ["access"; "users"; user]) []
  | OpListGroups => mkReq GET (lits ["access"; "groups"]) []
  | OpCreateGroup groupid comment =>
      mkReq POST (lits ["access"; "groups"]) (set_opt [("groupid", JStr groupid)] "comment" JStr comment)
  | OpDeleteGroup groupid => mkReq DELETE (lits ["access"; "groups"; groupid]) []
  | OpListRoles => mkReq GET (lits ["access"; "roles"]) []
  | OpCreateRole roleid privs =>
      mkReq POST (lits ["access"; "roles"]) [("roleid", JStr roleid); ("privs", JStr privs)]
  | OpDeleteRole roleid => mkReq DELETE (lits ["access"; "roles"; roleid]) []
  | OpGetAcl => mkReq GET (lits ["access"; "acl"]) []
  | OpSetAcl path roles users groups propagate delete =>
      mkReq PUT (lits ["access"; "acl"])
        (set_opt (set_opt (set_opt (set_opt (set_opt [("path", JStr path)] "roles" JStr roles)
           "users" JStr users) "groups" JStr groups) "propagate" py_int_bool propagate)
           "delete" py_int_bool delete)
  | OpListDcRules => mkReq GET (lits ["cluster"; "firewall"; "rules"]) []
  | OpAddDcRule rule => mkReq POST (lits ["cluster"; "firewall"; "rules"]) rule
  | OpDeleteDcRule pos => mkReq DELETE (lits ["cluster"; "firewall"; "rules"] ++ [JInt pos]) []
  | OpListPools => mkReq GET (lits ["pools"]) []
  | OpCreatePool poolid comment =>
      mkReq POST (lits ["pools"]) (set_truthy [("poolid", JStr poolid)] "comment" comment)
  | OpDeletePool poolid => mkReq DELETE (lits ["pools"; poolid]) []
  | OpVzdump node params => mkReq POST (lits ["nodes"; node; "vzdump"]) params
  | OpListServices node => mkReq GET (lits ["nodes"; node; "services"]) []
  | OpServiceAction node service action =>
      mkReq POST (lits ["nodes"; node; "services"; service; action]) []
  | OpNetworkGet node => mkReq GET (lits ["nodes"; node; "network"]) []
  | OpNetworkApply node => mkReq POST (lits ["nodes"; node; "network"; "apply"]) []
  | OpListUpdates node => mkReq GET (lits ["nodes"; node; "apt"; "update"]) []
  | OpListRepositories node => mkReq GET (lits ["nodes"; node; "apt"; "repositories"]) []
  | OpGetCertificates node => mkReq GET (lits ["nodes"; node; "certificates"; "info"]) []
  | OpListDisks node => mkReq GET (lits ["nodes"; node; "disks"; "list"]) []
  | OpHaListGroups => mkReq GET (lits ["cluster"; "ha"; "groups"]) []
  | OpHaCreateGroup group nodes comment =>
      mkReq POST (lits ["cluster"; "ha"; "groups"])
        (set_truthy [("group", JStr group); ("nodes", JStr nodes)] "comment" comment)
  | OpHaListResources => mkReq GET (lits ["cluster"; "ha"; "resources"]) []
  | OpHaAddResource sid group =>
      mkReq POST (lits ["cluster"; "ha"; "resources"]) [("sid", JStr sid); ("group", JStr group)]
  | OpHaDeleteResource sid => mkReq DELETE (lits ["cluster"; "ha"; "resources"; sid]) []
  | OpReplicationListJobs => mkReq GET (lits ["cluster"; "replication"]) []
  | OpReplicationCreateJob job => mkReq POST (lits ["cluster"; "replication"]) job
  | OpReplicationDeleteJob jobid => mkReq DELETE (lits ["cluster"; "replication"; jobid]) []
  | OpListZones => mkReq GET (lits ["cluster"; "sdn"; "zones"]) []
  | OpListVnets => mkReq GET (lits ["cluster"; "sdn"; "vnets"]) []
  | OpCephStatus node => mkReq GET (lits ["nodes"; node; "ceph"; "status"]) []
  | OpCephDf node => mkReq GET (lits ["nodes"; node; "ceph"; "df"]) []
  | OpProxmoxRequest method path params data => passthrough_request method path params data
  end%list.

(** The tools whose source returns [json.dumps({"task": result})]. *)
Definition wraps (op : single_op) : bool :=
  match op with
  | OpCreateVmSnapshot _ _ _ _ _ | OpDeleteVmSnapshot _ _ _ | OpRollbackVmSnapshot _ _ _
  | OpCloneVm _ _ _ _ _ _ _ | OpMigrateVm _ _ _ _ | OpUpdateVmConfig _ _ _
  | OpResizeVmDisk _ _ _ _ | OpMoveDisk _ _ _ _ | OpImportDisk _ _ _ _
  | OpAttachDisk _ _ _ _ | OpDetachDisk _ _ _ | OpServiceAction _ _ _ | OpVzdump _ _ => true
  | _ => false
  end.

(** The arguments for which the tool reaches its request: the passthrough
    needs a non-empty path and one of its four methods; [service_action]
    an action that the resource resolves to a path segment. *)
Definition op_valid (op : single_op) : bool :=
  match op with
  | OpProxmoxRequest method path _ _ =>
      negb (String.eqb path "") &&
      existsb (String.eqb (upper method)) ["GET"; "POST"; "PUT"; "DELETE"]
  | OpServiceAction _ _ action =>
      negb (starts_with "_" action) && negb (existsb (String.eqb action) resource_methods)
  | _ => true
  end.


(* ------------------------------------------------------------------ *)
(** ** Tool registration ([server.py]) *)

(** [Field(ge=lo, le=hi)] *)
Definition in_range (lo hi x : Z) : bool := (lo <=? x)%Z && (x <=? hi)%Z.

(** The arguments of a registered tool are validated against its
    annotations before the body runs; a violation is reported to the caller
    as a parameter-validation failure, the spec's InvalidArgument (4.5). *)
Definition validation_error {A} (tool : string) : M A :=
  raise (ToolError InvalidArgument ("validation error for " ++ tool)).

Section Registration.

Variable api : request -> response.

(** [ContainerTools.stop_container] and [ContainerTools.restart_container]
    (their bodies are not among the sources; only their registration is
    used here). *)
Variable stop_container_body : string -> bool -> Z -> string -> M (list content).
Variable restart_container_body : string -> Z -> string -> M (list content).

(** [create_vm]: [cpus] in [1, 32], [memory] in [512, 131072],
    [disk_size] in [5, 1000]. *)
Definition create_vm_tool (node vmid name : string) (cpus memory disk_size : Z)
  (storage ostype : option string) : M (list content) :=
  if in_range 1 32 cpus && in_range 512 131072 memory && in_range 5 1000 disk_size
  then create_vm api node vmid name cpus memory disk_size storage ostype
  else validation_error "create_vm".

(** [stop_container]: [timeout_seconds] in [1, 600], [format_style] one of
    the literals ["pretty"], ["json"]. *)
Definition stop_container_tool (selector : string) (graceful : bool)
  (timeout_seconds : Z) (format_style : string) : M (list content) :=
  if in_range 1 600 timeout_seconds &&
     existsb (String.eqb format_style) ["pretty"; "json"]
  then stop_container_body selector graceful timeout_seconds format_style
  else validation_error "stop_container".

(** [restart_container]: [timeout_seconds] in [1, 600], [format_style]
    matching [^(pretty|json)$]. *)
Definition restart_container_tool (selector : string) (timeout_seconds : Z)
  (format_style : string) : M (list content) :=
  if in_range 1 600 timeout_seconds &&
     existsb (String.eqb format_style) ["pretty"; "json"]
  then restart_container_body selector timeout_seconds format_style
  else validation_error "restart_container".

Variable start_container_body : string -> string -> M (list content).

(** [start_container]: [format_style] matching [^(pretty|json)$]. *)
Definition start_container_tool (selector format_style : string) : M (list content) :=
  if existsb (String.eqb format_style) ["pretty"; "json"]
  then start_container_body selector format_style
  else validation_error "start_container".

(** [proxmox_request]: the [ProxmoxRequest] model admits the methods
    "GET", "POST", "PUT" and "DELETE" only; [params] and [data] of [None]
    are the empty dict. *)
Definition proxmox_request_tool (method path : string)
  (params data : list (string * json)) : M (list content) :=
  if existsb (String.eqb method) ["GET"; "POST"; "PUT"; "DELETE"]
  then proxmox_request api method path params data
  else validation_error "ProxmoxRequest".

End Registration.

(* ------------------------------------------------------------------ *)
(** ** The storage priority of the spec (for the refinement of C8) *)

(** A storage list entry as the spec sees it: its name and its content
    field ([""] when absent). *)
Definition storage_entry (s : json) : option (string * string) :=
  match s with
  | JObj l =>
      match dict_lookup l "storage", dict_lookup l "content" with
      | Some (JStr n), None => Some (n, "")
      | Some (JStr n), Some (JStr c) => Some (n, c)
      | _, _ => None
      end
  | _ => None
  end.

Definition supports_images (e : string * string) : bool := contains "images" (snd e).

(** "local-lvm" supporting images, then "vm-storage" supporting images,
    then the first storage in list order supporting images. *)
Definition spec_select (l : list (string * string)) : option string :=
  match find (fun e => String.eqb (fst e) "local-lvm" && supports_images e) l with
  | Some e => Some (fst e)
  | None =>
      match find (fun e => String.eqb (fst e) "vm-storage" && supports_images e) l with
      | Some e => Some (fst e)
      | None => option_map fst (find supports_images l)
      end
  end.

(* ------------------------------------------------------------------ *)
(** ** Vocabulary of the statements *)

(** [vm.get(k)] of a coarse listing entry ([None] when absent) *)
Definition coarse_field (vm : json) (k : string) : json :=
  match vm with
  | JObj l => match dict_lookup l k with Some v => v | None => JNull end
  | _ => JNull
  end.

(** The entry of a VM built from the fields of the coarse per-node listing
    only. *)
Definition coarse_entry (node_name vm : json) : json :=
  JObj [("vmid", coarse_field vm "vmid"); ("name", coarse_field vm "name");
        ("status", coarse_field vm "status"); ("node", node_name);
        ("cpus", JNull); ("mem", coarse_field vm "mem");
        ("maxmem", coarse_field vm "maxmem")].

(** The requests [get_vms] may issue: the node enumeration and the coarse
    per-node listings. *)
Definition listing_request (r : request) : Prop :=
  r_verb r = GET /\ r_args r = [] /\
  (r_path r = [JStr "nodes"] \/ exists n, r_path r = [JStr "nodes"; n; JStr "qemu"]).

Definition verb_name (v : verb) : string :=
  match v with GET => "GET" | POST => "POST" | PUT => "PUT" | DELETE => "DELETE" end.

(** The keyword arguments the passthrough sends with each verb. *)
Definition passthrough_args (v : verb) (params data : list (string * json))
  : list (string * json) :=
  match v with GET | DELETE => params | POST | PUT => dict_merge params data end.

Fixpoint slashes (k : nat) : string :=
  match k with O => "" | S k' => String "/" (slashes k') end.

(** A small cluster: node [pve] with VM 100 running and VM 101 stopped,
    two storages; every write answers with a task identifier. *)
Definition demo_api (r : request) : response :=
  match r_verb r, r_path r with
  | GET, [JStr "nodes"] => ROk (JArr [JObj [("node", JStr "pve")]])
  | GET, [JStr "nodes"; JStr "pve"; JStr "qemu"] =>
      ROk (JArr [JObj [("vmid", JInt 100); ("name", JStr "web"); ("status", JStr "running")];
                 JObj [("vmid", JInt 101); ("name", JStr "db"); ("status", JStr "stopped")]])
  | GET, [JStr "nodes"; JStr "pve"; JStr "qemu"; JStr "100"; JStr "status"; JStr "current"] =>
      ROk (JObj [("status", JStr "running"); ("name", JStr "web")])
  | GET, [JStr "nodes"; JStr "pve"; JStr "qemu"; JStr "101"; JStr "status"; JStr "current"] =>
      ROk (JObj [("status", JStr "stopped"); ("name", JStr "db")])
  | GET, [JStr "nodes"; JStr "pve"; JStr "storage"] =>
      ROk (JArr [JObj [("storage", JStr "local"); ("content", JStr "iso,vztmpl,backup"); ("type", JStr "dir")];
                 JObj [("storage", JStr "local-lvm"); ("content", JStr "images,rootdir"); ("type", JStr "lvmthin")]])
  | GET, [JStr "storage"] => ROk (JArr [JObj [("storage", JStr "local"); ("type", JStr "dir")]])
  | GET, _ => RErr "Configuration file does not exist"
  | _, _ => ROk (JStr "UPID:pve:0001:task")
  end.

(** [m] only appends requests satisfying [P] to the trace. *)
Definition appends_only {A} (P : request -> Prop) (m : M A) : Prop :=
  forall tr, exists added, snd (m tr) = (tr ++ added)%list /\ Forall P added.

(** An entry of the listing whose "cpus" field is [null]. *)
Definition cpus_null (e : json) : Prop :=
  exists l, e = JObj l /\ dict_lookup l "cpus" = Some JNull.

(** The status read that precedes the power operations. *)
Definition status_req (node vmid : string) : request :=
  mkReq GET (vm_path node vmid ["status"; "current"]) [].


(** The common shape of the power operations of [tools/vm.py]: read the
    status, answer [skip_text] when it is already [skip], otherwise post to
    [status/<seg>]; a "does not exist" or "not found" failure becomes a
    [ValueError]. *)
Definition guarded_op (api : request -> response) (node vmid skip seg : string)
  (skip_text : string) (ok_text : json -> string) (operation : string)
  : M (list content) :=
  try_except
    (vm_status <- call api (status_req node vmid) ;;
     current_status <- py_get vm_status "status" JNull ;;
     if py_eq_str current_status skip then ret [Text skip_text]
     else
       task_result <- call api (mkReq POST (vm_path node vmid ["status"; seg]) []) ;;
       ret [Text (ok_text task_result)])
    (fun e => if vm_missing e
              then raise (ValueError ("VM " ++ vmid ++ " not found on node " ++ node))
              else handle_error operation e).

Definition power_req (node vmid seg : string) : request :=
  mkReq POST (vm_path node vmid ["status"; seg]) [].

(** The delete request of [delete_vm]. *)
Definition del_req (node vmid : string) : request :=
  mkReq DELETE (vm_path node vmid []) [].

(** The three parts of [delete_vm]: the status block, the rest of the
    [try] body, and the [except] branches. *)
Definition delete_status (api : request -> response) (node vmid : string) : M (json * json) :=
  try_except
    (vm_status <- call api (status_req node vmid) ;;
     current_status <- py_get vm_status "status" JNull ;;
     vm_name <- py_get vm_status "name" (JStr ("VM-" ++ vmid)) ;;
     ret (current_status, vm_name))
    (fun e => if vm_missing e
              then raise (ValueError ("VM " ++ vmid ++ " not found on node " ++ node))
              else raise e).

Definition delete_rest (api : request -> response) (node vmid : string) (force : bool)
  (st : json * json) : M (list content) :=
  let '(current_status, vm_name) := st in
  prefix <-
    (if py_eq_str current_status "running" then
       if negb force then
         raise (ValueError ("VM " ++ vmid ++ " (" ++ py_str vm_name ++ ") is currently running. " ++
                            "Please stop it first or use force=True to stop and delete."))
       else
         call api (power_req node vmid "stop") ;;;
         ret ("🛑 Stopping VM " ++ vmid ++ " (" ++ py_str vm_name ++ ") before deletion..." ++ nl)
     else ret ("🗑️ Deleting VM " ++ vmid ++ " (" ++ py_str vm_name ++ ")..." ++ nl)) ;;
  task_result <- call api (del_req node vmid) ;;
  ret [Text (prefix ++ delete_vm_text node vmid vm_name task_result)].

Definition delete_handler (vmid : string) (e : exc) : M (list content) :=
  match e with
  | ValueError _ => raise e
  | _ => handle_error ("delete VM " ++ vmid) e
  end.

(** The requests of [create_vm]: the config read of the pre-check, the
    storage listing, and the create call with its keyword arguments. *)
Definition cfg_req (node vmid : string) : request :=
  mkReq GET (vm_path node vmid ["config"]) [].

Definition stor_req (node : string) : request :=
  mkReq GET (lits ["nodes"; node; "storage"]) [].

Definition create_req (node : string) (vm_config : list (string * json)) : request :=
  mkReq POST (lits ["nodes"; node; "qemu"]) vm_config.

(** The parts of [create_vm]: the pre-check on the VM id, what follows the
    storage listing, and the [except] branches. *)
Definition create_precheck (api : request -> response) (node vmid : string) : M json :=
  try_except
    (existing_vm <- call api (cfg_req node vmid) ;;
     raise (ValueError ("VM " ++ vmid ++ " already exists on node " ++ node)))
    (fun e => if negb (contains "does not exist" (lower (exc_str e)))
              then raise e else ret JNull).

Definition create_after_list (api : request -> response) (node vmid name : string)
  (cpus memory disk_size : Z) (storage : option string) (ostype : option string)
  (storage_list : json) : M (list content) :=
  sl <- py_iter storage_list ;;
  storage_info <- build_storage_info sl [] ;;
  storage <- (match storage with
              | None => autodetect_storage sl
              | Some s => ret (JStr s)
              end) ;;
  known <- py_dict_in storage_info storage ;;
  if negb known then
    raise (ValueError ("Storage '" ++ py_str storage ++ "' not found on node " ++ node))
  else
  info <- py_dict_getitem storage_info storage ;;
  c <- py_get info "content" (JStr "") ;;
  has_images <- py_in_str "images" c ;;
  if negb has_images then
    raise (ValueError ("Storage '" ++ py_str storage ++ "' does not support VM images"))
  else
  storage_type <- getitem info "type" ;;
  let scsi0 := fun fmt => JStr (py_str storage ++ ":" ++ dec_Z disk_size ++ ",format=" ++ fmt) in
  let '(disk_format, vm_config_storage) :=
    if py_in_lits storage_type ["lvm"; "lvmthin"] then
      ("raw", [("scsi0", scsi0 "raw")])
    else if py_in_lits storage_type ["dir"; "nfs"; "cifs"] then
      ("qcow2", [("scsi0", scsi0 "qcow2");
                 ("ide2", JStr (py_str storage ++ ":cloudinit"))])
    else ("raw", [("scsi0", scsi0 "raw")]) in
  let ostype := match ostype with None => "l26" | Some o => o end in
  let vm_config :=
    [("vmid", JStr vmid); ("name", JStr name); ("cores", JInt cpus);
     ("memory", JInt memory); ("ostype", JStr ostype);
     ("scsihw", JStr "virtio-scsi-pci"); ("boot", JStr "order=scsi0");
     ("agent", JStr "1"); ("vga", JStr "std");
     ("net0", JStr "virtio,bridge=vmbr0")] in
  let vm_config := dict_merge vm_config vm_config_storage in
  task_result <- call api (mkReq POST (lits ["nodes"; node; "qemu"]) vm_config) ;;
  let cloudinit_note :=
    if py_in_lits storage_type ["lvm"; "lvmthin"]
    then nl ++ "  ⚠️  Note: LVM storage doesn't support cloud-init image"
    else "" in
  ret [Text (create_vm_text node vmid name cpus memory disk_size storage
               disk_format storage_type ostype cloudinit_note task_result)].

Definition create_handler (vmid : string) (e : exc) : M (list content) :=
  match e with
  | ValueError _ => raise e
  | _ => handle_error ("create VM " ++ vmid) e
  end.

(** [storage_info[name]] after the loop of [create_vm]: the last entry of
    the listing whose "storage" is [name] (a later entry overwrites an
    earlier one). *)
Fixpoint last_named (sl : list json) (name : string) (acc : option json) : option json :=
  match sl with
  | [] => acc
  | s :: t => last_named t name (if py_eq_str (coarse_field s "storage") name then Some s else acc)
  end.

(** The keyword arguments [create_vm] sends for a storage [st] of type
    [ty]: the fixed configuration, then the disk (and, on file storages,
    the cloud-init drive). *)
Definition vm_config_base (vmid name : string) (cpus memory : Z) (ostype : option string)
  : list (string * json) :=
  [("vmid", JStr vmid); ("name", JStr name); ("cores", JInt cpus);
   ("memory", JInt memory); ("ostype", JStr (match ostype with None => "l26" | Some o => o end));
   ("scsihw", JStr "virtio-scsi-pci"); ("boot", JStr "order=scsi0");
   ("agent", JStr "1"); ("vga", JStr "std"); ("net0", JStr "virtio,bridge=vmbr0")].

Definition expected_vm_config (vmid name : string) (cpus memory disk_size : Z)
  (st ty : string) (ostype : option string) : list (string * json) :=
  let disk := fun fmt => ("scsi0", JStr (st ++ ":" ++ dec_Z disk_size ++ ",format=" ++ fmt)) in
  if String.eqb ty "lvm" || String.eqb ty "lvmthin" then
    vm_config_base vmid name cpus memory ostype ++ [disk "raw"]
  else if String.eqb ty "dir" || (String.eqb ty "nfs" || String.eqb ty "cifs") then
    vm_config_base vmid name cpus memory ostype ++ [disk "qcow2"; ("ide2", JStr (st ++ ":cloudinit"))]
  else vm_config_base vmid name cpus memory ostype ++ [disk "raw"].

(** [m] issues no request. *)
Definition pure_m {A} (m : M A) : Prop := forall tr, snd (m tr) = tr.

(** Every character of [s] is ASCII. *)
Fixpoint ascii_only (s : string) : bool :=
  match s with
  | EmptyString => true
  | String c s' => (nat_of_ascii c <? 128) && ascii_only s'
  end.

(** A keyword argument given only when the option is not [None]. *)
Definition opt_arg (k : string) (o : option json) : list (string * json) :=
  match o with Some v => [(k, v)] | None => [] end.

(** [m] issues exactly the request [r], and when [r] answers [raw] it
    returns one text block that decodes to [{"task": raw}]. *)
Definition task_tool (api : request -> response) (m : M (list content)) (r : request) : Prop :=
  forall tr,
    snd (m tr) = (tr ++ [r])%list /\
    forall raw, api r = ROk raw -> wf raw = true ->
      exists t, fst (m tr) = Ok [Text t] /\ loads t = Some (JObj [("task", raw)]).

(* ------------------------------------------------------------------ *)
(** ** Auxiliary notions of the proofs on the JSON layer *)

Open Scope Z_scope.

Definition valid_cp (c : Z) : Prop := 0 <= c < 0x110000.

(** No [\uXXXX] escape of a low surrogate (or a malformed one) starts the text. *)
Definition pair_free (X : string) : Prop :=
  forall g1 g2 g3 g4 t,
    X = String bsl (String "u" (String g1 (String g2 (String g3 (String g4 t))))) ->
    t <> EmptyString ->
    exists w, hex4_val g1 g2 g3 g4 = Some w /\ is_low w = false.

(** [R num den k]: 2^k <= num / den *)
Definition R (num den k : Z) : Prop := den * 2 ^ Z.max 0 k <= num * 2 ^ Z.max 0 (- k).

Fixpoint all_digits (s : string) : bool :=
  match s with
  | EmptyString => true
  | String c t => is_digit c && all_digits t
  end.

(** an integer part as [_match_number_unicode] takes it: "0", or digits
    without a leading zero *)
Definition ip_ok (ip : string) : Prop :=
  exists c t, ip = String c t /\ is_digit c = true /\ all_digits t = true /\
              (Ascii.eqb c "0"%char = true -> t = EmptyString).

Definition frac (fp : string) : string :=
  match fp with
  | EmptyString => EmptyString
  | String _ _ => String "." fp
  end.

Definition expo (ex : option Z) : string :=
  match ex with
  | Some x => "e" ++ fmt_exp x
  | None => EmptyString
  end.

Definition sgn (neg : bool) : string := if neg then "-" else "".

Definition num_val (neg : bool) (ip fp : string) (ex : option Z) : json :=
  match ex with
  | Some x => JFloat (float_of_dec neg (digits_val (ip ++ fp)) (x - Z.of_nat (String.length fp)))
  | None =>
      if String.eqb fp "" then JInt (if neg then (- digits_val ip)%Z else digits_val ip)
      else JFloat (float_of_dec neg (digits_val (ip ++ fp)) (- Z.of_nat (String.length fp)))
  end.

Definition nd_head (X : string) : bool :=
  match X with
  | String c _ => negb (is_digit c)
  | EmptyString => true
  end.

Close Scope Z_scope.

(* ================================================================== *)
(** * Proofs *)

(** ** [json.loads] inverts [json.dumps] *)

Example loads_dumps_example :
  let j := JObj [("node", JStr "pve"); ("vmid", JInt 100); ("tags", JArr [JNull; JBool true; JInt (-7)]);
                 ("load", JFloat (FFin false 7205759403792794 (-56)));
                 ("q", JStr (String dq (String bsl (String (chr 10) (String (chr 195) (String (chr 169) "x"))))))] in
  loads (dumps j) = Some j.
Proof. vm_compute. reflexivity. Qed.


Lemma sapp_assoc : forall a b c : string, (a ++ b) ++ c = a ++ (b ++ c).
Proof. induction a; intros; simpl; [reflexivity | now rewrite IHa]. Qed.

Lemma sapp_nil_r : forall a : string, a ++ "" = a.
Proof. induction a; simpl; [reflexivity | now rewrite IHa]. Qed.

Lemma slength_app : forall a b : string,
  String.length (a ++ b) = String.length a + String.length b.
Proof. induction a; intros; simpl; [reflexivity | now rewrite IHa]. Qed.

Open Scope Z_scope.

Lemma byte_chrZ : forall z, 0 <= z < 256 -> byte (chrZ z) = z.
Proof.
  intros z Hz. unfold byte, chrZ. rewrite N_ascii_embedding.
  - apply Z2N.id. lia.
  - apply N2Z.inj_lt. rewrite Z2N.id by lia. simpl. lia.
Qed.

Lemma chrZ_byte : forall c, chrZ (byte c) = c.
Proof. intros c. unfold byte, chrZ. rewrite N2Z.id. apply ascii_N_embedding. Qed.

Lemma byte_range : forall c, 0 <= byte c < 256.
Proof.
  intros c. unfold byte. pose proof (N_ascii_bounded c). split; [lia|].
  apply N2Z.inj_lt in H. exact H.
Qed.

Lemma byte_inj : forall c d, byte c = byte d -> c = d.
Proof. intros c d H. rewrite <- (chrZ_byte c), <- (chrZ_byte d), H. reflexivity. Qed.

Lemma land_ones_mod : forall x n, 0 <= n -> Z.land x (Z.ones n) = x mod 2 ^ n.
Proof. intros. apply Z.land_ones. assumption. Qed.

Lemma land63 : forall x, Z.land x 63 = x mod 64.
Proof. intros x. apply (land_ones_mod x 6). lia. Qed.

Lemma land15 : forall x, Z.land x 15 = x mod 16.
Proof. intros x. apply (land_ones_mod x 4). lia. Qed.

Lemma land1023 : forall x, Z.land x 0x3FF = x mod 1024.
Proof. intros x. apply (land_ones_mod x 10). lia. Qed.

Lemma shr : forall x n, 0 <= n -> Z.shiftr x n = x / 2 ^ n.
Proof. intros. apply Z.shiftr_div_pow2. assumption. Qed.

Ltac bits :=
  rewrite ?land63, ?land15, ?land1023 in *;
  rewrite ?(shr _ 6), ?(shr _ 12), ?(shr _ 18), ?(shr _ 10), ?(shr _ 8), ?(shr _ 4) in * by lia;
  cbn [Z.pow Z.pow_pos Pos.iter Z.mul Pos.mul] in *.

Ltac zlia := Z.to_euclidean_division_equations; lia.

(** Rewrite the comparisons whose value [zlia] decides. *)
Ltac zb :=
  repeat match goal with
  | |- context [?x <? ?y] =>
      first [ rewrite (proj2 (Z.ltb_lt x y)) by zlia
            | rewrite (proj2 (Z.ltb_ge x y)) by zlia ]
  | |- context [?x <=? ?y] =>
      first [ rewrite (proj2 (Z.leb_le x y)) by zlia
            | rewrite (proj2 (Z.leb_gt x y)) by zlia ]
  | |- context [?x =? ?y] =>
      first [ rewrite (proj2 (Z.eqb_eq x y)) by zlia
            | rewrite (proj2 (Z.eqb_neq x y)) by zlia ]
  end; cbn [andb orb negb].


Lemma decode_enc : forall c s, valid_cp c ->
  decode (utf8_enc c ++ s) = option_map (cons c) (decode s).
Proof.
  intros c s [H0 H1]. unfold utf8_enc. bits.
  destruct (Z.ltb_spec c 0x80).
  - cbn [str1 append decode]. rewrite byte_chrZ by lia. zb. reflexivity.
  - destruct (Z.ltb_spec c 0x800).
    + cbn [str1 append decode]. unfold cont. rewrite !byte_chrZ by zlia. zb.
      replace ((0xC0 + c / 64 - 0xC0) * 64 + (0x80 + c mod 64 - 0x80)) with c by zlia.
      reflexivity.
    + destruct (Z.ltb_spec c 0x10000).
      * cbn [str1 append decode]. unfold cont. rewrite !byte_chrZ by zlia. zb.
        replace (((0xE0 + c / 4096 - 0xE0) * 64 + (0x80 + c / 64 mod 64 - 0x80)) * 64
                 + (0x80 + c mod 64 - 0x80)) with c by zlia.
        zb. reflexivity.
      * cbn [str1 append decode]. unfold cont. rewrite !byte_chrZ by zlia. zb.
        replace ((((0xF0 + c / 262144 - 0xF0) * 64 + (0x80 + c / 4096 mod 64 - 0x80)) * 64
                 + (0x80 + c / 64 mod 64 - 0x80)) * 64 + (0x80 + c mod 64 - 0x80)) with c
          by zlia.
        zb. reflexivity.
Qed.

Lemma decode_encode : forall cs, Forall valid_cp cs -> decode (encode cs) = Some cs.
Proof.
  induction cs as [|c cs IH]; intros F; [reflexivity|].
  inversion F; subst. simpl encode. rewrite decode_enc by assumption.
  rewrite IH by assumption. reflexivity.
Qed.

Lemma cont_some : forall c x, cont c = Some x -> x = byte c - 0x80 /\ 0 <= x < 64.
Proof.
  intros c x H. unfold cont in H.
  destruct ((0x80 <=? byte c) && (byte c <? 0xC0)) eqn:E; [|discriminate].
  apply andb_prop in E as [E1 E2]. apply Z.leb_le in E1. apply Z.ltb_lt in E2.
  injection H as <-. lia.
Qed.

Lemma decode_sound_n : forall n s cs, (String.length s <= n)%nat -> decode s = Some cs ->
  encode cs = s /\ Forall valid_cp cs.
Proof.
  induction n as [|n IH]; intros s cs Hn H.
  { destruct s; [|simpl in Hn; lia]. injection H as <-. split; [reflexivity | constructor]. }
  destruct s as [|c t]; [injection H as <-; split; [reflexivity | constructor]|].
  simpl in Hn. cbn [decode] in H. pose proof (byte_range c) as Rc.
  destruct (Z.ltb_spec (byte c) 0x80).
  { destruct (decode t) as [cs'|] eqn:D; [|discriminate]. injection H as <-.
    destruct (IH t cs') as [E V]; [lia | assumption|].
    split; [|constructor; [red; lia | assumption]].
    cbn [encode]. unfold utf8_enc. zb. cbn [str1 append]. rewrite chrZ_byte, E. reflexivity. }
  destruct ((0xC2 <=? byte c) && (byte c <? 0xE0)) eqn:B2.
  { apply andb_prop in B2 as [B2a B2b]. apply Z.leb_le in B2a. apply Z.ltb_lt in B2b.
    destruct t as [|c1 t1]; [discriminate|].
    destruct (cont c1) as [x1|] eqn:C1; [|discriminate].
    apply cont_some in C1 as [-> R1].
    destruct (decode t1) as [cs'|] eqn:D; [|discriminate]. injection H as <-.
    simpl in Hn. destruct (IH t1 cs') as [E V]; [lia | assumption|].
    split; [|constructor; [red; zlia | assumption]].
    cbn [encode]. unfold utf8_enc. bits. zb. cbn [str1 append].
    rewrite E.
    replace (0xC0 + ((byte c - 0xC0) * 64 + (byte c1 - 0x80)) / 64) with (byte c) by zlia.
    replace (0x80 + ((byte c - 0xC0) * 64 + (byte c1 - 0x80)) mod 64) with (byte c1) by zlia.
    rewrite !chrZ_byte. reflexivity. }
  destruct ((0xE0 <=? byte c) && (byte c <? 0xF0)) eqn:B3.
  { apply andb_prop in B3 as [B3a B3b]. apply Z.leb_le in B3a. apply Z.ltb_lt in B3b.
    destruct t as [|c1 [|c2 t2]]; try discriminate.
    destruct (cont c1) as [x1|] eqn:C1; [|discriminate].
    destruct (cont c2) as [x2|] eqn:C2; [|discriminate].
    apply cont_some in C1 as [-> R1]. apply cont_some in C2 as [-> R2].
    match type of H with context [if 0x800 <=? ?v then _ else _] => set (cp := v) in H end.
    destruct (Z.leb_spec 0x800 cp) as [L|L]; [|discriminate].
    destruct (decode t2) as [cs'|] eqn:D; [|discriminate]. injection H as <-.
    simpl in Hn. destruct (IH t2 cs') as [E V]; [lia | assumption|].
    split; [|constructor; [red; subst cp; zlia | assumption]].
    cbn [encode]. unfold utf8_enc. bits. subst cp. zb. cbn [str1 append].
    rewrite E.
    match goal with |- String (chrZ ?a) (String (chrZ ?b) (String (chrZ ?d) _)) = _ =>
      replace a with (byte c) by zlia; replace b with (byte c1) by zlia;
      replace d with (byte c2) by zlia end.
    rewrite !chrZ_byte. reflexivity. }
  destruct ((0xF0 <=? byte c) && (byte c <? 0xF5)) eqn:B4; [|discriminate].
  { apply andb_prop in B4 as [B4a B4b]. apply Z.leb_le in B4a. apply Z.ltb_lt in B4b.
    destruct t as [|c1 [|c2 [|c3 t3]]]; try discriminate.
    destruct (cont c1) as [x1|] eqn:C1; [|discriminate].
    destruct (cont c2) as [x2|] eqn:C2; [|discriminate].
    destruct (cont c3) as [x3|] eqn:C3; [|discriminate].
    apply cont_some in C1 as [-> R1]. apply cont_some in C2 as [-> R2].
    apply cont_some in C3 as [-> R3].
    match type of H with context [if (0x10000 <=? ?v) && _ then _ else _] =>
      set (cp := v) in H end.
    destruct ((0x10000 <=? cp) && (cp <? 0x110000)) eqn:L; [|discriminate].
    apply andb_prop in L as [La Lb]. apply Z.leb_le in La. apply Z.ltb_lt in Lb.
    destruct (decode t3) as [cs'|] eqn:D; [|discriminate]. injection H as <-.
    simpl in Hn. destruct (IH t3 cs') as [E V]; [lia | assumption|].
    split; [|constructor; [red; lia | assumption]].
    cbn [encode]. unfold utf8_enc. bits. subst cp. zb. cbn [str1 append].
    rewrite E.
    match goal with |- String (chrZ ?a) (String (chrZ ?b) (String (chrZ ?d) (String (chrZ ?g) _))) = _ =>
      replace a with (byte c) by zlia; replace b with (byte c1) by zlia;
      replace d with (byte c2) by zlia; replace g with (byte c3) by zlia end.
    rewrite !chrZ_byte. reflexivity. }
Qed.

Lemma decode_sound : forall s cs, decode s = Some cs -> encode cs = s /\ Forall valid_cp cs.
Proof. intros s cs. apply (decode_sound_n (String.length s)). lia. Qed.

Lemma hex_val_digit : forall d, 0 <= d < 16 -> hex_val (hex_digit d) = Some d.
Proof.
  intros d Hd.
  assert (d = 0 \/ d = 1 \/ d = 2 \/ d = 3 \/ d = 4 \/ d = 5 \/ d = 6 \/ d = 7 \/ d = 8
          \/ d = 9 \/ d = 10 \/ d = 11 \/ d = 12 \/ d = 13 \/ d = 14 \/ d = 15) as E by lia.
  repeat destruct E as [E|E]; subst; reflexivity.
Qed.

Lemma hex4_esc : forall v, 0 <= v < 0x10000 ->
  hex4_val (hex_digit (Z.land (Z.shiftr v 12) 15)) (hex_digit (Z.land (Z.shiftr v 8) 15))
           (hex_digit (Z.land (Z.shiftr v 4) 15)) (hex_digit (Z.land v 15)) = Some v.
Proof.
  intros v Hv. unfold hex4_val. bits.
  rewrite !hex_val_digit by zlia. f_equal. zlia.
Qed.


Lemma scan_u_gen : forall h1 h2 h3 h4 X v, hex4_val h1 h2 h3 h4 = Some v -> X <> EmptyString ->
  (is_high v = true -> pair_free X) ->
  scan_str (String bsl (String "u" (String h1 (String h2 (String h3 (String h4 X)))))) =
  prepend (utf8_enc v) (scan_str X).
Proof.
  intros h1 h2 h3 h4 X v H NE P. cbn [scan_str]. rewrite H.
  destruct X as [|x X']; [congruence|].
  cbn [Ascii.eqb simple_escape bsl dq chr ascii_of_nat nat_of_ascii]. simpl (Ascii.eqb _ _).
  destruct (is_high v) eqn:Hh; [|reflexivity].
  specialize (P eq_refl).
  destruct X' as [|u [|g1 [|g2 [|g3 [|g4 [|y Y]]]]]]; try reflexivity.
  destruct (Ascii.eqb x bsl && Ascii.eqb u "u"%char) eqn:E; [|reflexivity].
  apply andb_prop in E as [E1 E2]. apply Ascii.eqb_eq in E1, E2. subst.
  destruct (P g1 g2 g3 g4 (String y Y)) as [w [W1 W2]]; [reflexivity | discriminate |].
  rewrite W1, W2. reflexivity.
Qed.

Lemma scan_pair_gen : forall h1 h2 h3 h4 g1 g2 g3 g4 X v w,
  hex4_val h1 h2 h3 h4 = Some v -> is_high v = true ->
  hex4_val g1 g2 g3 g4 = Some w -> is_low w = true -> X <> EmptyString ->
  scan_str (String bsl (String "u" (String h1 (String h2 (String h3 (String h4
    (String bsl (String "u" (String g1 (String g2 (String g3 (String g4 X)))))))))))) =
  prepend (utf8_enc (join_surrogates v w)) (scan_str X).
Proof.
  intros h1 h2 h3 h4 g1 g2 g3 g4 X v w H1 Hh H2 Hl NE.
  destruct X as [|x X']; [congruence|].
  cbn [scan_str]. rewrite H1. cbn. rewrite Hh, H2, Hl. reflexivity.
Qed.

Lemma lor_shiftl_low : forall x y, 0 <= y < 1024 -> Z.lor (Z.shiftl x 10) y = x * 1024 + y.
Proof.
  intros x y Hy.
  assert (Z.land (Z.shiftl x 10) y = 0) as L.
  { apply Z.bits_inj'. intros i Hi. rewrite Z.land_spec, Z.bits_0.
    destruct (Z.lt_ge_cases i 10).
    - rewrite Z.shiftl_spec_low by lia. reflexivity.
    - rewrite <- (Z.mod_small y (2 ^ 10)) by (cbn; lia).
      rewrite Z.mod_pow2_bits_high by lia. apply andb_false_r. }
  rewrite <- Z.lxor_lor by exact L. rewrite <- Z.add_nocarry_lxor by exact L.
  rewrite Z.shiftl_mul_pow2 by lia. reflexivity.
Qed.

Lemma join_split : forall c, 0x10000 <= c < 0x110000 ->
  join_surrogates (0xD800 - Z.shiftr 0x10000 10 + Z.shiftr c 10) (0xDC00 + Z.land c 0x3FF) = c.
Proof.
  intros c Hc. unfold join_surrogates.
  change (Z.shiftr 0x10000 10) with 64. rewrite !land1023, (shr c 10) by lia.
  change (2 ^ 10) with 1024.
  rewrite lor_shiftl_low by zlia. zlia.
Qed.

Lemma esc_u_app : forall v X,
  esc_u v ++ X = String bsl (String "u" (String (hex_digit (Z.land (Z.shiftr v 12) 15))
    (String (hex_digit (Z.land (Z.shiftr v 8) 15)) (String (hex_digit (Z.land (Z.shiftr v 4) 15))
      (String (hex_digit (Z.land v 15)) X))))).
Proof. reflexivity. Qed.

Lemma chrZ_neq : forall c d, 0 <= c < 256 -> c <> byte d -> Ascii.eqb (chrZ c) d = false.
Proof.
  intros c d Hc H. apply Bool.not_true_is_false. intro E. apply Ascii.eqb_eq in E.
  apply H. rewrite <- E, byte_chrZ by lia. reflexivity.
Qed.

Lemma esc_cp_scan : forall c X, valid_cp c -> X <> EmptyString ->
  (is_high c = true -> pair_free X) ->
  scan_str (esc_cp c ++ X) = prepend (utf8_enc c) (scan_str X).
Proof.
  intros c X [H0 H1] NE P. unfold esc_cp.
  destruct (Z.eqb_spec c 34); [subst; reflexivity|].
  destruct (Z.eqb_spec c 92); [subst; reflexivity|].
  destruct (Z.eqb_spec c 8); [subst; reflexivity|].
  destruct (Z.eqb_spec c 12); [subst; reflexivity|].
  destruct (Z.eqb_spec c 10); [subst; reflexivity|].
  destruct (Z.eqb_spec c 13); [subst; reflexivity|].
  destruct (Z.eqb_spec c 9); [subst; reflexivity|].
  destruct ((32 <=? c) && (c <=? 126)) eqn:Pr.
  { apply andb_prop in Pr as [Pa Pb]. apply Z.leb_le in Pa, Pb.
    cbn [str1 append scan_str].
    rewrite (chrZ_neq c dq), (chrZ_neq c bsl) by (first [lia | exact n | exact n0]).
    rewrite byte_chrZ by lia. zb.
    unfold utf8_enc. zb. reflexivity. }
  destruct (Z.ltb_spec c 0x10000).
  { rewrite esc_u_app. apply scan_u_gen; [apply hex4_esc; lia | exact NE | exact P]. }
  rewrite sapp_assoc, esc_u_app, esc_u_app.
  rewrite scan_pair_gen with (v := 0xD800 - Z.shiftr 0x10000 10 + Z.shiftr c 10)
                             (w := 0xDC00 + Z.land c 0x3FF).
  - rewrite join_split by lia. reflexivity.
  - apply hex4_esc. bits. change (Z.shiftr 0x10000 10) with 64. zlia.
  - unfold is_high. change (Z.shiftr 0x10000 10) with 64. bits. zb. reflexivity.
  - apply hex4_esc. bits. zlia.
  - unfold is_low. bits. zb. reflexivity.
  - exact NE.
Qed.




Lemma pair_free_dq : forall rest, pair_free (String dq rest).
Proof. intros rest g1 g2 g3 g4 t E. discriminate E. Qed.

Lemma string6_inj : forall a1 a2 a3 a4 a5 a6 b1 b2 b3 b4 b5 b6 (x y : string),
  String a1 (String a2 (String a3 (String a4 (String a5 (String a6 x))))) =
  String b1 (String b2 (String b3 (String b4 (String b5 (String b6 y))))) ->
  a3 = b3 /\ a4 = b4 /\ a5 = b5 /\ a6 = b6.
Proof. intros. injection H. intros. subst. repeat split. Qed.

Lemma pair_free_esc : forall c Y, valid_cp c -> is_low c = false -> pair_free (esc_cp c ++ Y).
Proof.
  intros c Y [H0 H1] Hl g1 g2 g3 g4 t E NT. unfold esc_cp in E.
  destruct (Z.eqb_spec c 34); [discriminate E|].
  destruct (Z.eqb_spec c 92); [discriminate E|].
  destruct (Z.eqb_spec c 8); [discriminate E|].
  destruct (Z.eqb_spec c 12); [discriminate E|].
  destruct (Z.eqb_spec c 10); [discriminate E|].
  destruct (Z.eqb_spec c 13); [discriminate E|].
  destruct (Z.eqb_spec c 9); [discriminate E|].
  destruct ((32 <=? c) && (c <=? 126)) eqn:Pr.
  { apply andb_prop in Pr as [Pa Pb]. apply Z.leb_le in Pa, Pb.
    cbn [str1 append] in E. injection E as E _.
    apply (f_equal byte) in E. rewrite byte_chrZ in E by lia. exfalso. apply n0. exact E. }
  destruct (Z.ltb_spec c 0x10000).
  { rewrite esc_u_app in E. apply string6_inj in E as (<- & <- & <- & <-).
    exists c. split; [apply hex4_esc; lia | exact Hl]. }
  rewrite sapp_assoc, esc_u_app in E. apply string6_inj in E as (<- & <- & <- & <-).
  exists (0xD800 - Z.shiftr 0x10000 10 + Z.shiftr c 10).
  clear - H0 H1 H. split.
  - apply hex4_esc. bits. change (Z.shiftr 0x10000 10) with 64. zlia.
  - unfold is_low. change (Z.shiftr 0x10000 10) with 64. bits. zb. reflexivity.
Qed.

Lemma scan_esc_all : forall cs rest, Forall valid_cp cs -> no_pair cs = true ->
  scan_str (esc_all cs ++ String dq rest) = Some (encode cs, rest).
Proof.
  induction cs as [|c cs IH]; intros rest F NP; [reflexivity|].
  inversion F as [|? ? Vc Vcs]; subst.
  cbn [esc_all encode]. rewrite sapp_assoc, esc_cp_scan.
  - assert (no_pair cs = true) as NP'.
    { destruct cs as [|c' cs]; [reflexivity|]. cbn [no_pair] in NP.
      apply andb_prop in NP as [_ NP]. exact NP. }
    rewrite IH by assumption. reflexivity.
  - exact Vc.
  - intro E. apply (f_equal String.length) in E. rewrite slength_app in E. simpl in E. lia.
  - intros Hh. destruct cs as [|c' cs]; [apply pair_free_dq|].
    cbn [no_pair] in NP. rewrite Hh in NP. cbn [andb] in NP.
    destruct (is_low c') eqn:Hl; [discriminate|].
    inversion Vcs; subst. cbn [esc_all]. rewrite sapp_assoc.
    apply pair_free_esc; assumption.
Qed.

Lemma scan_escape : forall s rest, wf_str s = true ->
  scan_str (escape s ++ String dq rest) = Some (s, rest).
Proof.
  intros s rest W. unfold wf_str in W. unfold escape, code_points.
  destruct (decode s) as [cs|] eqn:D; [|discriminate].
  destruct (decode_sound s cs D) as [E V].
  rewrite scan_esc_all by assumption. rewrite E. reflexivity.
Qed.





Lemma pow2_pos : forall k, 0 < 2 ^ k \/ k < 0.
Proof. intros k. destruct (Z.lt_ge_cases k 0); [right; assumption | left; apply Z.pow_pos_nonneg; lia]. Qed.

Lemma pow_pos' : forall b k, 0 < b -> 0 <= k -> 0 < b ^ k.
Proof. intros. apply Z.pow_pos_nonneg; assumption. Qed.

Lemma pow_add' : forall b x y, 0 <= x -> 0 <= y -> b ^ (x + y) = b ^ x * b ^ y.
Proof. intros. apply Z.pow_add_r; assumption. Qed.

Lemma R_shift : forall num den k s, 0 <= s -> 0 <= k + s ->
  R num den k <-> den * 2 ^ (k + s) <= num * 2 ^ s.
Proof.
  intros num den k s Hs Hks. unfold R.
  assert (2 ^ Z.max 0 k * 2 ^ s = 2 ^ (k + s) * 2 ^ Z.max 0 (- k)) as E.
  { rewrite <- !pow_add' by lia. f_equal. lia. }
  pose proof (pow_pos' 2 s ltac:(lia) Hs) as P1.
  pose proof (pow_pos' 2 (Z.max 0 (- k)) ltac:(lia) ltac:(lia)) as P2.
  rewrite (Z.mul_le_mono_pos_r _ _ (2 ^ s)) by exact P1.
  rewrite (Z.mul_le_mono_pos_r (den * 2 ^ (k + s)) _ (2 ^ Z.max 0 (- k))) by exact P2.
  replace (den * 2 ^ Z.max 0 k * 2 ^ s) with (den * 2 ^ (k + s) * 2 ^ Z.max 0 (- k))
    by (rewrite <- !Z.mul_assoc, E; reflexivity).
  replace (num * 2 ^ Z.max 0 (- k) * 2 ^ s) with (num * 2 ^ s * 2 ^ Z.max 0 (- k)) by ring.
  reflexivity.
Qed.

Lemma R_mono : forall num den j k, j <= k -> 0 <= den -> R num den k -> R num den j.
Proof.
  intros num den j k Hjk Hd H.
  set (s := Z.max 0 (- j)).
  apply (R_shift _ _ k s) in H; [|lia|lia]. apply (R_shift _ _ j s); [lia|lia|].
  eapply Z.le_trans; [|exact H]. apply Z.mul_le_mono_nonneg_l; [exact Hd|].
  apply Z.pow_le_mono_r; lia.
Qed.

Lemma R_scale : forall a b t k, 0 < t -> (R (a * t) (b * t) k <-> R a b k).
Proof.
  intros a b t k Ht. unfold R.
  replace (b * t * 2 ^ Z.max 0 k) with (b * 2 ^ Z.max 0 k * t) by ring.
  replace (a * t * 2 ^ Z.max 0 (- k)) with (a * 2 ^ Z.max 0 (- k) * t) by ring.
  rewrite <- Z.mul_le_mono_pos_r by exact Ht. reflexivity.
Qed.

Lemma flog2_spec : forall num den, 0 < num -> 0 < den ->
  R num den (flog2 num den) /\ ~ R num den (flog2 num den + 1).
Proof.
  intros num den Hn Hd. unfold flog2, scale2.
  set (L1 := Z.log2 num). set (L2 := Z.log2 den). set (d := L1 - L2).
  destruct (Z.log2_spec num Hn) as [N1 N2]. destruct (Z.log2_spec den Hd) as [D1 D2].
  fold L1 in N1, N2. fold L2 in D1, D2.
  assert (0 <= L1) by apply Z.log2_nonneg. assert (0 <= L2) by apply Z.log2_nonneg.
  set (s := 1 + Z.abs d).
  destruct (Z.leb_spec (den * 2 ^ Z.max 0 d) (num * 2 ^ Z.max 0 (- d))) as [HR|HR].
  - split; [exact HR|].
    rewrite (R_shift _ _ _ s) by lia. intro C.
    assert (2 ^ L2 * 2 ^ (d + 1 + s) = 2 ^ Z.succ L1 * 2 ^ s) as E.
    { rewrite <- !pow_add' by lia. f_equal. lia. }
    assert (0 < 2 ^ (d + 1 + s)) by (apply pow_pos'; lia).
    assert (0 < 2 ^ s) by (apply pow_pos'; lia).
    nia.
  - assert (~ R num den d) as NR by (unfold R; lia).
    split.
    + rewrite (R_shift _ _ _ s) by lia.
      assert (2 ^ Z.succ L2 * 2 ^ (d - 1 + s) = 2 ^ L1 * 2 ^ s) as E.
      { rewrite <- !pow_add' by lia. f_equal. lia. }
      assert (0 < 2 ^ (d - 1 + s)) by (apply pow_pos'; lia).
      assert (0 < 2 ^ s) by (apply pow_pos'; lia).
      nia.
    + replace (d - 1 + 1) with d by lia. exact NR.
Qed.

Lemma flog2_unique : forall num den k, 0 < num -> 0 < den ->
  R num den k -> ~ R num den (k + 1) -> flog2 num den = k.
Proof.
  intros num den k Hn Hd H1 H2. destruct (flog2_spec num den Hn Hd) as [F1 F2].
  destruct (Z.lt_trichotomy (flog2 num den) k) as [L|[L|L]]; [|exact L|].
  - exfalso. apply F2. apply (R_mono _ _ _ k); [lia | lia | exact H1].
  - exfalso. apply H2. apply (R_mono _ _ _ (flog2 num den)); [lia | lia | exact F1].
Qed.

Lemma flog2_scale : forall a b t, 0 < a -> 0 < b -> 0 < t ->
  flog2 (a * t) (b * t) = flog2 a b.
Proof.
  intros a b t Ha Hb Ht. destruct (flog2_spec a b Ha Hb) as [F1 F2].
  apply flog2_unique; [nia | nia | |].
  - apply R_scale; assumption.
  - rewrite R_scale by assumption. exact F2.
Qed.

Lemma ltb_mul_r : forall x y t, 0 < t -> (x * t <? y * t) = (x <? y).
Proof.
  intros x y t Ht. destruct (Z.ltb_spec x y), (Z.ltb_spec (x * t) (y * t)); try reflexivity; nia.
Qed.

Lemma eqb_mul_r : forall x y t, 0 < t -> (x * t =? y * t) = (x =? y).
Proof.
  intros x y t Ht. destruct (Z.eqb_spec x y), (Z.eqb_spec (x * t) (y * t)); try reflexivity.
  - subst. contradiction.
  - apply Z.mul_cancel_r in e; [contradiction | lia].
Qed.

Lemma round_mag_scale : forall a b t, 0 < a -> 0 < b -> 0 < t ->
  round_mag (a * t) (b * t) = round_mag a b.
Proof.
  intros a b t Ha Hb Ht. unfold round_mag. rewrite flog2_scale by assumption.
  set (e := Z.max (flog2 a b - 52) (-1074)). unfold scale2.
  set (P := 2 ^ Z.max 0 (- e)). set (Q := 2 ^ Z.max 0 e).
  assert (0 < P) by (apply pow_pos'; lia). assert (0 < Q) by (apply pow_pos'; lia).
  replace (a * t * P) with (a * P * t) by ring.
  replace (b * t * Q) with (b * Q * t) by ring.
  rewrite Z.div_mul_cancel_r by lia. rewrite Z.mul_mod_distr_r by lia.
  replace (2 * (a * P mod (b * Q) * t)) with (2 * (a * P mod (b * Q)) * t) by ring.
  rewrite ltb_mul_r, eqb_mul_r by assumption. reflexivity.
Qed.

Lemma round_mag_ratio : forall a b c d, 0 < a -> 0 < b -> 0 < c -> 0 < d ->
  a * d = c * b -> round_mag a b = round_mag c d.
Proof.
  intros a b c d Ha Hb Hc Hd E.
  rewrite <- (round_mag_scale a b d), <- (round_mag_scale c d b) by assumption.
  rewrite E. f_equal. ring.
Qed.

Lemma canon_log2 : forall m e, fl_canon m e = true -> 0 < m ->
  Z.max (Z.log2 m + e - 52) (-1074) = e /\ -1074 <= e <= 971 /\ m < 2 ^ 53.
Proof.
  intros m e H Hm. unfold fl_canon in H.
  apply Bool.orb_prop in H as [H|H]; repeat rewrite Bool.andb_true_iff in H;
    rewrite ?Z.leb_le, ?Z.ltb_lt, ?Z.eqb_eq in H.
  - destruct H as [[[H1 H2] H3] H4].
    rewrite (Z.log2_unique m 52) by (change (Z.succ 52) with 53; lia). lia.
  - destruct H as [[H1 H2] H3]. subst e.
    assert (Z.log2 m < 52) by (apply Z.log2_lt_pow2; lia).
    split; [lia|]. split; [lia|].
    assert (2 ^ 52 < 2 ^ 53) by (apply Z.pow_lt_mono_r; lia). lia.
Qed.

Lemma round_mag_exact : forall m e, fl_canon m e = true -> 0 < m ->
  round_mag (m * 2 ^ Z.max 0 e) (2 ^ Z.max 0 (- e)) = Some (m, e).
Proof.
  intros m e Hc Hm. destruct (canon_log2 m e Hc Hm) as [Ee [Re Rm]].
  assert (0 < 2 ^ Z.max 0 e) by (apply pow_pos'; lia).
  assert (0 < 2 ^ Z.max 0 (- e)) by (apply pow_pos'; lia).
  destruct (Z.log2_spec m Hm) as [L1 L2].
  assert (0 <= Z.log2 m) by apply Z.log2_nonneg.
  assert (flog2 (m * 2 ^ Z.max 0 e) (2 ^ Z.max 0 (- e)) = Z.log2 m + e) as F.
  { apply flog2_unique; [nia | lia | |].
    - apply (R_shift _ _ _ (Z.max 0 (- e))); [lia | lia |].
      destruct (Z.le_gt_cases 0 e).
      + rewrite (Z.max_r 0 e), (Z.max_l 0 (- e)) by lia. rewrite Z.add_0_r, pow_add' by lia.
        cbn [Z.pow]. nia.
      + rewrite (Z.max_l 0 e), (Z.max_r 0 (- e)) by lia.
        replace (Z.log2 m + e + - e) with (Z.log2 m) by lia. cbn [Z.pow]. nia.
    - rewrite (R_shift _ _ _ (Z.max 0 (- e))) by lia.
      destruct (Z.le_gt_cases 0 e).
      + rewrite (Z.max_r 0 e), (Z.max_l 0 (- e)) by lia.
        replace (Z.log2 m + e + 1 + 0) with (Z.succ (Z.log2 m) + e) by lia.
        rewrite pow_add' by lia. cbn [Z.pow]. nia.
      + rewrite (Z.max_l 0 e), (Z.max_r 0 (- e)) by lia.
        replace (Z.log2 m + e + 1 + - e) with (Z.succ (Z.log2 m)) by lia. cbn [Z.pow]. nia. }
  unfold round_mag. rewrite F, Ee. unfold scale2.
  replace (m * 2 ^ Z.max 0 e * 2 ^ Z.max 0 (- e)) with (m * (2 ^ Z.max 0 (- e) * 2 ^ Z.max 0 e))
    by ring.
  rewrite Z.div_mul, Z.mod_mul by nia.
  destruct (Z.ltb_spec (2 ^ Z.max 0 (- e) * 2 ^ Z.max 0 e) (2 * 0)); [nia|].
  destruct (Z.eqb_spec (2 * 0) (2 ^ Z.max 0 (- e) * 2 ^ Z.max 0 e)); [nia|].
  destruct (Z.eqb_spec m (2 ^ 53)); [lia|].
  destruct (Z.ltb_spec 971 e); [lia|]. reflexivity.
Qed.

Lemma float_of_dec_val : forall neg D1 E1 D2 E2, 0 < D1 -> 0 < D2 ->
  D1 * 10 ^ Z.max 0 E1 * 10 ^ Z.max 0 (- E2) = D2 * 10 ^ Z.max 0 E2 * 10 ^ Z.max 0 (- E1) ->
  float_of_dec neg D1 E1 = float_of_dec neg D2 E2.
Proof.
  intros neg D1 E1 D2 E2 H1 H2 E. unfold float_of_dec, scale10.
  destruct (Z.eqb_spec D1 0); [lia|]. destruct (Z.eqb_spec D2 0); [lia|].
  rewrite !Z.opp_involutive.
  rewrite (round_mag_ratio (D1 * 10 ^ Z.max 0 E1) (1 * 10 ^ Z.max 0 (- E1))
                           (D2 * 10 ^ Z.max 0 E2) (1 * 10 ^ Z.max 0 (- E2))).
  - reflexivity.
  - apply Z.mul_pos_pos; [lia | apply pow_pos'; lia].
  - apply Z.mul_pos_pos; [lia | apply pow_pos'; lia].
  - apply Z.mul_pos_pos; [lia | apply pow_pos'; lia].
  - apply Z.mul_pos_pos; [lia | apply pow_pos'; lia].
  - rewrite !Z.mul_1_l. exact E.
Qed.

Lemma float_of_dec_sign : forall neg D E m e,
  float_of_dec false D E = FFin false m e -> float_of_dec neg D E = FFin neg m e.
Proof.
  intros neg D E m e H. unfold float_of_dec in *.
  destruct (D =? 0); [congruence|].
  destruct (scale10 D 1 (- E)) as [num den].
  destruct (round_mag num den) as [[m' e']|]; congruence.
Qed.

Lemma fl_eqb_true : forall a b, fl_eqb a b = true -> a = b.
Proof.
  intros [n1 m1 e1|n1|] [n2 m2 e2|n2|] H; simpl in H; try discriminate; try reflexivity.
  - repeat rewrite Bool.andb_true_iff in H. destruct H as [[H1 H2] H3].
    apply Bool.eqb_prop in H1. apply Z.eqb_eq in H2, H3. subst. reflexivity.
  - apply Bool.eqb_prop in H. subst. reflexivity.
Qed.

Lemma dtoa_loop_ok : forall fuel x num den k n C E, 0 < num -> 0 < den ->
  dtoa_loop fuel x num den k n = Some (C, E) ->
  float_of_dec false C E = x /\ 0 <= C.
Proof.
  induction fuel as [|fuel IH]; intros x num den k n C E Hn Hd H; [discriminate|].
  cbn [dtoa_loop] in H. unfold scale10 in H.
  set (n' := num * 10 ^ Z.max 0 (- - (n - 1 - k))) in H.
  set (d' := den * 10 ^ Z.max 0 (- (n - 1 - k))) in H.
  assert (0 < n') by (apply Z.mul_pos_pos; [lia | apply pow_pos'; lia]).
  assert (0 < d') by (apply Z.mul_pos_pos; [lia | apply pow_pos'; lia]).
  assert (0 <= n' / d') by (apply Z.div_pos; lia).
  destruct (fl_eqb (float_of_dec false (n' / d') (- (n - 1 - k))) x) eqn:Lo;
  destruct (fl_eqb (float_of_dec false (n' / d' + 1) (- (n - 1 - k))) x) eqn:Hi;
  cbv beta iota delta [andb] in H.
  - injection H as <- <-. apply fl_eqb_true in Lo, Hi.
    match goal with |- context [if ?b then _ else _] => destruct b end;
      split; (assumption || lia).
  - injection H as <- <-. apply fl_eqb_true in Lo. split; (assumption || lia).
  - injection H as <- <-. apply fl_eqb_true in Hi. split; (assumption || lia).
  - exact (IH x num den k (n + 1) C E Hn Hd H).
Qed.

Lemma strip_zeros_ok : forall fuel C E, 0 < C ->
  0 < fst (strip_zeros fuel C E) /\
  float_of_dec false (fst (strip_zeros fuel C E)) (snd (strip_zeros fuel C E)) =
  float_of_dec false C E.
Proof.
  induction fuel as [|fuel IH]; intros C E HC; [split; [exact HC | reflexivity]|].
  cbn [strip_zeros].
  destruct (Z.ltb_spec 0 C); [|lia]. destruct (Z.eqb_spec (C mod 10) 0) as [M|M];
    cbn [andb]; [|split; [exact HC | reflexivity]].
  assert (0 < C / 10) as P by zlia.
  destruct (IH (C / 10) (E + 1) P) as [IH1 IH2]. split; [exact IH1|].
  rewrite IH2. apply float_of_dec_val; [exact P | exact HC |].
  assert (C = 10 * (C / 10)) as EC by zlia.
  rewrite EC at 2.
  destruct (Z.le_gt_cases 0 E).
  - rewrite (Z.max_r 0 (E + 1)), (Z.max_l 0 (- E)), (Z.max_r 0 E), (Z.max_l 0 (- (E + 1)))
      by lia.
    rewrite Z.pow_add_r by lia. ring.
  - rewrite (Z.max_l 0 (E + 1)), (Z.max_r 0 (- E)), (Z.max_l 0 E), (Z.max_r 0 (- (E + 1)))
      by lia.
    replace (- E) with (- (E + 1) + 1) by lia. rewrite Z.pow_add_r by lia. ring.
Qed.

Lemma fallback_ok : forall m e, fl_canon m e = true -> 0 < m ->
  let num := m * 2 ^ Z.max 0 (- - e) in
  let den := 1 * 2 ^ Z.max 0 (- e) in
  0 < num * 10 ^ Z.max 0 (- e) / den /\
  float_of_dec false (num * 10 ^ Z.max 0 (- e) / den) (- Z.max 0 (- e)) = FFin false m e.
Proof.
  intros m e Hc Hm num den. subst num den. rewrite Z.opp_involutive, Z.mul_1_l.
  destruct (canon_log2 m e Hc Hm) as [_ [Re _]].
  destruct (Z.le_gt_cases 0 e).
  - rewrite (Z.max_l 0 (- e)) by lia. cbn [Z.pow]. rewrite Z.mul_1_r, Z.div_1_r.
    assert (0 < 2 ^ Z.max 0 e) by (apply pow_pos'; lia).
    split; [nia|].
    unfold float_of_dec. destruct (Z.eqb_spec (m * 2 ^ Z.max 0 e) 0); [nia|].
    unfold scale10. rewrite ?Z.opp_0, ?Z.opp_involutive, ?Z.opp_0.
    change (10 ^ Z.max 0 0) with 1. rewrite ?Z.mul_1_r.
    rewrite (round_mag_ratio (m * 2 ^ Z.max 0 e) 1 (m * 2 ^ Z.max 0 e) (2 ^ Z.max 0 (- e))).
    + rewrite round_mag_exact by assumption. reflexivity.
    + nia.
    + lia.
    + nia.
    + apply pow_pos'; lia.
    + rewrite (Z.max_l 0 (- e)) by lia. cbn. ring.
  - rewrite (Z.max_r 0 (- e)), (Z.max_l 0 e) by lia. cbn [Z.pow]. rewrite Z.mul_1_r.
    assert (10 ^ (- e) = 2 ^ (- e) * 5 ^ (- e)) as T
      by (rewrite <- Z.pow_mul_l; reflexivity).
    assert (0 < 2 ^ (- e)) by (apply pow_pos'; lia).
    assert (0 < 5 ^ (- e)) by (apply pow_pos'; lia).
    rewrite T. replace (m * (2 ^ (- e) * 5 ^ (- e))) with (m * 5 ^ (- e) * 2 ^ (- e)) by ring.
    rewrite Z.div_mul by lia.
    split; [nia|].
    unfold float_of_dec. destruct (Z.eqb_spec (m * 5 ^ (- e)) 0); [nia|].
    unfold scale10. rewrite !Z.opp_involutive.
    rewrite (Z.max_l 0 e), (Z.max_r 0 (- e)) by lia. cbn [Z.pow].
    rewrite (round_mag_ratio (m * 5 ^ (- e) * 1) (1 * 10 ^ (- e))
               (m * 2 ^ Z.max 0 e) (2 ^ Z.max 0 (- e))).
    + rewrite round_mag_exact by assumption. reflexivity.
    + nia.
    + apply Z.mul_pos_pos; [lia | apply pow_pos'; lia].
    + rewrite (Z.max_l 0 e) by lia. cbn. lia.
    + apply pow_pos'; lia.
    + rewrite (Z.max_l 0 e), (Z.max_r 0 (- e)) by lia. cbn [Z.pow]. rewrite T. ring.
Qed.

Lemma shortest_ok : forall m e, fl_canon m e = true -> 0 < m ->
  exists C, 0 < C /\ fst (shortest_digits m e) = dec_Z C /\
  float_of_dec false C (snd (shortest_digits m e) - Z.of_nat (String.length (fst (shortest_digits m e))))
  = FFin false m e.
Proof.
  intros m e Hc Hm.
  assert (0 < m * 2 ^ Z.max 0 (- - e)) by (apply Z.mul_pos_pos; [lia | apply pow_pos'; lia]).
  assert (0 < 1 * 2 ^ Z.max 0 (- e)) by (apply Z.mul_pos_pos; [lia | apply pow_pos'; lia]).
  assert (exists C0 E0, 0 < C0 /\ float_of_dec false C0 E0 = FFin false m e /\
    shortest_digits m e =
    (let '(C, E) := strip_zeros (String.length (dec_Z C0)) C0 E0 in
     (dec_Z C, Z.of_nat (String.length (dec_Z C)) + E))) as [C0 [E0 [P0 [F0 S0]]]].
  { unfold shortest_digits, scale2.
    destruct (dtoa_loop _ _ _ _ _ _) as [[C0 E0]|] eqn:DL.
    - apply dtoa_loop_ok in DL as [F0 P0]; [|assumption|assumption].
      exists C0, E0. split; [|split; [exact F0 | reflexivity]].
      destruct (Z.eq_dec C0 0) as [Z0|]; [|lia]. subst C0.
      unfold float_of_dec in F0. cbn in F0. injection F0 as F0. lia.
    - destruct (fallback_ok m e Hc Hm) as [P F].
      eexists _, _. split; [exact P | split; [exact F | reflexivity]]. }
  rewrite S0. destruct (strip_zeros_ok (String.length (dec_Z C0)) C0 E0 P0) as [P1 F1].
  destruct (strip_zeros _ C0 E0) as [C1 E1]. cbn [fst snd] in *.
  exists C1. split; [exact P1 | split; [reflexivity|]].
  replace (Z.of_nat (String.length (dec_Z C1)) + E1 - Z.of_nat (String.length (dec_Z C1)))
    with E1 by lia.
  rewrite F1. exact F0.
Qed.

Close Scope Z_scope.








Lemma digit_char_ok : forall d, (d < 10)%N ->
  is_digit (digit_char d) = true /\ digit_val (digit_char d) = d /\
  (Ascii.eqb (digit_char d) "0"%char = true <-> d = 0%N).
Proof.
  intros d Hd.
  assert (d = 0 \/ d = 1 \/ d = 2 \/ d = 3 \/ d = 4 \/ d = 5 \/ d = 6 \/ d = 7
          \/ d = 8 \/ d = 9)%N as E by lia.
  repeat destruct E as [E|E]; subst;
    (split; [reflexivity | split; [reflexivity | split; intro H;
      first [reflexivity | discriminate | inversion H]]]).
Qed.

Lemma all_digits_app : forall a b, all_digits (a ++ b) = all_digits a && all_digits b.
Proof. induction a as [|c a IH]; intros b; [reflexivity|]. simpl. rewrite IH. apply andb_assoc. Qed.

Lemma digits_acc_app : forall a s1 s2, digits_acc a (s1 ++ s2) = digits_acc (digits_acc a s1) s2.
Proof. intros a s1. revert a. induction s1 as [|c s1 IH]; intros a s2; [reflexivity|]. apply IH. Qed.

Lemma digits_acc_lin : forall s a, digits_acc a s = (a * 10 ^ Z.of_nat (String.length s) + digits_acc 0 s)%Z.
Proof.
  induction s as [|c s IH]; intros a; [simpl; lia|].
  cbn [digits_acc String.length]. rewrite IH, (IH (0 * 10 + _)%Z).
  rewrite Nat2Z.inj_succ, Z.pow_succ_r by lia. ring.
Qed.

Lemma digits_val_app : forall s1 s2,
  digits_val (s1 ++ s2) = (digits_val s1 * 10 ^ Z.of_nat (String.length s2) + digits_val s2)%Z.
Proof. intros. unfold digits_val. rewrite digits_acc_app, digits_acc_lin. reflexivity. Qed.

Lemma digits_val_cons : forall c, (digits_val (str1 c) = Z.of_N (digit_val c))%Z.
Proof. reflexivity. Qed.

Lemma dec_acc_S : forall f n acc, dec_acc (S f) n acc =
  if (n <? 10)%N then String (digit_char (n mod 10)) acc
  else dec_acc f (n / 10) (String (digit_char (n mod 10)) acc).
Proof. reflexivity. Qed.

Lemma dec_acc_spec : forall f n acc, (n < 10 ^ N.of_nat (S f))%N ->
  exists ds, dec_acc (S f) n acc = ds ++ acc /\ ip_ok ds /\ digits_val ds = Z.of_N n.
Proof.
  induction f as [|f IH]; intros n acc Hn.
  - rewrite dec_acc_S. destruct (N.ltb_spec n 10); [|cbn in Hn; lia].
    destruct (digit_char_ok (n mod 10)) as [D [V Z0]]; [apply N.mod_lt; lia|].
    exists (str1 (digit_char (n mod 10))). split; [reflexivity|]. split.
    + eexists _, _. split; [reflexivity|]. split; [exact D|]. split; reflexivity.
    + rewrite digits_val_cons, V, N.mod_small by lia. reflexivity.
  - rewrite dec_acc_S. destruct (N.ltb_spec n 10).
    + destruct (digit_char_ok (n mod 10)) as [D [V Z0]]; [apply N.mod_lt; lia|].
      exists (str1 (digit_char (n mod 10))). split; [reflexivity|]. split.
      * eexists _, _. split; [reflexivity|]. split; [exact D|]. split; reflexivity.
      * rewrite digits_val_cons, V, N.mod_small by lia. reflexivity.
    + destruct (IH (n / 10)%N (String (digit_char (n mod 10)) acc)) as [ds [E [[c [t [Ec [Dc [Dt Z0]]]]] V]]].
      { rewrite Nat2N.inj_succ, N.pow_succ_r' in Hn. apply N.Div0.div_lt_upper_bound; lia. }
      destruct (digit_char_ok (n mod 10)) as [D [Vd _]]; [apply N.mod_lt; lia|].
      exists (ds ++ str1 (digit_char (n mod 10))). split.
      * rewrite E, sapp_assoc. reflexivity.
      * split.
        -- exists c, (t ++ str1 (digit_char (n mod 10))). split; [subst ds; reflexivity|].
           split; [exact Dc|]. split.
           ++ rewrite all_digits_app, Dt. simpl. rewrite D. reflexivity.
           ++ intro Hc. specialize (Z0 Hc). subst t ds.
              cbn in V. exfalso.
              assert (digit_val c = 0%N) as Hz by (apply Ascii.eqb_eq in Hc; subst; reflexivity).
              rewrite Hz in V. assert (1 <= n / 10)%N by (apply N.div_le_lower_bound; lia). lia.
        -- rewrite digits_val_app, V, digits_val_cons, Vd. cbn [String.length str1].
           pose proof (N.div_mod n 10). lia.
Qed.

Lemma dec_N_spec : forall n, exists ip, dec_N n = ip /\ ip_ok ip /\ digits_val ip = Z.of_N n.
Proof.
  intros n. unfold dec_N.
  destruct (dec_acc_spec (N.to_nat (N.log2 n)) n "") as [ds [E [I V]]].
  - rewrite Nat2N.inj_succ, N2Nat.id.
    destruct (N.eq_dec n 0) as [->|Hn]; [cbn; lia|].
    destruct (N.log2_spec n) as [_ L]; [lia|].
    eapply N.lt_le_trans; [exact L|]. apply N.pow_le_mono_l. lia.
  - exists ds. rewrite E, sapp_nil_r. split; [reflexivity | split; assumption].
Qed.

Lemma dec_Z_spec : forall z, exists ip,
  dec_Z z = sgn (z <? 0)%Z ++ ip /\ ip_ok ip /\ digits_val ip = Z.abs z.
Proof.
  intros [|p|p].
  - exists "0". split; [reflexivity|]. split; [|reflexivity].
    eexists _, _. split; [reflexivity|]. split; [reflexivity|]. split; reflexivity.
  - destruct (dec_N_spec (Npos p)) as [ip [E [I V]]]. exists ip.
    split; [change (dec_Z (Z.pos p)) with (dec_N (N.pos p)); rewrite E; reflexivity|].
    split; [exact I | exact V].
  - destruct (dec_N_spec (Npos p)) as [ip [E [I V]]]. exists ip.
    split; [change (dec_Z (Z.neg p)) with (String "-" (dec_N (N.pos p))); rewrite E; reflexivity|].
    split; [exact I | exact V].
Qed.


Lemma span_digits_app : forall ds X, all_digits ds = true -> nd_head X = true ->
  span_digits (ds ++ X) = (ds, X).
Proof.
  induction ds as [|c ds IH]; intros X D H.
  - destruct X as [|c t]; [reflexivity|]. simpl in H |- *.
    destruct (is_digit c); [discriminate | reflexivity].
  - simpl in D. apply andb_prop in D as [Dc Dt]. simpl. rewrite Dc, IH by assumption.
    reflexivity.
Qed.

Lemma digit_chars : forall c, is_digit c = true ->
  Ascii.eqb c "-"%char = false /\ Ascii.eqb c "."%char = false /\
  Ascii.eqb c "e"%char = false /\ Ascii.eqb c "E"%char = false /\
  Ascii.eqb c dq = false /\ Ascii.eqb c "["%char = false /\ Ascii.eqb c "{"%char = false /\
  Ascii.eqb c "n"%char = false /\ Ascii.eqb c "t"%char = false /\ Ascii.eqb c "f"%char = false /\
  Ascii.eqb c "N"%char = false /\ Ascii.eqb c "I"%char = false /\
  is_ws c = false /\ Ascii.eqb c "]"%char = false /\ Ascii.eqb c "}"%char = false.
Proof.
  intros c H. destruct c as [[] [] [] [] [] [] [] []]; try discriminate; repeat split.
Qed.

Lemma delim_chars : forall r, delim r = true ->
  nd_head r = true /\
  match r with
  | String c _ => Ascii.eqb c "."%char = false /\ Ascii.eqb c "e"%char = false /\
                  Ascii.eqb c "E"%char = false
  | EmptyString => True
  end.
Proof.
  intros [|c t] H; [split; [reflexivity | exact I]|]. simpl in H.
  destruct c as [[] [] [] [] [] [] [] []]; try discriminate; repeat split.
Qed.

Lemma match_exp_delim : forall r, delim r = true -> match_exp r = (None, r).
Proof.
  intros [|c t] H; [reflexivity|]. destruct (delim_chars _ H) as [_ [_ [E1 E2]]].
  simpl. rewrite E1, E2. reflexivity.
Qed.

Lemma match_exp_expo : forall x r, delim r = true -> match_exp ("e" ++ fmt_exp x ++ r) = (Some x, r).
Proof.
  intros x r H. destruct (delim_chars _ H) as [N _].
  destruct (dec_Z_spec (Z.abs x)) as [ip [E [[c [t [Ei [Dc [Dt Z0]]]]] V]]].
  rewrite (proj2 (Z.ltb_ge (Z.abs x) 0)) in E by lia. cbn [sgn append] in E.
  set (pad := if (Z.abs x <? 10)%Z then "0" else "").
  assert (all_digits (pad ++ ip) = true /\ digits_val (pad ++ ip) = Z.abs x) as [PD PV].
  { rewrite Z.abs_idemp in V. rewrite Ei in V |- *. unfold pad. destruct (Z.abs x <? 10)%Z.
    - split; [cbn [append all_digits]; rewrite Dc, Dt; reflexivity|].
      rewrite digits_val_app. rewrite <- V. reflexivity.
    - split; [cbn [append all_digits]; rewrite Dc, Dt; reflexivity | exact V]. }
  unfold fmt_exp. fold pad. rewrite E.
  destruct (Z.ltb_spec x 0).
  - cbn [append match_exp Ascii.eqb Bool.eqb orb andb].
    rewrite span_digits_app by assumption.
    destruct (pad ++ ip) as [|h hs] eqn:Hp; [rewrite Ei in Hp; destruct pad; discriminate|].
    cbv beta iota zeta. rewrite PV. f_equal. f_equal. lia.
  - cbn [append match_exp Ascii.eqb Bool.eqb orb andb].
    rewrite span_digits_app by assumption.
    destruct (pad ++ ip) as [|h hs] eqn:Hp; [rewrite Ei in Hp; destruct pad; discriminate|].
    cbv beta iota zeta. rewrite PV. f_equal. f_equal. lia.
Qed.

Lemma frac_none : forall X, match X with String p _ => Ascii.eqb p "."%char = false | _ => True end ->
  match X with
  | String p (String d _ as t1) =>
      if Ascii.eqb p "."%char && is_digit d then span_digits t1 else (EmptyString, X)
  | _ => (EmptyString, X)
  end = (EmptyString, X).
Proof. intros [|p [|d t]] H; try reflexivity. rewrite H. reflexivity. Qed.

Lemma parse_shape : forall neg ip fp ex r, ip_ok ip -> all_digits fp = true -> delim r = true ->
  parse_number (sgn neg ++ ip ++ frac fp ++ expo ex ++ r) = Some (num_val neg ip fp ex, r).
Proof.
  intros neg ip fp ex r [c [t [Ei [Dc [Dt Z0]]]]] Dfp Hr.
  destruct (digit_chars c Dc) as (Cm & _).
  destruct (delim_chars r Hr) as [Nr Hr'].
  assert (nd_head (expo ex ++ r) = true /\
          match expo ex ++ r with String p _ => Ascii.eqb p "."%char = false | _ => True end)
    as [NY PY].
  { destruct ex as [x|]; [split; reflexivity|]. cbn [expo append].
    split; [exact Nr|]. destruct r as [|p r']; [exact I | apply Hr']. }
  assert (match_exp (expo ex ++ r) = (ex, r)) as ME.
  { destruct ex as [x|]; [apply match_exp_expo; exact Hr | apply match_exp_delim; exact Hr]. }
  set (rest := frac fp ++ expo ex ++ r).
  assert (nd_head rest = true) as NR by (subst rest; destruct fp; [exact NY | reflexivity]).
  assert ((if Ascii.eqb c "0"%char then (str1 c, t ++ rest) else span_digits (String c (t ++ rest)))
          = (ip, rest)) as SP.
  { destruct (Ascii.eqb c "0"%char) eqn:Zc.
    - rewrite (Z0 eq_refl) in Ei |- *. subst ip. reflexivity.
    - subst ip. change (String c (t ++ rest)) with (String c t ++ rest).
      apply span_digits_app; [cbn [all_digits]; rewrite Dc, Dt; reflexivity | exact NR]. }
  assert (match rest with
          | String p (String d _ as t1) =>
              if Ascii.eqb p "."%char && is_digit d then span_digits t1 else (EmptyString, rest)
          | _ => (EmptyString, rest)
          end = (fp, expo ex ++ r)) as FP.
  { subst rest. destruct fp as [|d fp'].
    - apply frac_none. exact PY.
    - cbn [frac append]. cbn [all_digits] in Dfp. apply andb_prop in Dfp as [Dd Dfp'].
      rewrite Dd. cbn [Ascii.eqb Bool.eqb andb].
      change (String d (fp' ++ expo ex ++ r)) with (String d fp' ++ (expo ex ++ r)).
      apply span_digits_app; [cbn [all_digits]; rewrite Dd, Dfp'; reflexivity | exact NY]. }
  clearbody rest. subst ip.
  destruct neg.
  - cbn [sgn append]. unfold parse_number. cbn [Ascii.eqb Bool.eqb andb].
    change (String c t ++ rest) with (String c (t ++ rest)). rewrite Dc.
    rewrite SP. cbv beta iota zeta. rewrite FP. rewrite ME.
    destruct ex as [x|]; [reflexivity | unfold num_val; destruct (String.eqb fp ""); reflexivity].
  - cbn [sgn append]. unfold parse_number.
    change (String c t ++ rest) with (String c (t ++ rest)). rewrite Cm. rewrite Dc.
    rewrite SP. cbv beta iota zeta. rewrite FP. rewrite ME.
    destruct ex as [x|]; [reflexivity | unfold num_val; destruct (String.eqb fp ""); reflexivity].
Qed.

Lemma zeros_facts : forall k, all_digits (zeros k) = true /\ String.length (zeros k) = k /\
  digits_val (zeros k) = 0%Z.
Proof.
  induction k as [|k [IH1 [IH2 IH3]]]; [repeat split|].
  cbn [zeros all_digits String.length]. rewrite IH1. split; [reflexivity|]. split; [lia|].
  change (String "0" (zeros k)) with (str1 "0" ++ zeros k).
  rewrite digits_val_app, IH3. reflexivity.
Qed.

Lemma take_drop : forall j s, str_take j s ++ str_drop j s = s.
Proof. induction j as [|j IH]; intros [|c s]; try reflexivity. simpl. rewrite IH. reflexivity. Qed.

Lemma drop_length : forall j s, String.length (str_drop j s) = String.length s - j.
Proof. induction j as [|j IH]; intros [|c s]; simpl; try reflexivity; try lia. apply IH. Qed.

Lemma all_digits_take_drop : forall j s, all_digits s = true ->
  all_digits (str_take j s) = true /\ all_digits (str_drop j s) = true.
Proof.
  intros j s H. rewrite <- (take_drop j s), all_digits_app in H.
  apply andb_prop in H. exact H.
Qed.

Lemma ip_ok_app : forall ip X, ip_ok ip -> digits_val ip <> 0%Z -> all_digits X = true ->
  ip_ok (ip ++ X).
Proof.
  intros ip X [c [t [Ei [Dc [Dt Z0]]]]] Hnz DX. subst ip.
  exists c, (t ++ X). split; [reflexivity|]. split; [exact Dc|].
  split; [rewrite all_digits_app, Dt, DX; reflexivity|].
  intro Hc. exfalso. apply Hnz. rewrite (Z0 Hc). apply Ascii.eqb_eq in Hc. subst c. reflexivity.
Qed.

Lemma ip_ok_digits : forall ip, ip_ok ip -> all_digits ip = true.
Proof.
  intros ip [c [t [-> [Dc [Dt _]]]]]. cbn [all_digits]. rewrite Dc, Dt. reflexivity.
Qed.

Lemma int_shape : forall z, exists ip,
  dec_Z z = sgn (z <? 0)%Z ++ ip ++ frac "" ++ expo None /\ ip_ok ip /\
  num_val (z <? 0)%Z ip "" None = JInt z.
Proof.
  intros z. destruct (dec_Z_spec z) as [ip [E [I V]]]. exists ip.
  split; [rewrite E; cbn [frac expo append]; rewrite sapp_nil_r; reflexivity|].
  split; [exact I|]. unfold num_val. cbn [String.eqb]. rewrite V.
  destruct (Z.ltb_spec z 0); f_equal; lia.
Qed.

Lemma repr_shape : forall neg m e, fl_canon m e = true -> exists ip fp ex,
  repr_fin neg m e = sgn neg ++ ip ++ frac fp ++ expo ex /\ ip_ok ip /\
  all_digits fp = true /\ num_val neg ip fp ex = JFloat (FFin neg m e).
Proof.
  intros neg m e Hc. unfold repr_fin. fold (sgn neg).
  destruct (Z.eqb_spec m 0) as [Hm|Hm].
  { exists "0", "0", None. split; [reflexivity|]. split.
    - eexists _, _. split; [reflexivity|]. split; [reflexivity|]. split; reflexivity.
    - split; [reflexivity|]. subst m. unfold fl_canon in Hc.
      rewrite Bool.orb_true_iff, !Bool.andb_true_iff, !Z.leb_le, !Z.ltb_lt, Z.eqb_eq in Hc.
      destruct Hc as [Hc|Hc]; [cbn in Hc; lia|]. destruct Hc as [_ ->]. reflexivity. }
  assert (0 < m)%Z as Hpos.
  { unfold fl_canon in Hc.
    rewrite Bool.orb_true_iff, !Bool.andb_true_iff, !Z.leb_le, !Z.ltb_lt in Hc. cbn in Hc. lia. }
  destruct (shortest_ok m e Hc Hpos) as [C [HC [Eds Fv]]].
  destruct (shortest_digits m e) as [ds decpt]. cbn [fst snd] in Eds, Fv. subst ds.
  apply (float_of_dec_sign neg) in Fv.
  destruct (dec_Z_spec C) as [ip [E [I V]]].
  rewrite (proj2 (Z.ltb_ge C 0)) in E by lia. cbn [sgn append] in E. rewrite E in Fv |- *.
  rewrite Z.abs_eq in V by lia.
  assert (all_digits ip = true) as Dip by (apply ip_ok_digits; exact I).
  destruct I as [c [t [Ei [Dc [Dt Z0]]]]].
  assert (Ascii.eqb c "0"%char = false) as Cz.
  { destruct (Ascii.eqb c "0"%char) eqn:X; [|reflexivity].
    rewrite (Z0 eq_refl) in Ei. apply Ascii.eqb_eq in X. rewrite Ei, X in V.
    vm_compute in V. lia. }
  assert (ip_ok ip) as I by (exists c, t; split; [exact Ei|]; split; [exact Dc|];
                              split; [exact Dt | intro X; rewrite Cz in X; discriminate]).
  unfold format_r.
  set (n := Z.of_nat (String.length ip)) in *.
  destruct ((decpt <=? -4)%Z || (16 <? decpt)%Z).
  { rewrite Ei. exists (str1 c), t, (Some (decpt - 1)%Z). split.
    - cbn [append str1]. f_equal. f_equal. destruct t; reflexivity.
    - split; [|split; [exact Dt|]].
      + exists c, "". split; [reflexivity|]. split; [exact Dc|]. split; reflexivity.
      + unfold num_val. change (str1 c ++ t) with (String c t). rewrite <- Ei.
        rewrite V, <- Fv. f_equal. f_equal. subst n. rewrite Ei. cbn [String.length]. lia. }
  destruct (Z.leb_spec decpt 0).
  { set (k := Z.to_nat (- decpt)).
    destruct (zeros_facts k) as [Zd [Zl Zv]].
    exists "0", (zeros k ++ ip), None. split.
    - cbn [expo append]. rewrite sapp_nil_r.
      destruct (zeros k ++ ip) as [|x y] eqn:Hz; [rewrite Ei in Hz; destruct (zeros k); discriminate|].
      reflexivity.
    - split; [|split; [rewrite all_digits_app, Zd, Dip; reflexivity|]].
      + exists "0"%char, "". split; [reflexivity|]. split; [reflexivity|]. split; reflexivity.
      + unfold num_val. destruct (String.eqb (zeros k ++ ip) "") eqn:Hz.
        { apply String.eqb_eq in Hz. rewrite Ei in Hz. destruct (zeros k); discriminate. }
        rewrite <- Fv. f_equal. apply float_of_dec_val; [| lia |].
        * rewrite digits_val_app, digits_val_app, Zv, V. cbn. lia.
        * rewrite digits_val_app, digits_val_app, Zv, V, slength_app, Zl. cbn [digits_val digits_acc].
          replace (Z.of_nat (k + String.length ip)) with (n - decpt)%Z by (subst n k; lia).
          replace (- (n - decpt))%Z with (decpt - n)%Z by lia.
          reflexivity. }
  destruct (Z.ltb_spec decpt n).
  { set (j := Z.to_nat decpt).
    destruct (all_digits_take_drop j ip Dip) as [Dt1 Dd1].
    exists (str_take j ip), (str_drop j ip), None. split.
    - cbn [expo append]. rewrite sapp_nil_r.
      destruct (str_drop j ip) as [|x y] eqn:Hd.
      + pose proof (drop_length j ip) as L. rewrite Hd in L. cbn in L. subst n j. lia.
      + reflexivity.
    - split; [|split; [exact Dd1|]].
      + rewrite Ei. destruct j as [|j'] eqn:Hj; [subst j; lia|].
        exists c, (str_take j' t). split; [reflexivity|]. split; [exact Dc|].
        split; [|intro X; rewrite Cz in X; discriminate].
        destruct (all_digits_take_drop j' t Dt) as [A _]. exact A.
      + unfold num_val. destruct (String.eqb (str_drop j ip) "") eqn:Hz.
        { apply String.eqb_eq in Hz. pose proof (drop_length j ip) as L. rewrite Hz in L.
          cbn in L. subst n j. lia. }
        rewrite take_drop, V, drop_length, <- Fv. f_equal. f_equal.
        subst n j. lia. }
  set (k := Z.to_nat (decpt - n)).
  destruct (zeros_facts k) as [Zd [Zl Zv]].
  exists (ip ++ zeros k), "0", None. split.
  - cbn [frac expo]. rewrite !sapp_assoc. reflexivity.
  - split; [apply ip_ok_app; [exact I | lia | exact Zd]|]. split; [reflexivity|].
    unfold num_val. cbn [String.eqb]. rewrite <- Fv. f_equal.
    apply float_of_dec_val; [| lia |].
    + rewrite !digits_val_app, Zv, V. cbn. nia.
    + rewrite !digits_val_app, Zv, V, Zl. cbn [String.length digits_val digits_acc].
      rewrite (Z.max_r 0 (decpt - n)), (Z.max_l 0 (- (decpt - n))) by lia.
      replace (decpt - n)%Z with (Z.of_nat k) by (subst k; lia).
      change (Z.of_N (digit_val "0")) with 0%Z. change (Z.of_nat 1) with 1%Z.
      change (Z.max 0 (Z.opp 1)) with 0%Z. change (Z.max 0 (Z.opp (Z.opp 1))) with 1%Z. ring.
Qed.


Lemma skip_ws_keep : forall c t, is_ws c = false -> skip_ws (String c t) = String c t.
Proof. intros c t H. simpl. now rewrite H. Qed.

Lemma str_drop_app p s : str_drop (String.length p) (p ++ s) = s.
Proof. induction p; simpl; auto. Qed.

Lemma dumps_str_scan : forall s rest,
  dumps_str s ++ rest = String dq (escape s ++ String dq rest).
Proof.
  intros s rest. unfold dumps_str. simpl. rewrite sapp_assoc. reflexivity.
Qed.

Lemma numeral_head : forall neg ip X, ip_ok ip -> exists c t,
  sgn neg ++ ip ++ X = String c t /\
  is_ws c = false /\ Ascii.eqb c "]"%char = false /\ Ascii.eqb c "}"%char = false.
Proof.
  intros neg ip X [c [t [-> [D _]]]]. destruct neg.
  - eexists _, _. split; [reflexivity | repeat split].
  - exists c, (t ++ X). split; [reflexivity|].
    destruct c as [[] [] [] [] [] [] [] []]; try discriminate; repeat split.
Qed.

Lemma parse_value_num : forall f neg ip X, ip_ok ip ->
  parse_value (S f) (sgn neg ++ ip ++ X) = parse_number (sgn neg ++ ip ++ X).
Proof.
  intros f neg ip X [c [t [-> [D _]]]].
  destruct neg; destruct c as [[] [] [] [] [] [] [] []]; try discriminate; reflexivity.
Qed.

Lemma parse_numeral : forall f neg ip fp ex r, ip_ok ip -> all_digits fp = true -> delim r = true ->
  parse_value (S f) (sgn neg ++ ip ++ frac fp ++ expo ex ++ r) = Some (num_val neg ip fp ex, r).
Proof.
  intros. rewrite parse_value_num by assumption. apply parse_shape; assumption.
Qed.

Lemma parse_int : forall f z r, delim r = true ->
  parse_value (S f) (dec_Z z ++ r) = Some (JInt z, r).
Proof.
  intros f z r Hr. destruct (int_shape z) as [ip [E [I V]]].
  rewrite E, !sapp_assoc, parse_numeral by (first [assumption | reflexivity]).
  rewrite V. reflexivity.
Qed.

Lemma parse_float : forall f fl r, fl_wf fl = true -> delim r = true ->
  parse_value (S f) (json_float fl ++ r) = Some (JFloat fl, r).
Proof.
  intros f fl r Hw Hr. destruct fl as [neg m e | [] |].
  - destruct (repr_shape neg m e Hw) as [ip [fp [ex [E [I [D V]]]]]].
    cbn [json_float]. rewrite E, !sapp_assoc, parse_numeral by assumption.
    rewrite V. reflexivity.
  - reflexivity.
  - reflexivity.
  - discriminate.
Qed.

Lemma dumps_head : forall j r, wf j = true -> exists c t, dumps j ++ r = String c t /\
  is_ws c = false /\ Ascii.eqb c "]"%char = false /\ Ascii.eqb c "}"%char = false.
Proof.
  intros j r Hw. destruct j as [| [] | z | [neg m e | [] |] | s | l | l].
  1-3, 6, 7, 9-11: simpl; eexists _, _; split; [reflexivity | repeat split].
  - destruct (int_shape z) as [ip [E [I _]]].
    cbn [dumps]. rewrite E, !sapp_assoc. apply numeral_head. exact I.
  - destruct (repr_shape neg m e Hw) as [ip [fp [ex [E [I _]]]]].
    cbn [dumps json_float]. rewrite E, !sapp_assoc. apply numeral_head. exact I.
  - discriminate Hw.
Qed.

Lemma skip_ws_dumps : forall j r, wf j = true -> skip_ws (dumps j ++ r) = dumps j ++ r.
Proof.
  intros j r Hw. destruct (dumps_head j r Hw) as [c [t [E [W _]]]].
  rewrite E. apply skip_ws_keep. assumption.
Qed.

Lemma dict_set_fresh : forall {A} (d : list (string * A)) k v,
  existsb (String.eqb k) (map fst d) = false -> dict_set d k v = (d ++ [(k, v)])%list.
Proof.
  induction d as [|[k' v'] d IH]; intros k v H; [reflexivity|].
  simpl in H |- *. apply Bool.orb_false_iff in H as [H1 H2].
  rewrite H1, IH by assumption. reflexivity.
Qed.

Lemma keys_distinct_mid : forall a k b,
  keys_distinct (a ++ k :: b)%list = true -> existsb (String.eqb k) a = false.
Proof.
  induction a as [|k' a IH]; intros k b H; [reflexivity|].
  simpl in H. apply andb_prop in H as [H1 H2].
  simpl. rewrite (IH k b H2). rewrite Bool.orb_false_r.
  destruct (String.eqb k k') eqn:E; [|reflexivity].
  apply String.eqb_eq in E. subst.
  rewrite existsb_app in H1. simpl in H1. rewrite String.eqb_refl in H1.
  rewrite Bool.orb_true_r in H1. discriminate.
Qed.

Lemma dict_of_pairs_distinct : forall {A} (l : list (string * A)),
  keys_distinct (map fst l) = true -> dict_of_pairs l = l.
Proof.
  intros A l. unfold dict_of_pairs.
  assert (forall d, keys_distinct (map fst (d ++ l)%list) = true ->
            fold_left (fun d kv => dict_set d (fst kv) (snd kv)) l d = (d ++ l)%list) as G.
  { induction l as [|[k v] t IH]; intros d H.
    - simpl. rewrite app_nil_r. reflexivity.
    - simpl. rewrite dict_set_fresh.
      + rewrite IH; [rewrite <- app_assoc; reflexivity|].
        rewrite <- app_assoc. exact H.
      + rewrite map_app in H. simpl in H. eapply keys_distinct_mid. exact H. }
  intros H. apply (G []). exact H.
Qed.

Lemma size_arr_cons : forall x t,
  json_size (JArr (x :: t)) = S (json_size x) + json_size (JArr t).
Proof. intros. simpl. lia. Qed.

Lemma size_obj_cons : forall k v t,
  json_size (JObj ((k, v) :: t)) = S (json_size v) + json_size (JObj t).
Proof. intros. simpl. lia. Qed.

Lemma dumps_arr_cons : forall x t,
  dumps (JArr (x :: t)) = "[" ++ (dumps x ++ dumps_items t) ++ "]".
Proof. reflexivity. Qed.

Lemma dumps_items_cons : forall y t,
  dumps_items (y :: t) = ", " ++ dumps y ++ dumps_items t.
Proof. reflexivity. Qed.

Lemma dumps_obj_cons : forall k v t,
  dumps (JObj ((k, v) :: t)) =
  "{" ++ (dumps_str k ++ ": " ++ dumps v ++ dumps_members t) ++ "}".
Proof. reflexivity. Qed.

Lemma dumps_members_cons : forall k v t,
  dumps_members ((k, v) :: t) = ", " ++ dumps_str k ++ ": " ++ dumps v ++ dumps_members t.
Proof. reflexivity. Qed.

Lemma json_size_pos : forall j, 1 <= json_size j.
Proof. destruct j; simpl; lia. Qed.

Lemma parse_dumps : forall j, wf j = true -> forall f r, json_size j <= f -> delim r = true ->
  parse_value f (dumps j ++ r) = Some (j, r).
Proof.
  induction j as [| b | z | fl | s | l IH | l IH] using json_ind2;
    intros Hwf f r Hf Hr; (destruct f as [|f]; [simpl in Hf; lia|]).
  - exact (f_equal (fun x => Some (JNull, x)) (str_drop_app "null" r)).
  - destruct b.
    + exact (f_equal (fun x => Some (JBool true, x)) (str_drop_app "true" r)).
    + exact (f_equal (fun x => Some (JBool false, x)) (str_drop_app "false" r)).
  - apply parse_int. assumption.
  - apply parse_float; assumption.
  - cbn [dumps]. rewrite dumps_str_scan. simpl. rewrite scan_escape by exact Hwf. reflexivity.
  - destruct l as [|x t].
    + reflexivity.
    + simpl in Hwf. apply andb_prop in Hwf as [Wx0 Wt0].
      rewrite dumps_arr_cons. rewrite !sapp_assoc. simpl.
      rewrite skip_ws_dumps by exact Wx0.
      destruct (dumps_head x (dumps_items t ++ String "]" r) Wx0) as [c [t' [E [_ [Hb _]]]]].
      rewrite E, Hb, <- E.
      clear c t' E Hb.
      enough (parse_elems f (dumps x ++ dumps_items t ++ String "]" r) = Some (x :: t, r))
        as ->; [reflexivity|].
      revert x f Wx0 Wt0 Hf IH. induction t as [|y t IHt]; intros x f Wx Wt Hf IH.
      * rewrite size_arr_cons in Hf. simpl in Hf. destruct f as [|f]; [lia|].
        inversion IH as [|? ? Hx _]; subst.
        simpl. rewrite Hx by (first [assumption | lia | reflexivity]). reflexivity.
      * rewrite size_arr_cons in Hf. pose proof (json_size_pos (JArr (y :: t))).
        destruct f as [|f]; [lia|].
        inversion IH as [|? ? Hx IHl]; subst. simpl in Wt.
        apply andb_prop in Wt as [Wy Wt].
        rewrite dumps_items_cons, !sapp_assoc. simpl.
        rewrite Hx by (first [assumption | lia | reflexivity]). simpl.
        rewrite skip_ws_dumps by exact Wy. rewrite IHt; [reflexivity | exact Wy | exact Wt | lia | exact IHl].
  - destruct l as [|[k v] t].
    + reflexivity.
    + simpl in Hwf. apply andb_prop in Hwf as [Hk Hw].
      enough (parse_members f (dumps_str k ++ ": " ++ dumps v ++ dumps_members t ++ String "}" r)
              = Some ((k, v) :: t, r)) as M.
      { rewrite dumps_obj_cons. rewrite !sapp_assoc.
        rewrite dumps_str_scan. simpl. rewrite <- dumps_str_scan.
        rewrite (M : parse_members f (dumps_str k ++ String ":" (String " "
                   (dumps v ++ dumps_members t ++ String "}" r))) = _). rewrite dict_of_pairs_distinct by exact Hk. reflexivity. }
      clear Hk. revert k v f Hw Hf IH. induction t as [|[k' v'] t IHt]; intros k v f Hw Hf IH.
      * rewrite size_obj_cons in Hf. simpl in Hf. destruct f as [|f]; [lia|].
        inversion IH as [|? ? Hv _]; subst. simpl in Hw, Hv.
        apply andb_prop in Hw as [Wkv _]. apply andb_prop in Wkv as [Wk Wv].
        rewrite dumps_str_scan. simpl. rewrite scan_escape by exact Wk. simpl.
        rewrite skip_ws_dumps by exact Wv.
        rewrite Hv by (first [assumption | lia | reflexivity]). reflexivity.
      * rewrite size_obj_cons in Hf. pose proof (json_size_pos (JObj ((k', v') :: t))).
        destruct f as [|f]; [lia|].
        inversion IH as [|? ? Hv IHl]; subst. simpl in Hw, Hv.
        apply andb_prop in Hw as [Wkv Wt]. apply andb_prop in Wkv as [Wk Wv].
        rewrite dumps_members_cons, !sapp_assoc.
        rewrite dumps_str_scan. simpl. rewrite scan_escape by exact Wk. simpl.
        rewrite skip_ws_dumps by exact Wv.
        rewrite Hv by (first [assumption | lia | reflexivity]). simpl.
        assert (json_size (JObj ((k', v') :: t)) <= S f) as Hf' by lia.
        rewrite (IHt k' v' f Wt Hf' IHl : parse_members f (String dq ((escape k' ++ str1 dq)
                  ++ String ":" (String " " (dumps v' ++ dumps_members t ++ String "}" r))))
                  = _).
        reflexivity.
Qed.

Lemma dumps_size : forall j, wf j = true -> json_size j <= String.length (dumps j).
Proof.
  induction j as [| b | z | fl | s | l IH | l IH] using json_ind2; intros Hw.
  - simpl. lia.
  - destruct b; simpl; lia.
  - destruct (dumps_head (JInt z) "" Hw) as [c [t [E _]]].
    rewrite sapp_nil_r in E. simpl json_size. rewrite E. simpl. lia.
  - destruct (dumps_head (JFloat fl) "" Hw) as [c [t [E _]]].
    rewrite sapp_nil_r in E. simpl json_size. rewrite E. simpl. lia.
  - simpl. lia.
  - assert (forall t, Forall (fun j => wf j = true -> json_size j <= String.length (dumps j)) t ->
              forallb wf t = true ->
              json_size (JArr t) <= S (String.length (dumps_items t))) as Items.
    { induction t as [|y t IHt]; intros F W; [simpl; lia|].
      inversion F; subst. simpl in W. apply andb_prop in W as [Wy Wt].
      rewrite size_arr_cons, dumps_items_cons, !slength_app.
      specialize (IHt H2 Wt). specialize (H1 Wy). simpl in *. lia. }
    destruct l as [|x t]; [simpl; lia|].
    simpl in Hw. apply andb_prop in Hw as [Wx Wt].
    inversion IH; subst. specialize (Items t H2 Wt). specialize (H1 Wx).
    rewrite size_arr_cons, dumps_arr_cons, !slength_app. simpl in *. lia.
  - assert (forall t, Forall (fun kv => wf (snd kv) = true ->
                json_size (snd kv) <= String.length (dumps (snd kv))) t ->
              forallb (fun kv => wf_str (fst kv) && wf (snd kv)) t = true ->
              json_size (JObj t) <= S (String.length (dumps_members t))) as Items.
    { induction t as [|[k v] t IHt]; intros F W; [simpl; lia|].
      inversion F; subst. simpl in W. apply andb_prop in W as [Wkv Wt].
      apply andb_prop in Wkv as [_ Wv].
      rewrite size_obj_cons, dumps_members_cons, !slength_app.
      specialize (IHt H2 Wt). specialize (H1 Wv). simpl in *. lia. }
    destruct l as [|[k v] t]; [simpl; lia|].
    simpl in Hw. apply andb_prop in Hw as [_ Hw]. apply andb_prop in Hw as [Wkv Wt].
    apply andb_prop in Wkv as [_ Wv].
    inversion IH; subst. specialize (Items t H2 Wt). specialize (H1 Wv).
    rewrite size_obj_cons, dumps_obj_cons, !slength_app. simpl in *. lia.
Qed.

Lemma loads_dumps : forall j, wf j = true -> loads (dumps j) = Some j.
Proof.
  intros j Hwf. unfold loads.
  rewrite <- (sapp_nil_r (dumps j)), skip_ws_dumps by exact Hwf.
  rewrite parse_dumps; [reflexivity | assumption | | reflexivity].
  rewrite slength_app. pose proof (dumps_size j Hwf). lia.
Qed.

(** ** Power-state guards of [delete_vm] and [reset_vm] *)

Lemma handle_error_trace {A} (op : string) (e : exc) (tr : list request) :
  snd (@handle_error A op e tr) = tr.
Proof.
  unfold handle_error, raise.
  destruct (contains "not found" _ || contains "does not exist" _); [reflexivity|].
  destruct e; reflexivity.
Qed.

Lemma handle_error_raises {A} (op : string) (e : exc) (tr : list request) :
  exists e', @handle_error A op e tr = (Raise e', tr).
Proof.
  unfold handle_error, raise.
  destruct (contains "not found" _ || contains "does not exist" _); [eauto|].
  destruct e; eauto.
Qed.

(** C1: on a VM reported as running, [delete_vm] with [force=false] fails
    with the pre-flight state error ("is currently running", a [ValueError]
    re-raised untouched, the spec's Conflict) having issued only the status
    read; with [force=true] (and a successful stop) it issues the status
    read, one stop, then one delete, in that order, and nothing else. *)
Theorem delete_vm_running_guard (api : request -> response) (node vmid : string)
  (l : list (string * json)) (tr : list request) :
  api (status_req node vmid) = ROk (JObj l) ->
  dict_lookup l "status" = Some (JStr "running") ->
  let vm_name := match dict_lookup l "name" with
                 | Some v => v | None => JStr ("VM-" ++ vmid) end in
  delete_vm api node vmid false tr =
    (Raise (ValueError ("VM " ++ vmid ++ " (" ++ py_str vm_name ++
                        ") is currently running. " ++
                        "Please stop it first or use force=True to stop and delete.")),
     (tr ++ [status_req node vmid])%list) /\
  (forall stopped,
     api (mkReq POST (vm_path node vmid ["status"; "stop"]) []) = ROk stopped ->
     snd (delete_vm api node vmid true tr) =
       (tr ++ [status_req node vmid;
               mkReq POST (vm_path node vmid ["status"; "stop"]) [];
               mkReq DELETE (vm_path node vmid []) []])%list).
Proof.
  intros Hapi Hst vm_name. unfold vm_name. split.
  - unfold delete_vm, py_get, try_except, bind, call, ret, raise.
    fold (status_req node vmid). rewrite Hapi, Hst.
    destruct (dict_lookup l "name"); reflexivity.
  - intros stopped Hstop.
    unfold delete_vm, py_get, try_except, bind, call, ret, raise.
    fold (status_req node vmid). rewrite Hapi, Hst, Hstop.
    destruct (api (mkReq DELETE (vm_path node vmid []) []));
      destruct (dict_lookup l "name"); simpl;
      try rewrite handle_error_trace; rewrite <- !app_assoc; reflexivity.
Qed.

Lemma delete_vm_running_guard_witness :
  (delete_vm demo_api "pve" "100" false [] =
     (Raise (ValueError "VM 100 (web) is currently running. Please stop it first or use force=True to stop and delete."),
      [status_req "pve" "100"])) /\
  snd (delete_vm demo_api "pve" "100" true []) =
    [status_req "pve" "100";
     mkReq POST (vm_path "pve" "100" ["status"; "stop"]) [];
     mkReq DELETE (vm_path "pve" "100" []) []].
Proof.
  destruct (delete_vm_running_guard demo_api "pve" "100"
              [("status", JStr "running"); ("name", JStr "web")] [] eq_refl eq_refl)
    as [H1 H2].
  split; [exact H1 | exact (H2 (JStr "UPID:pve:0001:task") eq_refl)].
Defined.

(** C2 (counterexample): [reset_vm] on the stopped VM 101 of [demo_api]
    does not fail at all: it returns an informational text, having issued
    the status read only. *)
Lemma reset_vm_stopped_not_error :
  reset_vm demo_api "pve" "101" [] =
    (Ok [Text ("⚠️ Cannot reset VM 101: VM is currently stopped" ++ nl ++
               "Use start_vm to start it first")],
     [status_req "pve" "101"]).
Proof. vm_compute. reflexivity. Qed.

(** C2 (amended): for every VM whose status read reports "stopped",
    [reset_vm] succeeds with the informational message "Cannot reset VM
    {vmid}: VM is currently stopped / Use start_vm to start it first" and
    issues no request besides that read, so no write call and no reset. *)
Theorem reset_vm_stopped_no_write (api : request -> response) (node vmid : string)
  (l : list (string * json)) (tr : list request) :
  api (status_req node vmid) = ROk (JObj l) ->
  dict_lookup l "status" = Some (JStr "stopped") ->
  reset_vm api node vmid tr =
    (Ok [Text ("⚠️ Cannot reset VM " ++ vmid ++ ": VM is currently stopped" ++ nl ++
               "Use start_vm to start it first")],
     (tr ++ [status_req node vmid])%list).
Proof.
  intros Hapi Hst.
  unfold reset_vm, py_get, try_except, bind, call, ret, raise.
  fold (status_req node vmid). rewrite Hapi, Hst. reflexivity.
Qed.

Lemma reset_vm_stopped_no_write_witness :
  reset_vm demo_api "pve" "101" [] =
    (Ok [Text ("⚠️ Cannot reset VM 101: VM is currently stopped" ++ nl ++
               "Use start_vm to start it first")],
     [status_req "pve" "101"]).
Proof.
  exact (reset_vm_stopped_no_write demo_api "pve" "101"
           [("status", JStr "stopped"); ("name", JStr "db")] [] eq_refl eq_refl).
Defined.

(* ------------------------------------------------------------------ *)
(** ** The cluster-wide VM listing *)

Section MonadFacts.

Context {A B : Type}.

Lemma bind_ok (m : M A) (k : A -> M B) tr a tr' :
  m tr = (Ok a, tr') -> bind m k tr = k a tr'.
Proof. intros H. unfold bind. rewrite H. reflexivity. Qed.

Lemma bind_ext (m1 m2 : M A) (k1 k2 : A -> M B) tr :
  (forall tr, m1 tr = m2 tr) -> (forall a tr, k1 a tr = k2 a tr) ->
  bind m1 k1 tr = bind m2 k2 tr.
Proof.
  intros Hm Hk. unfold bind. rewrite Hm.
  destruct (m2 tr) as [[a|e] tr']; [apply Hk | reflexivity].
Qed.

Lemma try_ext (m1 m2 : M A) (h : exc -> M A) tr :
  (forall tr, m1 tr = m2 tr) -> try_except m1 h tr = try_except m2 h tr.
Proof. intros Hm. unfold try_except. rewrite Hm. reflexivity. Qed.

Lemma bind_appends (P : request -> Prop) (m : M A) (k : A -> M B) :
  appends_only P m -> (forall a, appends_only P (k a)) -> appends_only P (bind m k).
Proof.
  intros Hm Hk tr. unfold bind.
  destruct (Hm tr) as [add1 [E1 F1]].
  destruct (m tr) as [[a|e] tr1]; simpl in E1; subst tr1.
  - destruct (Hk a (tr ++ add1)%list) as [add2 [E2 F2]].
    exists (add1 ++ add2)%list. rewrite E2, app_assoc.
    split; [reflexivity | apply Forall_app; auto].
  - exists add1. auto.
Qed.

Lemma try_appends (P : request -> Prop) (m : M A) (h : exc -> M A) :
  appends_only P m -> (forall e, appends_only P (h e)) ->
  appends_only P (try_except m h).
Proof.
  intros Hm Hh tr. unfold try_except.
  destruct (Hm tr) as [add1 [E1 F1]].
  destruct (m tr) as [[a|e] tr1]; simpl in E1; subst tr1.
  - exists add1. auto.
  - destruct (Hh e (tr ++ add1)%list) as [add2 [E2 F2]].
    exists (add1 ++ add2)%list. rewrite E2, app_assoc.
    split; [reflexivity | apply Forall_app; auto].
Qed.

Lemma pure_appends (P : request -> Prop) (m : M A) :
  (forall tr, snd (m tr) = tr) -> appends_only P m.
Proof. intros H tr. exists []. rewrite H, app_nil_r. auto. Qed.

End MonadFacts.

Lemma call_appends (P : request -> Prop) api r :
  P r -> appends_only P (call api r).
Proof. intros H tr. exists [r]. unfold call. auto. Qed.

Lemma getitem_pure d k tr : snd (getitem d k tr) = tr.
Proof.
  destruct d; try reflexivity. unfold getitem.
  destruct (dict_lookup l k); reflexivity.
Qed.

Lemma py_get_pure d k v tr : snd (py_get d k v tr) = tr.
Proof.
  destruct d; try reflexivity. unfold py_get.
  destruct (dict_lookup l k); reflexivity.
Qed.

Lemma py_iter_pure v tr : snd (py_iter v tr) = tr.
Proof. destruct v; reflexivity. Qed.

(** the per-VM loop issues no request *)
Lemma collect_vms_pure node_name vms : forall result tr,
  snd (collect_vms node_name vms result tr) = tr.
Proof.
  induction vms as [|vm t IH]; intros result tr; [reflexivity|].
  cbn [collect_vms]. unfold bind.
  destruct (getitem vm "vmid" tr) as [[? | ?] tr1] eqn:E1;
    pose proof (getitem_pure vm "vmid" tr) as P1; rewrite E1 in P1; simpl in P1; subst tr1;
    [|reflexivity].
  destruct vm; try discriminate. unfold py_get. cbn.
  repeat match goal with |- context [dict_lookup ?l ?k] => destruct (dict_lookup l k) end;
    apply IH.
Qed.

Lemma collect_vms_ok node_name vms : forall result tr,
  Forall (fun vm => exists l v, vm = JObj l /\ dict_lookup l "vmid" = Some v) vms ->
  collect_vms node_name vms result tr =
    (Ok (result ++ map (coarse_entry node_name) vms)%list, tr).
Proof.
  induction vms as [|vm t IH]; intros result tr Hf.
  - rewrite app_nil_r. reflexivity.
  - inversion Hf as [|? ? [l [v [-> Hv]]] Ht]; subst.
    cbn [collect_vms map]. unfold bind, getitem, py_get, ret.
    unfold coarse_entry, coarse_field. rewrite Hv.
    repeat match goal with |- context [dict_lookup ?l ?k] =>
             match k with "vmid" => fail | _ => destruct (dict_lookup l k) end end;
      cbn beta iota; rewrite IH by exact Ht; rewrite <- app_assoc; reflexivity.
Qed.

Lemma collect_vms_cpus node_name vms : forall result tr r tr',
  Forall cpus_null result ->
  collect_vms node_name vms result tr = (Ok r, tr') -> Forall cpus_null r.
Proof.
  induction vms as [|vm t IH]; intros result tr r tr' Hres E.
  - cbn in E. injection E as <- _. exact Hres.
  - cbn [collect_vms] in E. unfold bind in E.
    destruct (getitem vm "vmid" tr) as [[vmid|?] tr1]; [|discriminate].
    destruct (py_get vm "name" JNull tr1) as [[name|?] tr2]; [|discriminate].
    destruct (py_get vm "status" JNull tr2) as [[status|?] tr3]; [|discriminate].
    destruct (py_get vm "mem" JNull tr3) as [[mem|?] tr4]; [|discriminate].
    destruct (py_get vm "maxmem" JNull tr4) as [[maxmem|?] tr5]; [|discriminate].
    refine (IH _ _ _ _ _ E). apply Forall_app. split; [exact Hres|].
    constructor; [| constructor].
    exists [("vmid", vmid); ("name", name); ("status", status); ("node", node_name);
            ("cpus", JNull); ("mem", mem); ("maxmem", maxmem)].
    split; reflexivity.
Qed.

Lemma collect_nodes_appends api nodes : forall result,
  appends_only listing_request (collect_nodes api nodes result).
Proof.
  induction nodes as [|node t IH]; intros result.
  - apply pure_appends. reflexivity.
  - cbn [collect_nodes].
    apply bind_appends; [apply pure_appends, getitem_pure | intros n].
    apply bind_appends; [| intros vms].
    { apply call_appends. split; [reflexivity | split; [reflexivity | right; eexists; reflexivity]]. }
    apply bind_appends; [apply pure_appends, py_iter_pure | intros vl].
    apply bind_appends; [apply pure_appends; intros; apply collect_vms_pure | intros r].
    apply IH.
Qed.

Lemma collect_nodes_cpus api nodes : forall result tr r tr',
  Forall cpus_null result ->
  collect_nodes api nodes result tr = (Ok r, tr') -> Forall cpus_null r.
Proof.
  induction nodes as [|node t IH]; intros result tr r tr' Hres E.
  - cbn in E. injection E as <- _. exact Hres.
  - cbn [collect_nodes] in E. unfold bind in E.
    destruct (getitem node "node" tr) as [[n|?] tr1]; [|discriminate].
    destruct (call api _ tr1) as [[vms|?] tr2]; [|discriminate].
    destruct (py_iter vms tr2) as [[vl|?] tr3]; [|discriminate].
    destruct (collect_vms n vl result tr3) as [[r'|?] tr4] eqn:Ev; [|discriminate].
    exact (IH r' tr4 r tr' (collect_vms_cpus _ _ _ _ _ _ Hres Ev) E).
Qed.

Lemma collect_nodes_ext api1 api2 :
  (forall r, listing_request r -> api1 r = api2 r) ->
  forall nodes result tr,
    collect_nodes api1 nodes result tr = collect_nodes api2 nodes result tr.
Proof.
  intros H nodes. induction nodes as [|node t IH]; intros result tr; [reflexivity|].
  cbn [collect_nodes].
  apply bind_ext; [reflexivity | intros n tr1].
  apply bind_ext; [| intros vms tr2].
  { intros tr'. unfold call. rewrite H; [reflexivity|].
    split; [reflexivity | split; [reflexivity | right; eexists; reflexivity]]. }
  apply bind_ext; [reflexivity | intros vl tr3].
  apply bind_ext; [reflexivity | intros r tr4].
  apply IH.
Qed.

Lemma collect_nodes_ok api nodes nvs :
  Forall2 (fun node nv => exists l, node = JObj l /\
             dict_lookup l "node" = Some (fst nv) /\
             api (mkReq GET [JStr "nodes"; fst nv; JStr "qemu"] []) = ROk (JArr (snd nv)))
          nodes nvs ->
  Forall (fun nv => Forall (fun vm => exists l v, vm = JObj l /\
                                dict_lookup l "vmid" = Some v) (snd nv)) nvs ->
  forall result tr,
    fst (collect_nodes api nodes result tr) =
      Ok (result ++ concat (map (fun nv => map (coarse_entry (fst nv)) (snd nv)) nvs))%list.
Proof.
  intros H2. induction H2 as [|node nv nodes nvs [l [-> [Hn Hq]]] H2 IH];
    intros Hv result tr.
  - cbn. rewrite app_nil_r. reflexivity.
  - inversion Hv as [|? ? Hvm Hvs]; subst.
    cbn [collect_nodes].
    rewrite (bind_ok _ _ tr (fst nv) tr) by (unfold getitem; rewrite Hn; reflexivity).
    rewrite (bind_ok _ _ tr (JArr (snd nv))
               (tr ++ [mkReq GET [JStr "nodes"; fst nv; JStr "qemu"] []])%list)
      by (unfold call; rewrite Hq; reflexivity).
    rewrite (bind_ok _ _ _ (snd nv) _) by reflexivity.
    rewrite (bind_ok _ _ _ _ _) by (apply collect_vms_ok; exact Hvm).
    rewrite IH by exact Hvs.
    cbn [map concat]. rewrite app_assoc. reflexivity.
Qed.

(** C3: when the node enumeration and every per-node coarse listing
    succeed, [get_vms] returns one entry per VM of every node, built from
    the fields of the coarse listing only ([coarse_entry]), whatever the
    per-VM config lookups would answer: the result is the same for every
    hypervisor [api2] that agrees with [api1] on the listings (its config
    lookups may fail), and for every trace of earlier requests, so a retry
    with no hypervisor change gives the same entries. *)
Theorem get_vms_coarse_fallback (api1 api2 : request -> response)
  (nodes : list json) (nvs : list (json * list json)) (tr : list request) :
  (forall r, listing_request r -> api1 r = api2 r) ->
  api1 (mkReq GET [JStr "nodes"] []) = ROk (JArr nodes) ->
  Forall2 (fun node nv => exists l, node = JObj l /\
             dict_lookup l "node" = Some (fst nv) /\
             api1 (mkReq GET [JStr "nodes"; fst nv; JStr "qemu"] []) = ROk (JArr (snd nv)))
          nodes nvs ->
  Forall (fun nv => Forall (fun vm => exists l v, vm = JObj l /\
                                dict_lookup l "vmid" = Some v) (snd nv)) nvs ->
  fst (get_vms api2 tr) =
    Ok [Text (dumps (JArr (concat (map (fun nv => map (coarse_entry (fst nv)) (snd nv)) nvs))))].
Proof.
  intros Hagree Hn H2 Hv.
  assert (E : get_vms api2 tr = get_vms api1 tr).
  { unfold get_vms. apply try_ext. intros tr0.
    apply bind_ext; [| intros nd tr1].
    { intros tr'. unfold call. rewrite Hagree; [reflexivity|].
      split; [reflexivity | split; [reflexivity | left; reflexivity]]. }
    apply bind_ext; [reflexivity | intros nl' tr2].
    apply bind_ext; [| reflexivity].
    intros tr3. symmetry. apply collect_nodes_ext. exact Hagree. }
  rewrite E. unfold get_vms, try_except.
  rewrite (bind_ok _ _ tr (JArr nodes) (tr ++ [mkReq GET [JStr "nodes"] []])%list)
    by (unfold call; rewrite Hn; reflexivity).
  rewrite (bind_ok _ _ _ nodes _) by reflexivity.
  pose proof (collect_nodes_ok api1 nodes nvs H2 Hv [] (tr ++ [mkReq GET [JStr "nodes"] []])%list)
    as Hc.
  destruct (collect_nodes api1 nodes [] _) as [o tr'] eqn:Ec. simpl in Hc. subst o.
  rewrite (bind_ok _ _ _ _ _ Ec). reflexivity.
Qed.

Lemma get_vms_coarse_fallback_witness :
  fst (get_vms demo_api []) =
    Ok [Text (dumps (JArr [coarse_entry (JStr "pve") (JObj [("vmid", JInt 100); ("name", JStr "web"); ("status", JStr "running")]);
                           coarse_entry (JStr "pve") (JObj [("vmid", JInt 101); ("name", JStr "db"); ("status", JStr "stopped")])]))].
Proof.
  apply (get_vms_coarse_fallback demo_api demo_api
           [JObj [("node", JStr "pve")]]
           [(JStr "pve", [JObj [("vmid", JInt 100); ("name", JStr "web"); ("status", JStr "running")];
                          JObj [("vmid", JInt 101); ("name", JStr "db"); ("status", JStr "stopped")]])]
           []).
  - intros r _. reflexivity.
  - reflexivity.
  - constructor; [| constructor]. eexists. split; [reflexivity|]. split; reflexivity.
  - repeat constructor; do 2 eexists; split; reflexivity.
Defined.

(** C10: [get_vms] issues only read calls, the node enumeration and the
    coarse per-node [qemu] listings (never a per-VM config or detail call),
    and every entry of a listing it returns has "cpus" equal to [null]. *)
Theorem get_vms_reads_only (api : request -> response) :
  appends_only listing_request (get_vms api) /\
  (forall tr t tr', get_vms api tr = (Ok [Text t], tr') ->
     exists entries, t = dumps (JArr entries) /\ Forall cpus_null entries).
Proof.
  split.
  - unfold get_vms. apply try_appends.
    + apply bind_appends; [| intros nd].
      { apply call_appends. split; [reflexivity | split; [reflexivity | left; reflexivity]]. }
      apply bind_appends; [apply pure_appends, py_iter_pure | intros nl'].
      apply bind_appends; [apply collect_nodes_appends | intros r].
      apply pure_appends. reflexivity.
    + intros e. apply pure_appends. intros tr. apply handle_error_trace.
  - intros tr t tr' E. unfold get_vms, try_except, bind in E.
    destruct (call api _ tr) as [[nd|e] tr1].
    2:{ destruct (handle_error_raises (A := list content) "get VMs" e tr1) as [e' He].
        rewrite He in E. discriminate. }
    destruct (py_iter nd tr1) as [[ns|e] tr2].
    2:{ destruct (handle_error_raises (A := list content) "get VMs" e tr2) as [e' He].
        rewrite He in E. discriminate. }
    destruct (collect_nodes api ns [] tr2) as [[r|e] tr3] eqn:Ec.
    2:{ destruct (handle_error_raises (A := list content) "get VMs" e tr3) as [e' He].
        rewrite He in E. discriminate. }
    cbn in E. injection E as Et _. subst t.
    exists r. split; [reflexivity|].
    exact (collect_nodes_cpus api ns [] tr2 r tr3 (Forall_nil _) Ec).
Qed.

(* ------------------------------------------------------------------ *)
(** ** Response shaping *)




(* ------------------------------------------------------------------ *)
(** ** The generic passthrough *)

Lemma lstrip_slashes k p : lstrip_slash (slashes k ++ p) = lstrip_slash p.
Proof. induction k as [|k IH]; [reflexivity | exact IH]. Qed.

Lemma lstrip_no_slash p : starts_with "/" p = false -> lstrip_slash p = p.
Proof.
  destruct p as [|c p]; [reflexivity|]. cbn [starts_with lstrip_slash].
  rewrite andb_true_r. intros H. rewrite Ascii.eqb_sym, H. reflexivity.
Qed.

Lemma starts_with_app p s : starts_with p (p ++ s) = true.
Proof.
  induction p as [|c p IH]; [reflexivity|]. cbn [starts_with append].
  rewrite Ascii.eqb_refl. exact IH.
Qed.

(** C5: [proxmox_request] strips all leading slashes of the path, then a
    leading "api2/json/", and hands exactly one request with the normalised
    path to the client (query parameters for GET and DELETE, the merged
    [params] and [data] for POST and PUT); "/api2/json/nodes" becomes
    "nodes". *)
Theorem proxmox_request_normalizes (api : request -> response) (method path : string)
  (params data : list (string * json)) (v : verb) (tr : list request) :
  path <> "" ->
  upper method = verb_name v ->
  snd (proxmox_request api method path params data tr) =
    (tr ++ [mkReq v [JStr (norm_path path)] (passthrough_args v params data)])%list /\
  (forall k p, norm_path (slashes k ++ "api2/json/" ++ p) = p) /\
  (forall k p, starts_with "/" p = false -> starts_with "api2/json/" p = false ->
               norm_path (slashes k ++ p) = p) /\
  norm_path "/api2/json/nodes" = "nodes".
Proof.
  intros Hp Hm. split; [|split; [|split]].
  - unfold proxmox_request, try_except, bind, ret.
    destruct (String.eqb path "") eqn:E.
    { apply String.eqb_eq in E. contradiction. }
    rewrite Hm.
    destruct v; cbn -[norm_path dict_merge dumps handle_error call];
      unfold call; destruct (api _); simpl; try rewrite handle_error_trace; reflexivity.
  - intros k p. unfold norm_path. rewrite lstrip_slashes, lstrip_no_slash by reflexivity.
    rewrite (starts_with_app "api2/json/" p). apply (str_drop_app "api2/json/" p).
  - intros k p H1 H2. unfold norm_path. rewrite lstrip_slashes, lstrip_no_slash, H2 by exact H1.
    reflexivity.
  - reflexivity.
Qed.

Lemma proxmox_request_normalizes_witness :
  snd (proxmox_request demo_api "get" "/api2/json/nodes" [] [] []) =
    [mkReq GET [JStr "nodes"] []].
Proof.
  destruct (proxmox_request_normalizes demo_api "get" "/api2/json/nodes" [] [] GET []
              ltac:(discriminate) eq_refl) as [H _].
  exact H.
Defined.

(* ------------------------------------------------------------------ *)
(** ** Argument ranges of the registered tools *)

Lemma in_range_true lo hi x : in_range lo hi x = true <-> (lo <= x <= hi)%Z.
Proof. unfold in_range. rewrite andb_true_iff, !Z.leb_le. tauto. Qed.

(** C6: a call of [create_vm] with [cpus] outside [1, 32], [memory]
    outside [512, 131072] or [disk_size] outside [5, 1000], and a call of
    [stop_container] or [restart_container] with [timeout_seconds] outside
    [1, 600], fails with InvalidArgument, issues no request and leaves the
    trace as it was. *)
Theorem range_validation (api : request -> response)
  (stop_container_body : string -> bool -> Z -> string -> M (list content))
  (restart_container_body : string -> Z -> string -> M (list content)) :
  (forall node vmid name cpus memory disk_size storage ostype tr,
     ~ (1 <= cpus <= 32 /\ 512 <= memory <= 131072 /\ 5 <= disk_size <= 1000)%Z ->
     exists m, create_vm_tool api node vmid name cpus memory disk_size storage ostype tr =
               (Raise (ToolError InvalidArgument m), tr)) /\
  (forall selector graceful timeout_seconds format_style tr,
     ~ (1 <= timeout_seconds <= 600)%Z ->
     exists m, stop_container_tool stop_container_body selector graceful
                 timeout_seconds format_style tr = (Raise (ToolError InvalidArgument m), tr)) /\
  (forall selector timeout_seconds format_style tr,
     ~ (1 <= timeout_seconds <= 600)%Z ->
     exists m, restart_container_tool restart_container_body selector
                 timeout_seconds format_style tr = (Raise (ToolError InvalidArgument m), tr)).
Proof.
  split; [|split].
  - intros node vmid name cpus memory disk_size storage ostype tr H.
    unfold create_vm_tool.
    destruct (in_range 1 32 cpus && in_range 512 131072 memory && in_range 5 1000 disk_size)
      eqn:E.
    + exfalso. apply H. rewrite !andb_true_iff, !in_range_true in E. tauto.
    + eexists. reflexivity.
  - intros selector graceful t fs tr H. unfold stop_container_tool.
    destruct (in_range 1 600 t) eqn:E.
    + exfalso. apply H, in_range_true, E.
    + eexists. reflexivity.
  - intros selector t fs tr H. unfold restart_container_tool.
    destruct (in_range 1 600 t) eqn:E.
    + exfalso. apply H, in_range_true, E.
    + eexists. reflexivity.
Qed.

Lemma range_validation_witness :
  (exists m, create_vm_tool demo_api "pve" "300" "big" 64 2048 10 None None [] =
             (Raise (ToolError InvalidArgument m), [])) /\
  (exists m, stop_container_tool (fun _ _ _ _ => ret []) "123" true 0 "pretty" [] =
             (Raise (ToolError InvalidArgument m), [])) /\
  (exists m, restart_container_tool (fun _ _ _ => ret []) "123" 601 "json" [] =
             (Raise (ToolError InvalidArgument m), [])).
Proof.
  destruct (range_validation demo_api (fun _ _ _ _ => ret []) (fun _ _ _ => ret []))
    as [H1 [H2 H3]].
  split; [|split].
  - apply H1. lia.
  - apply H2. lia.
  - apply H3. lia.
Defined.

(* ------------------------------------------------------------------ *)
(** ** Service actions *)

(** C7 (counterexample): [service_action] with the action "reload", which
    is none of start, stop, restart, is not rejected: it posts to
    [nodes/pve/services/ssh/reload] and returns the task. *)
Lemma service_action_reload_dispatched :
  service_action demo_api "pve" "ssh" "reload" [] =
    (Ok [Text (dumps (JObj [("task", JStr "UPID:pve:0001:task")]))],
     [mkReq POST (lits ["nodes"; "pve"; "services"; "ssh"; "reload"]) []]).
Proof. vm_compute. reflexivity. Qed.

(** C7 (amended): [service_action] resolves the action as a path segment of
    the client: for every action that does not start with an underscore
    and is not one of the client resource's own method names (among them
    start, stop, restart, but also any other string), it issues exactly one
    POST to [nodes/{node}/services/{service}/{action}] with no arguments and
    returns the answer wrapped as [{"task": ...}]; no action is rejected as
    unsupported. *)
Theorem service_action_posts_segment (api : request -> response)
  (node service action : string) (raw : json) (tr : list request) :
  starts_with "_" action = false ->
  existsb (String.eqb action) resource_methods = false ->
  api (mkReq POST (lits ["nodes"; node; "services"; service; action]) []) = ROk raw ->
  service_action api node service action tr =
    (Ok [Text (dumps (JObj [("task", raw)]))],
     (tr ++ [mkReq POST (lits ["nodes"; node; "services"; service; action]) []])%list).
Proof.
  intros Hu Hm Ha. unfold service_action. rewrite Hu, Hm.
  unfold bind, call, ret. rewrite Ha. reflexivity.
Qed.

Lemma service_action_posts_segment_witness :
  service_action demo_api "pve" "ssh" "reload" [] =
    (Ok [Text (dumps (JObj [("task", JStr "UPID:pve:0001:task")]))],
     [mkReq POST (lits ["nodes"; "pve"; "services"; "ssh"; "reload"]) []]).
Proof.
  exact (service_action_posts_segment demo_api "pve" "ssh" "reload"
           (JStr "UPID:pve:0001:task") [] eq_refl eq_refl eq_refl).
Defined.

(* ------------------------------------------------------------------ *)
(** ** Storage auto-detection of [create_vm] *)

Lemma try_bind_ok {A B} (m : M A) (k : A -> M B) (h : exc -> M B) tr a tr' :
  m tr = (Ok a, tr') -> try_except (bind m k) h tr = try_except (k a) h tr'.
Proof. intros H. unfold try_except, bind. rewrite H. reflexivity. Qed.

Lemma try_bind_raise {A B} (m : M A) (k : A -> M B) (h : exc -> M B) tr e tr' :
  m tr = (Raise e, tr') -> try_except (bind m k) h tr = h e tr'.
Proof. intros H. unfold try_except, bind. rewrite H. reflexivity. Qed.

Lemma bind_raise {A B} (m : M A) (k : A -> M B) tr e tr' :
  m tr = (Raise e, tr') -> bind m k tr = (Raise e, tr').
Proof. intros H. unfold bind. rewrite H. reflexivity. Qed.

Lemma storage_entry_getitem s n c tr :
  storage_entry s = Some (n, c) -> getitem s "storage" tr = (Ok (JStr n), tr).
Proof.
  destruct s as [| | | | |l|l]; try discriminate. unfold storage_entry, getitem.
  destruct (dict_lookup l "storage") as [[| | | |n'| |]|]; try discriminate;
    destruct (dict_lookup l "content") as [[| | | |c'| |]|]; try discriminate;
    intros H; injection H; intros; subst; reflexivity.
Qed.

Lemma storage_entry_content s n c tr :
  storage_entry s = Some (n, c) -> py_get s "content" (JStr "") tr = (Ok (JStr c), tr).
Proof.
  destruct s as [| | | | |l|l]; try discriminate. unfold storage_entry, py_get.
  destruct (dict_lookup l "storage") as [[| | | |n'| |]|]; try discriminate;
    destruct (dict_lookup l "content") as [[| | | |c'| |]|]; try discriminate;
    intros H; injection H; intros; subst; reflexivity.
Qed.

Lemma named_with_images_entry name s e tr :
  storage_entry s = Some e ->
  named_with_images name s tr =
    (Ok (String.eqb (fst e) name && supports_images e), tr).
Proof.
  destruct e as [n c]. intros H. unfold named_with_images.
  rewrite (bind_ok _ _ tr (JStr n) tr (storage_entry_getitem s n c tr H)).
  cbn [py_eq_str fst]. destruct (String.eqb n name); [|reflexivity].
  rewrite (bind_ok _ _ tr (JStr c) tr (storage_entry_content s n c tr H)).
  reflexivity.
Qed.

Lemma with_images_entry s e tr :
  storage_entry s = Some e -> with_images s tr = (Ok (supports_images e), tr).
Proof.
  destruct e as [n c]. intros H. unfold with_images.
  rewrite (bind_ok _ _ tr (JStr c) tr (storage_entry_content s n c tr H)).
  reflexivity.
Qed.

Lemma first_storage_find (test : json -> M bool) (f : string * string -> bool)
  l entries tr :
  Forall2 (fun s e => storage_entry s = Some e) l entries ->
  (forall s e tr, storage_entry s = Some e -> test s tr = (Ok (f e), tr)) ->
  first_storage test l tr =
    (Ok (match find f entries with Some e => JStr (fst e) | None => JNull end), tr).
Proof.
  intros H2 Ht. induction H2 as [|s e l entries He H2 IH]; [reflexivity|].
  cbn [first_storage find].
  rewrite (bind_ok _ _ tr (f e) tr (Ht s e tr He)).
  destruct (f e); [|exact IH].
  destruct e as [n c]. exact (storage_entry_getitem s n c tr He).
Qed.

Lemma autodetect_storage_spec l entries tr :
  Forall2 (fun s e => storage_entry s = Some e) l entries ->
  autodetect_storage l tr =
    match spec_select entries with
    | Some st => (Ok (JStr st), tr)
    | None => (Raise (ValueError "No suitable storage found for VM images"), tr)
    end.
Proof.
  intros H2. unfold autodetect_storage, spec_select.
  rewrite (bind_ok _ _ tr _ tr
             (first_storage_find _ _ l entries tr H2
                (fun s e tr He => named_with_images_entry "local-lvm" s e tr He))).
  destruct (find _ entries) as [e|]; [reflexivity|]. cbn [is_none].
  rewrite (bind_ok _ _ tr _ tr
             (first_storage_find _ _ l entries tr H2
                (fun s e tr He => named_with_images_entry "vm-storage" s e tr He))).
  destruct (find _ entries) as [e|]; [reflexivity|]. cbn [is_none].
  rewrite (bind_ok _ _ tr _ tr
             (first_storage_find _ _ l entries tr H2
                (fun s e tr He => with_images_entry s e tr He))).
  destruct (find _ entries) as [e|]; reflexivity.
Qed.

Lemma build_storage_info_ok l : forall entries d tr,
  Forall2 (fun s e => storage_entry s = Some e) l entries ->
  exists d', build_storage_info l d tr = (Ok d', tr).
Proof.
  induction l as [|s t IH]; intros entries d tr H2; [eexists; reflexivity|].
  inversion H2 as [|? e ? entries' He H2']; subst.
  cbn [build_storage_info]. destruct e as [n c].
  rewrite (bind_ok _ _ tr (JStr n) tr (storage_entry_getitem s n c tr He)).
  unfold py_dict_set. cbn [py_hashable].
  destruct (existsb _ d); unfold bind, ret; eapply IH; exact H2'.
Qed.

(** the pre-check on the VM id, when its config lookup reports that it does
    not exist *)
Lemma create_vm_precheck api node vmid m tr :
  api (mkReq GET (vm_path node vmid ["config"]) []) = RErr m ->
  contains "does not exist" (lower m) = true ->
  try_except
    (existing_vm <- call api (mkReq GET (vm_path node vmid ["config"]) []) ;;
     raise (ValueError ("VM " ++ vmid ++ " already exists on node " ++ node)))
    (fun e => if negb (contains "does not exist" (lower (exc_str e)))
              then raise e else ret JNull) tr =
  (Ok JNull, (tr ++ [mkReq GET (vm_path node vmid ["config"]) []])%list).
Proof.
  intros Ha Hm. unfold try_except, bind, call. rewrite Ha. cbn [exc_str].
  rewrite Hm. reflexivity.
Qed.

(** C8: with [storage] unspecified, [create_vm] picks the storage exactly as
    [spec_select] does ("local-lvm" supporting images, else "vm-storage"
    supporting images, else the first storage of the node's list
    supporting images, where supporting images is the code's test
    ["images" in content]): it behaves as if that storage had been given.
    When no storage supports images it fails with "No suitable storage
    found for VM images" after the two reads, without the create call. *)
Theorem create_vm_storage_priority (api : request -> response)
  (node vmid name : string) (cpus memory disk_size : Z) (ostype : option string)
  (m : string) (storage_list : list json) (entries : list (string * string))
  (tr : list request) :
  api (mkReq GET (vm_path node vmid ["config"]) []) = RErr m ->
  contains "does not exist" (lower m) = true ->
  api (mkReq GET (lits ["nodes"; node; "storage"]) []) = ROk (JArr storage_list) ->
  Forall2 (fun s e => storage_entry s = Some e) storage_list entries ->
  match spec_select entries with
  | Some st =>
      create_vm api node vmid name cpus memory disk_size None ostype tr =
      create_vm api node vmid name cpus memory disk_size (Some st) ostype tr
  | None =>
      create_vm api node vmid name cpus memory disk_size None ostype tr =
      (Raise (ValueError "No suitable storage found for VM images"),
       (tr ++ [mkReq GET (vm_path node vmid ["config"]) [];
               mkReq GET (lits ["nodes"; node; "storage"]) []])%list)
  end.
Proof.
  intros Hc Hm Hs H2.
  set (tr1 := (tr ++ [mkReq GET (vm_path node vmid ["config"]) []])%list).
  set (tr2 := (tr1 ++ [mkReq GET (lits ["nodes"; node; "storage"]) []])%list).
  destruct (build_storage_info_ok storage_list entries [] tr2 H2) as [info Hinfo].
  pose proof (autodetect_storage_spec storage_list entries tr2 H2) as Ha.
  pose proof (create_vm_precheck api node vmid m tr Hc Hm) as Hpre. fold tr1 in Hpre.
  assert (Hst : call api (mkReq GET (lits ["nodes"; node; "storage"]) []) tr1 =
                (Ok (JArr storage_list), tr2)) by (unfold call; rewrite Hs; reflexivity).
  unfold create_vm.
  destruct (spec_select entries) as [st|].
  - do 2 (rewrite (try_bind_ok _ _ _ _ _ _ Hpre); cbv beta).
    do 2 (rewrite (try_bind_ok _ _ _ _ _ _ Hst); cbv beta).
    do 2 (rewrite (try_bind_ok (py_iter (JArr storage_list)) _ _ tr2 storage_list tr2 eq_refl);
          cbv beta).
    do 2 (rewrite (try_bind_ok _ _ _ _ _ _ Hinfo); cbv beta iota).
    rewrite (try_bind_ok _ _ _ _ _ _ Ha).
    rewrite (try_bind_ok (ret (JStr st)) _ _ tr2 (JStr st) tr2 eq_refl).
    reflexivity.
  - rewrite (try_bind_ok _ _ _ _ _ _ Hpre); cbv beta.
    rewrite (try_bind_ok _ _ _ _ _ _ Hst); cbv beta.
    rewrite (try_bind_ok (py_iter (JArr storage_list)) _ _ tr2 storage_list tr2 eq_refl);
      cbv beta.
    rewrite (try_bind_ok _ _ _ _ _ _ Hinfo); cbv beta iota.
    rewrite (try_bind_raise _ _ _ _ _ _ Ha).
    unfold tr2, tr1. rewrite <- app_assoc. reflexivity.
Qed.

Lemma create_vm_storage_priority_witness :
  create_vm demo_api "pve" "200" "app" 2 2048 10 None None [] =
  create_vm demo_api "pve" "200" "app" 2 2048 10 (Some "local-lvm") None [].
Proof.
  apply (create_vm_storage_priority demo_api "pve" "200" "app" 2 2048 10 None
           "Configuration file does not exist"
           [JObj [("storage", JStr "local"); ("content", JStr "iso,vztmpl,backup"); ("type", JStr "dir")];
            JObj [("storage", JStr "local-lvm"); ("content", JStr "images,rootdir"); ("type", JStr "lvmthin")]]
           [("local", "iso,vztmpl,backup"); ("local-lvm", "images,rootdir")] []
           eq_refl eq_refl eq_refl).
  repeat constructor.
Defined.

(* ------------------------------------------------------------------ *)
(** ** Read responses survive the envelope *)

(** C9: the read tools [proxmox_request] with GET, [get_storage],
    [get_nodes] and [get_vm_status] put the JSON serialization of the
    decoded answer in their single text block, and decoding that text gives
    the answer back, every field in its place.  This holds for every answer
    [json.loads] can produce ([wf]): strings of any code points (a lone
    surrogate included, but no high surrogate directly followed by a low
    one, which [json.loads] would have joined), integers, binary64 floats
    other than NaN (NaN is unequal to itself), booleans, null, lists and
    objects with distinct keys. *)
Theorem read_roundtrip (api : request -> response) (raw : json)
  (path : string) (params : list (string * json)) (node vmid : string)
  (tr : list request) :
  wf raw = true ->
  (forall r, r_verb r = GET -> api r = ROk raw) ->
  path <> "" ->
  (exists t, fst (proxmox_request api "GET" path params [] tr) = Ok [Text t] /\
             loads t = Some raw) /\
  (exists t, fst (get_storage api tr) = Ok [Text t] /\ loads t = Some raw) /\
  (exists t, fst (get_nodes api tr) = Ok [Text t] /\ loads t = Some raw) /\
  (exists t, fst (get_vm_status api node vmid tr) = Ok [Text t] /\ loads t = Some raw).
Proof.
  intros Hwf Hr Hp.
  split; [|split; [|split]]; exists (dumps raw); (split; [|exact (loads_dumps raw Hwf)]).
  - unfold proxmox_request, try_except, bind, call, ret.
    destruct (String.eqb path "") eqn:E.
    { apply String.eqb_eq in E. contradiction. }
    cbn -[norm_path dumps]. rewrite Hr by reflexivity. reflexivity.
  - unfold get_storage, try_except, bind, call, ret. rewrite Hr by reflexivity. reflexivity.
  - unfold get_nodes, try_except, bind, call, ret. rewrite Hr by reflexivity. reflexivity.
  - unfold get_vm_status, try_except, bind, call, ret. rewrite Hr by reflexivity. reflexivity.
Qed.

Lemma read_roundtrip_witness :
  (exists t, fst (proxmox_request demo_api "GET" "/api2/json/storage" [] [] []) = Ok [Text t] /\
             loads t = Some (JArr [JObj [("storage", JStr "local"); ("type", JStr "dir")]])) /\
  (exists t, fst (get_storage demo_api []) = Ok [Text t] /\
             loads t = Some (JArr [JObj [("storage", JStr "local"); ("type", JStr "dir")]])) /\
  (exists t, fst (get_nodes (fun _ => ROk (JArr [JObj [("storage", JStr "local"); ("type", JStr "dir")]])) []) =
               Ok [Text t] /\
             loads t = Some (JArr [JObj [("storage", JStr "local"); ("type", JStr "dir")]])) /\
  (exists t, fst (get_vm_status (fun _ => ROk (JArr [JObj [("storage", JStr "local"); ("type", JStr "dir")]]))
                    "pve" "100" []) = Ok [Text t] /\
             loads t = Some (JArr [JObj [("storage", JStr "local"); ("type", JStr "dir")]])).
Proof.
  pose (raw := JArr [JObj [("storage", JStr "local"); ("type", JStr "dir")]]).
  pose (api := fun _ : request => ROk raw).
  destruct (read_roundtrip api raw "/api2/json/storage" [] "pve" "100" [] eq_refl
              (fun _ _ => eq_refl) ltac:(discriminate)) as [H1 [H2 [H3 H4]]].
  split; [|split; [|split]].
  - destruct H1 as [t [E L]]. exists t. split; [|exact L].
    rewrite <- E. vm_compute. reflexivity.
  - destruct H2 as [t [E L]]. exists t. split; [|exact L].
    rewrite <- E. vm_compute. reflexivity.
  - exact H3.
  - exact H4.
Defined.

(* ================================================================== *)
(** * Further properties of the tool layer *)

(** ** The power operations *)

Lemma start_vm_guarded api node vmid :
  start_vm api node vmid =
  guarded_op api node vmid "running" "start" ("🟢 VM " ++ vmid ++ " is already running")
    (fun t => "🚀 VM " ++ vmid ++ " start initiated successfully" ++ nl ++ "Task ID: " ++ py_str t)
    ("start VM " ++ vmid).
Proof. reflexivity. Qed.

Lemma stop_vm_guarded api node vmid :
  stop_vm api node vmid =
  guarded_op api node vmid "stopped" "stop" ("🔴 VM " ++ vmid ++ " is already stopped")
    (fun t => "🛑 VM " ++ vmid ++ " stop initiated successfully" ++ nl ++ "Task ID: " ++ py_str t)
    ("stop VM " ++ vmid).
Proof. reflexivity. Qed.

Lemma shutdown_vm_guarded api node vmid :
  shutdown_vm api node vmid =
  guarded_op api node vmid "stopped" "shutdown" ("🔴 VM " ++ vmid ++ " is already stopped")
    (fun t => "💤 VM " ++ vmid ++ " graceful shutdown initiated" ++ nl ++ "Task ID: " ++ py_str t)
    ("shutdown VM " ++ vmid).
Proof. reflexivity. Qed.

Lemma reset_vm_guarded api node vmid :
  reset_vm api node vmid =
  guarded_op api node vmid "stopped" "reset"
    ("⚠️ Cannot reset VM " ++ vmid ++ ": VM is currently stopped" ++ nl ++
     "Use start_vm to start it first")
    (fun t => "🔄 VM " ++ vmid ++ " reset initiated successfully" ++ nl ++ "Task ID: " ++ py_str t)
    ("reset VM " ++ vmid).
Proof. reflexivity. Qed.

Lemma py_eq_str_false v s : v <> JStr s -> py_eq_str v s = false.
Proof.
  intros H. destruct v; try reflexivity. simpl.
  destruct (String.eqb s0 s) eqn:E; [|reflexivity].
  apply String.eqb_eq in E. subst. contradiction.
Qed.

Lemma py_get_obj l k d tr :
  py_get (JObj l) k d tr =
  (Ok (match dict_lookup l k with Some v => v | None => d end), tr).
Proof. unfold py_get. destruct (dict_lookup l k); reflexivity. Qed.

Section Guarded.

Variables (api : request -> response) (node vmid skip seg skip_text operation : string)
  (ok_text : json -> string).

Let G := guarded_op api node vmid skip seg skip_text ok_text operation.

Lemma guarded_skip l tr :
  api (status_req node vmid) = ROk (JObj l) ->
  coarse_field (JObj l) "status" = JStr skip ->
  G tr = (Ok [Text skip_text], (tr ++ [status_req node vmid])%list).
Proof.
  intros Ha Hs. unfold G, guarded_op, try_except, bind, call at 1.
  rewrite Ha, py_get_obj. cbn in Hs |- *. rewrite Hs. simpl. rewrite String.eqb_refl.
  reflexivity.
Qed.

Lemma guarded_post l raw tr :
  api (status_req node vmid) = ROk (JObj l) ->
  coarse_field (JObj l) "status" <> JStr skip ->
  api (power_req node vmid seg) = ROk raw ->
  G tr = (Ok [Text (ok_text raw)],
          (tr ++ [status_req node vmid; power_req node vmid seg])%list).
Proof.
  intros Ha Hs Hp. unfold G, guarded_op, try_except, bind, call.
  rewrite Ha, py_get_obj. cbn in Hs.
  rewrite (py_eq_str_false _ _ Hs). fold (power_req node vmid seg). rewrite Hp.
  cbn. rewrite <- app_assoc. reflexivity.
Qed.

Lemma guarded_missing m tr :
  api (status_req node vmid) = RErr m ->
  vm_missing (FacadeError m) = true ->
  G tr = (Raise (ValueError ("VM " ++ vmid ++ " not found on node " ++ node)),
          (tr ++ [status_req node vmid])%list).
Proof.
  intros Ha Hm. unfold G, guarded_op, try_except, bind, call. rewrite Ha, Hm. reflexivity.
Qed.

Lemma guarded_post_missing l m tr :
  api (status_req node vmid) = ROk (JObj l) ->
  coarse_field (JObj l) "status" <> JStr skip ->
  api (power_req node vmid seg) = RErr m ->
  vm_missing (FacadeError m) = true ->
  G tr = (Raise (ValueError ("VM " ++ vmid ++ " not found on node " ++ node)),
          (tr ++ [status_req node vmid; power_req node vmid seg])%list).
Proof.
  intros Ha Hs Hp Hm. unfold G, guarded_op, try_except, bind, call.
  rewrite Ha, py_get_obj. cbn in Hs.
  rewrite (py_eq_str_false _ _ Hs). fold (power_req node vmid seg). rewrite Hp.
  cbn. rewrite Hm, <- app_assoc. reflexivity.
Qed.

Lemma guarded_trace tr :
  snd (G tr) = (tr ++ [status_req node vmid])%list \/
  snd (G tr) = (tr ++ [status_req node vmid; power_req node vmid seg])%list.
Proof.
  unfold G, guarded_op, try_except, bind, call.
  fold (power_req node vmid seg).
  destruct (api (status_req node vmid)) as [j|m].
  2:{ left. destruct (vm_missing _); [reflexivity | apply handle_error_trace]. }
  destruct (py_get j "status" JNull (tr ++ [status_req node vmid])%list)
    as [[s|e] tr1] eqn:Eg;
    pose proof (py_get_pure j "status" JNull (tr ++ [status_req node vmid])%list) as P;
    rewrite Eg in P; simpl in P; subst tr1.
  2:{ left. destruct (vm_missing _); [reflexivity | apply handle_error_trace]. }
  destruct (py_eq_str s skip); [left; reflexivity|].
  right. rewrite <- app_assoc.
  destruct (api (power_req node vmid seg)); [reflexivity|].
  destruct (vm_missing _); [reflexivity | apply handle_error_trace].
Qed.

End Guarded.

(** ** Extras: the power operations *)

Lemma vm_missing_facade m :
  contains "not found" (lower m) = true \/ contains "does not exist" (lower m) = true ->
  vm_missing (FacadeError m) = true.
Proof.
  intros [H|H]; unfold vm_missing; cbn [exc_str]; rewrite H;
    [apply Bool.orb_true_r | reflexivity].
Qed.

(** [start_vm] on a VM whose status read reports "running", and [stop_vm]
    and [shutdown_vm] on one reporting "stopped", succeed with the
    "already running" / "already stopped" text and issue no request besides
    the status read. *)
Theorem power_ops_already_in_state :
  (forall api node vmid l tr,
     api (status_req node vmid) = ROk (JObj l) ->
     dict_lookup l "status" = Some (JStr "running") ->
     start_vm api node vmid tr =
       (Ok [Text ("🟢 VM " ++ vmid ++ " is already running")],
        (tr ++ [status_req node vmid])%list)) /\
  (forall api node vmid l tr,
     api (status_req node vmid) = ROk (JObj l) ->
     dict_lookup l "status" = Some (JStr "stopped") ->
     stop_vm api node vmid tr =
       (Ok [Text ("🔴 VM " ++ vmid ++ " is already stopped")],
        (tr ++ [status_req node vmid])%list) /\
     shutdown_vm api node vmid tr =
       (Ok [Text ("🔴 VM " ++ vmid ++ " is already stopped")],
        (tr ++ [status_req node vmid])%list)).
Proof.
  split.
  - intros api node vmid l tr Ha Hs. rewrite start_vm_guarded.
    apply (guarded_skip _ _ _ _ _ _ _ _ l); [exact Ha | cbn; rewrite Hs; reflexivity].
  - intros api node vmid l tr Ha Hs. rewrite stop_vm_guarded, shutdown_vm_guarded.
    split; apply (guarded_skip _ _ _ _ _ _ _ _ l);
      solve [exact Ha | cbn; rewrite Hs; reflexivity].
Qed.

Lemma power_ops_already_in_state_witness :
  start_vm demo_api "pve" "100" [] =
    (Ok [Text "🟢 VM 100 is already running"], [status_req "pve" "100"]) /\
  stop_vm demo_api "pve" "101" [] =
    (Ok [Text "🔴 VM 101 is already stopped"], [status_req "pve" "101"]) /\
  shutdown_vm demo_api "pve" "101" [] =
    (Ok [Text "🔴 VM 101 is already stopped"], [status_req "pve" "101"]).
Proof.
  split.
  - exact (proj1 power_ops_already_in_state demo_api "pve" "100"
             [("status", JStr "running"); ("name", JStr "web")] [] eq_refl eq_refl).
  - exact (proj2 power_ops_already_in_state demo_api "pve" "101"
             [("status", JStr "stopped"); ("name", JStr "db")] [] eq_refl eq_refl).
Defined.

(** When the status read answers an object whose "status" is not the one
    the operation skips on (a missing "status" included), each power
    operation posts exactly once to [status/<op>] of that VM and reports the
    task identifier the post returned: the trace is the status read then
    the post, nothing else. *)
Theorem power_ops_post_when_not_in_state :
  (forall api node vmid l raw tr,
     api (status_req node vmid) = ROk (JObj l) ->
     dict_lookup l "status" <> Some (JStr "running") ->
     api (power_req node vmid "start") = ROk raw ->
     start_vm api node vmid tr =
       (Ok [Text ("🚀 VM " ++ vmid ++ " start initiated successfully" ++ nl ++
                  "Task ID: " ++ py_str raw)],
        (tr ++ [status_req node vmid; power_req node vmid "start"])%list)) /\
  (forall api node vmid l raw tr,
     api (status_req node vmid) = ROk (JObj l) ->
     dict_lookup l "status" <> Some (JStr "stopped") ->
     api (power_req node vmid "stop") = ROk raw ->
     stop_vm api node vmid tr =
       (Ok [Text ("🛑 VM " ++ vmid ++ " stop initiated successfully" ++ nl ++
                  "Task ID: " ++ py_str raw)],
        (tr ++ [status_req node vmid; power_req node vmid "stop"])%list)) /\
  (forall api node vmid l raw tr,
     api (status_req node vmid) = ROk (JObj l) ->
     dict_lookup l "status" <> Some (JStr "stopped") ->
     api (power_req node vmid "shutdown") = ROk raw ->
     shutdown_vm api node vmid tr =
       (Ok [Text ("💤 VM " ++ vmid ++ " graceful shutdown initiated" ++ nl ++
                  "Task ID: " ++ py_str raw)],
        (tr ++ [status_req node vmid; power_req node vmid "shutdown"])%list)) /\
  (forall api node vmid l raw tr,
     api (status_req node vmid) = ROk (JObj l) ->
     dict_lookup l "status" <> Some (JStr "stopped") ->
     api (power_req node vmid "reset") = ROk raw ->
     reset_vm api node vmid tr =
       (Ok [Text ("🔄 VM " ++ vmid ++ " reset initiated successfully" ++ nl ++
                  "Task ID: " ++ py_str raw)],
        (tr ++ [status_req node vmid; power_req node vmid "reset"])%list)).
Proof.
  assert (Hne : forall l s, dict_lookup l "status" <> Some (JStr s) ->
                            coarse_field (JObj l) "status" <> JStr s).
  { intros l s H. cbn. destruct (dict_lookup l "status"); [|discriminate].
    intros ->. apply H. reflexivity. }
  repeat split; intros api node vmid l raw tr Ha Hs Hp;
    [rewrite start_vm_guarded | rewrite stop_vm_guarded
    | rewrite shutdown_vm_guarded | rewrite reset_vm_guarded];
    (erewrite (guarded_post _ _ _ _ _ _ _ _ l raw); [reflexivity | ..]); auto.
Qed.

Lemma power_ops_post_when_not_in_state_witness :
  snd (start_vm demo_api "pve" "101" []) = [status_req "pve" "101"; power_req "pve" "101" "start"] /\
  snd (stop_vm demo_api "pve" "100" []) = [status_req "pve" "100"; power_req "pve" "100" "stop"] /\
  snd (shutdown_vm demo_api "pve" "100" []) = [status_req "pve" "100"; power_req "pve" "100" "shutdown"] /\
  snd (reset_vm demo_api "pve" "100" []) = [status_req "pve" "100"; power_req "pve" "100" "reset"].
Proof.
  destruct power_ops_post_when_not_in_state as [H1 [H2 [H3 H4]]].
  split; [|split; [|split]].
  - rewrite (H1 demo_api "pve" "101" [("status", JStr "stopped"); ("name", JStr "db")]
               (JStr "UPID:pve:0001:task") []); [reflexivity | reflexivity | discriminate | reflexivity].
  - rewrite (H2 demo_api "pve" "100" [("status", JStr "running"); ("name", JStr "web")]
               (JStr "UPID:pve:0001:task") []); [reflexivity | reflexivity | discriminate | reflexivity].
  - rewrite (H3 demo_api "pve" "100" [("status", JStr "running"); ("name", JStr "web")]
               (JStr "UPID:pve:0001:task") []); [reflexivity | reflexivity | discriminate | reflexivity].
  - rewrite (H4 demo_api "pve" "100" [("status", JStr "running"); ("name", JStr "web")]
               (JStr "UPID:pve:0001:task") []); [reflexivity | reflexivity | discriminate | reflexivity].
Defined.

(** When the status read fails with a message that contains "not found"
    or "does not exist" (in any letter case), every power operation raises
    [ValueError("VM {vmid} not found on node {node}")], having issued only
    that read. *)
Theorem power_ops_missing_vm (api : request -> response) (node vmid m : string)
  (tr : list request) :
  api (status_req node vmid) = RErr m ->
  contains "not found" (lower m) = true \/ contains "does not exist" (lower m) = true ->
  let r := (Raise (ValueError ("VM " ++ vmid ++ " not found on node " ++ node)),
            (tr ++ [status_req node vmid])%list) in
  start_vm api node vmid tr = r /\ stop_vm api node vmid tr = r /\
  shutdown_vm api node vmid tr = r /\ reset_vm api node vmid tr = r.
Proof.
  intros Ha Hm r. apply vm_missing_facade in Hm.
  rewrite start_vm_guarded, stop_vm_guarded, shutdown_vm_guarded, reset_vm_guarded.
  repeat split; apply (guarded_missing _ _ _ _ _ _ _ _ m); assumption.
Qed.

Lemma power_ops_missing_vm_witness :
  start_vm demo_api "pve" "999" [] =
    (Raise (ValueError "VM 999 not found on node pve"), [status_req "pve" "999"]).
Proof.
  refine (proj1 (power_ops_missing_vm demo_api "pve" "999" "Configuration file does not exist" []
                   eq_refl _)).
  right. vm_compute. reflexivity.
Defined.

(** The "VM not found" translation also applies to the post itself: when
    the status read succeeds and the operation's post fails with a message
    containing "not found" or "does not exist", the operation raises
    [ValueError("VM {vmid} not found on node {node}")] although the VM
    exists, whatever was not found. *)
Theorem power_ops_post_failure_reported_missing :
  forall (api : request -> response) (node vmid m : string) l tr,
  api (status_req node vmid) = ROk (JObj l) ->
  contains "not found" (lower m) = true \/ contains "does not exist" (lower m) = true ->
  let err := Raise (ValueError ("VM " ++ vmid ++ " not found on node " ++ node)) in
  (dict_lookup l "status" <> Some (JStr "running") ->
   api (power_req node vmid "start") = RErr m ->
   start_vm api node vmid tr =
     (err, (tr ++ [status_req node vmid; power_req node vmid "start"])%list)) /\
  (dict_lookup l "status" <> Some (JStr "stopped") ->
   api (power_req node vmid "stop") = RErr m ->
   stop_vm api node vmid tr =
     (err, (tr ++ [status_req node vmid; power_req node vmid "stop"])%list)) /\
  (dict_lookup l "status" <> Some (JStr "stopped") ->
   api (power_req node vmid "shutdown") = RErr m ->
   shutdown_vm api node vmid tr =
     (err, (tr ++ [status_req node vmid; power_req node vmid "shutdown"])%list)) /\
  (dict_lookup l "status" <> Some (JStr "stopped") ->
   api (power_req node vmid "reset") = RErr m ->
   reset_vm api node vmid tr =
     (err, (tr ++ [status_req node vmid; power_req node vmid "reset"])%list)).
Proof.
  intros api node vmid m l tr Ha Hm err. apply vm_missing_facade in Hm.
  assert (Hne : forall s, dict_lookup l "status" <> Some (JStr s) ->
                          coarse_field (JObj l) "status" <> JStr s).
  { intros s H. cbn. destruct (dict_lookup l "status"); [|discriminate].
    intros ->. apply H. reflexivity. }
  repeat split; intros Hs Hp;
    [rewrite start_vm_guarded | rewrite stop_vm_guarded
    | rewrite shutdown_vm_guarded | rewrite reset_vm_guarded];
    (erewrite (guarded_post_missing _ _ _ _ _ _ _ _ l m); [reflexivity | ..]); auto.
Qed.

Lemma power_ops_post_failure_reported_missing_witness :
  let api := fun r => match r_verb r with
                      | POST => RErr "storage 'nfs-backup' not found"
                      | _ => demo_api r end in
  start_vm api "pve" "101" [] =
    (Raise (ValueError "VM 101 not found on node pve"),
     [status_req "pve" "101"; power_req "pve" "101" "start"]).
Proof.
  intros api.
  refine (proj1 (power_ops_post_failure_reported_missing api "pve" "101"
                   "storage 'nfs-backup' not found"
                   [("status", JStr "stopped"); ("name", JStr "db")] [] eq_refl _)
            _ eq_refl).
  - left. vm_compute. reflexivity.
  - discriminate.
Defined.

(** Whatever the hypervisor answers, a power operation issues either the
    status read alone or the status read followed by its own post, and no
    other request. *)
Theorem power_ops_trace_bound (api : request -> response) (node vmid : string)
  (tr : list request) :
  (snd (start_vm api node vmid tr) = (tr ++ [status_req node vmid])%list \/
   snd (start_vm api node vmid tr) = (tr ++ [status_req node vmid; power_req node vmid "start"])%list) /\
  (snd (stop_vm api node vmid tr) = (tr ++ [status_req node vmid])%list \/
   snd (stop_vm api node vmid tr) = (tr ++ [status_req node vmid; power_req node vmid "stop"])%list) /\
  (snd (shutdown_vm api node vmid tr) = (tr ++ [status_req node vmid])%list \/
   snd (shutdown_vm api node vmid tr) = (tr ++ [status_req node vmid; power_req node vmid "shutdown"])%list) /\
  (snd (reset_vm api node vmid tr) = (tr ++ [status_req node vmid])%list \/
   snd (reset_vm api node vmid tr) = (tr ++ [status_req node vmid; power_req node vmid "reset"])%list).
Proof.
  rewrite start_vm_guarded, stop_vm_guarded, shutdown_vm_guarded, reset_vm_guarded.
  repeat split; apply guarded_trace.
Qed.

(** ** Extras: [delete_vm] *)

Lemma delete_vm_split api node vmid force :
  delete_vm api node vmid force =
  try_except (bind (delete_status api node vmid) (delete_rest api node vmid force))
             (delete_handler vmid).
Proof. reflexivity. Qed.

Lemma delete_handler_trace vmid e tr : snd (delete_handler vmid e tr) = tr.
Proof. destruct e; try reflexivity; apply handle_error_trace. Qed.

Lemma delete_status_trace api node vmid tr :
  snd (delete_status api node vmid tr) = (tr ++ [status_req node vmid])%list.
Proof.
  unfold delete_status, try_except, bind, call.
  destruct (api (status_req node vmid)) as [j|m].
  2:{ destruct (vm_missing _); reflexivity. }
  destruct (py_get j "status" JNull (tr ++ [status_req node vmid])%list)
    as [[v|e1] tr2] eqn:E2;
    pose proof (py_get_pure j "status" JNull (tr ++ [status_req node vmid])%list) as P2;
    rewrite E2 in P2; simpl in P2; subst tr2; [|destruct (vm_missing _); reflexivity].
  destruct (py_get j "name" _ _) as [[w|e2] tr3] eqn:E3;
    pose proof (py_get_pure j "name" (JStr ("VM-" ++ vmid))
                  (tr ++ [status_req node vmid])%list) as P3;
    rewrite E3 in P3; simpl in P3; subst tr3; [reflexivity|].
  destruct (vm_missing _); reflexivity.
Qed.

(** On a VM whose status read answers an object whose "status" is not
    "running" (absent included), [delete_vm] deletes directly, whatever
    [force] is: it issues the status read and the delete, never the stop,
    and reports the deletion of the VM under its "name" (["VM-{vmid}"]
    when absent). *)
Theorem delete_vm_not_running (api : request -> response) (node vmid : string)
  (force : bool) (l : list (string * json)) (raw : json) (tr : list request) :
  api (status_req node vmid) = ROk (JObj l) ->
  dict_lookup l "status" <> Some (JStr "running") ->
  api (del_req node vmid) = ROk raw ->
  let vm_name := match dict_lookup l "name" with
                 | Some v => v | None => JStr ("VM-" ++ vmid) end in
  delete_vm api node vmid force tr =
    (Ok [Text (("🗑️ Deleting VM " ++ vmid ++ " (" ++ py_str vm_name ++ ")..." ++ nl) ++
               delete_vm_text node vmid vm_name raw)],
     (tr ++ [status_req node vmid; del_req node vmid])%list).
Proof.
  intros Ha Hs Hd vm_name.
  assert (Hr : py_eq_str (match dict_lookup l "status" with Some v => v | None => JNull end)
                         "running" = false).
  { apply py_eq_str_false. destruct (dict_lookup l "status"); [|discriminate].
    intros ->. apply Hs. reflexivity. }
  assert (E1 : delete_status api node vmid tr =
               (Ok (match dict_lookup l "status" with Some v => v | None => JNull end, vm_name),
                (tr ++ [status_req node vmid])%list)).
  { unfold delete_status, try_except, bind, call. rewrite Ha, !py_get_obj. reflexivity. }
  rewrite delete_vm_split, (try_bind_ok _ _ _ _ _ _ E1).
  unfold delete_rest, try_except, bind, call, ret. rewrite Hr, Hd.
  rewrite <- app_assoc. reflexivity.
Qed.

Lemma delete_vm_not_running_witness :
  snd (delete_vm demo_api "pve" "101" true []) = [status_req "pve" "101"; del_req "pve" "101"].
Proof.
  rewrite (delete_vm_not_running demo_api "pve" "101" true
             [("status", JStr "stopped"); ("name", JStr "db")] (JStr "UPID:pve:0001:task") []);
    [reflexivity | reflexivity | discriminate | reflexivity].
Defined.

(** Whatever the hypervisor answers, [delete_vm] issues the status read,
    then possibly the stop, then possibly the delete, and nothing else; the
    stop is only ever issued with [force=true]. *)
Theorem delete_vm_trace_bound (api : request -> response) (node vmid : string)
  (force : bool) (tr : list request) :
  let s := status_req node vmid in
  let stop := power_req node vmid "stop" in
  let d := del_req node vmid in
  snd (delete_vm api node vmid force tr) = (tr ++ [s])%list \/
  snd (delete_vm api node vmid force tr) = (tr ++ [s; d])%list \/
  (force = true /\
   (snd (delete_vm api node vmid force tr) = (tr ++ [s; stop])%list \/
    snd (delete_vm api node vmid force tr) = (tr ++ [s; stop; d])%list)).
Proof.
  intros s stop d. rewrite delete_vm_split.
  pose proof (delete_status_trace api node vmid tr) as T1.
  destruct (delete_status api node vmid tr) as [[[cs vm_name]|e] tr1] eqn:E1;
    simpl in T1; subst tr1.
  2:{ rewrite (try_bind_raise _ _ _ _ _ _ E1). left. apply delete_handler_trace. }
  rewrite (try_bind_ok _ _ _ _ _ _ E1).
  unfold delete_rest, try_except, bind, call, ret, raise. fold stop d.
  destruct (py_eq_str cs "running"); [destruct force|]; cbn [negb].
  - right; right; split; [reflexivity|].
    destruct (api stop).
    + right. destruct (api d); cbn [snd].
      * rewrite <- !app_assoc. reflexivity.
      * rewrite delete_handler_trace, <- !app_assoc. reflexivity.
    + left. rewrite delete_handler_trace, <- app_assoc. reflexivity.
  - left. apply delete_handler_trace.
  - right; left. destruct (api d); cbn [snd].
    + rewrite <- app_assoc. reflexivity.
    + rewrite delete_handler_trace, <- app_assoc. reflexivity.
Qed.

(** ** Extras: [create_vm] *)

Lemma create_vm_split api node vmid name cpus memory disk_size storage ostype :
  create_vm api node vmid name cpus memory disk_size storage ostype =
  try_except
    (bind (create_precheck api node vmid)
          (fun _ => bind (call api (stor_req node))
                         (create_after_list api node vmid name cpus memory disk_size storage ostype)))
    (create_handler vmid).
Proof. reflexivity. Qed.

Lemma py_key_eq_str k a :
  py_key_eq k (JStr a) = match k with JStr x => String.eqb x a | _ => false end.
Proof. destruct k as [| | |[]| | |]; reflexivity. Qed.

Lemma py_dict_find_cons k w t key :
  py_dict_find ((k, w) :: t) key = if py_key_eq k key then Some w else py_dict_find t key.
Proof. unfold py_dict_find. cbn [find fst snd]. destruct (py_key_eq k key); reflexivity. Qed.

Ltac eqb_simpl :=
  repeat match goal with
         | |- context [String.eqb ?a ?a] => rewrite String.eqb_refl
         | H : ?a <> ?b |- context [String.eqb ?a ?b] =>
             rewrite (proj2 (String.eqb_neq a b) H)
         | H : ?b <> ?a |- context [String.eqb ?a ?b] =>
             rewrite (proj2 (String.eqb_neq a b) (not_eq_sym H))
         end.

Lemma py_dict_find_replace d n v st :
  py_dict_find (map (fun kv => if py_key_eq (fst kv) (JStr n) then (fst kv, v) else kv) d)
               (JStr st) =
  if String.eqb n st
  then (if existsb (fun kv => py_key_eq (fst kv) (JStr n)) d then Some v else None)
  else py_dict_find d (JStr st).
Proof.
  induction d as [|[k w] t IH]; cbn [map existsb fst].
  - destruct (String.eqb n st); reflexivity.
  - rewrite py_key_eq_str.
    destruct k; cbn [orb]; rewrite !py_dict_find_cons, !py_key_eq_str; try exact IH.
    rename s into x.
    destruct (String.eqb_spec x n) as [->|Hxn]; destruct (String.eqb_spec n st) as [->|Hns];
      eqb_simpl; cbv beta iota; rewrite ?py_dict_find_cons, ?py_key_eq_str;
      rewrite ?IH; eqb_simpl; cbn [orb]; reflexivity.
Qed.

Lemma py_dict_find_append d n v st :
  existsb (fun kv => py_key_eq (fst kv) (JStr n)) d = false ->
  py_dict_find (d ++ [(JStr n, v)]) (JStr st) =
  if String.eqb n st then Some v else py_dict_find d (JStr st).
Proof.
  induction d as [|[k w] t IH]; cbn [existsb fst app]; intros H.
  - rewrite !py_dict_find_cons, py_key_eq_str. unfold py_dict_find. cbn.
    destruct (String.eqb n st); reflexivity.
  - rewrite py_key_eq_str in H. rewrite !py_dict_find_cons, py_key_eq_str.
    destruct k; cbn [orb] in H; try exact (IH H).
    rename s into x. apply Bool.orb_false_iff in H as [H1 H2].
    rewrite (IH H2).
    destruct (String.eqb_spec x st), (String.eqb_spec n st); subst; try reflexivity.
    rewrite String.eqb_refl in H1. discriminate.
Qed.

Lemma py_dict_set_str d n v tr :
  exists d1, py_dict_set d (JStr n) v tr = (Ok d1, tr) /\
  forall st, py_dict_find d1 (JStr st) =
             if String.eqb n st then Some v else py_dict_find d (JStr st).
Proof.
  unfold py_dict_set. cbn [py_hashable].
  destruct (existsb _ d) eqn:Ex; eexists; split; try reflexivity; intros st.
  - rewrite py_dict_find_replace, Ex. reflexivity.
  - apply py_dict_find_append. exact Ex.
Qed.

(** a listing entry with a string "storage" field *)
Lemma storage_entry_name s n c : storage_entry s = Some (n, c) -> coarse_field s "storage" = JStr n.
Proof.
  destruct s as [| | | | |l|l]; try discriminate. unfold storage_entry. cbn.
  destruct (dict_lookup l "storage") as [[| | | |n'| |]|]; try discriminate;
    destruct (dict_lookup l "content") as [[| | | |c'| |]|]; try discriminate;
    intros H; injection H; intros; subst; reflexivity.
Qed.

Lemma build_storage_info_find sl : forall d tr,
  Forall (fun s => exists e, storage_entry s = Some e) sl ->
  exists info, build_storage_info sl d tr = (Ok info, tr) /\
  forall st, py_dict_find info (JStr st) = last_named sl st (py_dict_find d (JStr st)).
Proof.
  induction sl as [|s t IH]; intros d tr H.
  - exists d. split; reflexivity.
  - inversion H as [|? ? [[n c] He] Ht]; subst.
    cbn [build_storage_info].
    rewrite (bind_ok _ _ tr (JStr n) tr (storage_entry_getitem s n c tr He)).
    destruct (py_dict_set_str d n s tr) as [d1 [Hd1 Hf1]].
    rewrite (bind_ok _ _ tr d1 tr Hd1).
    destruct (IH d1 tr Ht) as [info [Hi Hfi]].
    exists info. split; [exact Hi|]. intros st.
    rewrite Hfi, Hf1. cbn [last_named]. rewrite (storage_entry_name s n c He). cbn [py_eq_str].
    reflexivity.
Qed.

Lemma create_precheck_passes api node vmid m tr :
  api (cfg_req node vmid) = RErr m ->
  contains "does not exist" (lower m) = true ->
  create_precheck api node vmid tr = (Ok JNull, (tr ++ [cfg_req node vmid])%list).
Proof.
  intros Ha Hm. unfold create_precheck, try_except, bind, call. rewrite Ha. cbn [exc_str].
  rewrite Hm. reflexivity.
Qed.

(** [create_vm] goes past its pre-check only when the config read of the
    VM id fails with a message containing "does not exist": when the read
    succeeds it raises [ValueError("VM {vmid} already exists on node
    {node}")], and when it fails with any other message it fails too; in
    both cases the config read is the only request issued. *)
Theorem create_vm_precheck_blocks (api : request -> response) (node vmid name : string)
  (cpus memory disk_size : Z) (storage ostype : option string) (tr : list request) :
  (forall j, api (cfg_req node vmid) = ROk j ->
   contains "does not exist" (lower ("VM " ++ vmid ++ " already exists on node " ++ node)) = false ->
   create_vm api node vmid name cpus memory disk_size storage ostype tr =
     (Raise (ValueError ("VM " ++ vmid ++ " already exists on node " ++ node)),
      (tr ++ [cfg_req node vmid])%list)) /\
  (forall m, api (cfg_req node vmid) = RErr m ->
   contains "does not exist" (lower m) = false ->
   exists e, create_vm api node vmid name cpus memory disk_size storage ostype tr =
     (Raise e, (tr ++ [cfg_req node vmid])%list)).
Proof.
  split.
  - intros j Ha Hm. rewrite create_vm_split.
    assert (E : create_precheck api node vmid tr =
                (Raise (ValueError ("VM " ++ vmid ++ " already exists on node " ++ node)),
                 (tr ++ [cfg_req node vmid])%list)).
    { unfold create_precheck, try_except, bind, call, raise. rewrite Ha. cbn [exc_str].
      rewrite Hm. reflexivity. }
    rewrite (try_bind_raise _ _ _ _ _ _ E). reflexivity.
  - intros m Ha Hm. rewrite create_vm_split.
    assert (E : create_precheck api node vmid tr =
                (Raise (FacadeError m), (tr ++ [cfg_req node vmid])%list)).
    { unfold create_precheck, try_except, bind, call, raise. rewrite Ha. cbn [exc_str].
      rewrite Hm. reflexivity. }
    rewrite (try_bind_raise _ _ _ _ _ _ E).
    unfold create_handler. apply handle_error_raises.
Qed.

Lemma create_vm_precheck_blocks_witness :
  let api := fun r => match r_verb r with
                      | GET => ROk (JObj [("name", JStr "web")])
                      | _ => demo_api r end in
  create_vm api "pve" "100" "web2" 2 2048 10 None None [] =
    (Raise (ValueError "VM 100 already exists on node pve"), [cfg_req "pve" "100"]).
Proof.
  intros api.
  exact (proj1 (create_vm_precheck_blocks api "pve" "100" "web2" 2 2048 10 None None [])
           (JObj [("name", JStr "web")]) eq_refl eq_refl).
Defined.

Lemma create_handler_trace vmid e tr : snd (create_handler vmid e tr) = tr.
Proof. destruct e; try reflexivity; apply handle_error_trace. Qed.

Lemma create_vm_listed api node vmid name cpus memory disk_size storage ostype m sl tr :
  api (cfg_req node vmid) = RErr m ->
  contains "does not exist" (lower m) = true ->
  api (stor_req node) = ROk (JArr sl) ->
  create_vm api node vmid name cpus memory disk_size storage ostype tr =
  try_except (create_after_list api node vmid name cpus memory disk_size storage ostype (JArr sl))
             (create_handler vmid) (tr ++ [cfg_req node vmid; stor_req node])%list.
Proof.
  intros Hc Hm Hs. rewrite create_vm_split.
  rewrite (try_bind_ok _ _ _ _ _ _ (create_precheck_passes api node vmid m tr Hc Hm)).
  assert (E : call api (stor_req node) (tr ++ [cfg_req node vmid])%list =
              (Ok (JArr sl), (tr ++ [cfg_req node vmid; stor_req node])%list)).
  { unfold call. rewrite Hs, <- app_assoc. reflexivity. }
  rewrite (try_bind_ok _ _ _ _ _ _ E). reflexivity.
Qed.

Lemma create_after_list_lookup api node vmid name cpus memory disk_size st ostype sl tr :
  Forall (fun s => exists e, storage_entry s = Some e) sl ->
  exists info,
    (forall k, try_except (create_after_list api node vmid name cpus memory disk_size (Some st)
                             ostype (JArr sl)) k tr =
     try_except
       (if negb (match last_named sl st None with Some _ => true | None => false end) then
          raise (ValueError ("Storage '" ++ st ++ "' not found on node " ++ node))
        else
        info0 <- py_dict_getitem info (JStr st) ;;
        c <- py_get info0 "content" (JStr "") ;;
        has_images <- py_in_str "images" c ;;
        if negb has_images then
          raise (ValueError ("Storage '" ++ st ++ "' does not support VM images"))
        else
        storage_type <- getitem info0 "type" ;;
        let scsi0 := fun fmt => JStr (st ++ ":" ++ dec_Z disk_size ++ ",format=" ++ fmt) in
        let '(disk_format, vm_config_storage) :=
          if py_in_lits storage_type ["lvm"; "lvmthin"] then
            ("raw", [("scsi0", scsi0 "raw")])
          else if py_in_lits storage_type ["dir"; "nfs"; "cifs"] then
            ("qcow2", [("scsi0", scsi0 "qcow2");
                       ("ide2", JStr (st ++ ":cloudinit"))])
          else ("raw", [("scsi0", scsi0 "raw")]) in
        let ostype := match ostype with None => "l26" | Some o => o end in
        let vm_config :=
          [("vmid", JStr vmid); ("name", JStr name); ("cores", JInt cpus);
           ("memory", JInt memory); ("ostype", JStr ostype);
           ("scsihw", JStr "virtio-scsi-pci"); ("boot", JStr "order=scsi0");
           ("agent", JStr "1"); ("vga", JStr "std");
           ("net0", JStr "virtio,bridge=vmbr0")] in
        let vm_config := dict_merge vm_config vm_config_storage in
        task_result <- call api (mkReq POST (lits ["nodes"; node; "qemu"]) vm_config) ;;
        let cloudinit_note :=
          if py_in_lits storage_type ["lvm"; "lvmthin"]
          then nl ++ "  ⚠️  Note: LVM storage doesn't support cloud-init image"
          else "" in
        ret [Text (create_vm_text node vmid name cpus memory disk_size (JStr st)
                     disk_format storage_type ostype cloudinit_note task_result)])
       k tr) /\
    (forall s, last_named sl st None = Some s ->
               forall tr', py_dict_getitem info (JStr st) tr' = (Ok s, tr')).
Proof.
  intros H.
  destruct (build_storage_info_find sl [] tr H) as [info [Hi Hf]].
  exists info. split.
  - intros k. unfold create_after_list.
    rewrite (try_bind_ok (py_iter (JArr sl)) _ _ tr sl tr eq_refl).
    rewrite (try_bind_ok _ _ _ _ _ _ Hi).
    rewrite (try_bind_ok (ret (JStr st)) _ _ tr (JStr st) tr eq_refl).
    assert (Hin : py_dict_in info (JStr st) tr =
                  (Ok (match last_named sl st None with Some _ => true | None => false end), tr)).
    { unfold py_dict_in. cbn [py_hashable]. rewrite Hf. cbn [py_dict_find find].
      destruct (last_named sl st None); reflexivity. }
    rewrite (try_bind_ok _ _ _ _ _ _ Hin). reflexivity.
  - intros s Hs tr'. unfold py_dict_getitem. cbn [py_hashable]. rewrite Hf.
    cbn [py_dict_find find]. rewrite Hs. reflexivity.
Qed.

(** With an explicit [storage], [create_vm] (past its pre-check and the
    storage listing) rejects a storage the node does not list with
    [ValueError("Storage '{storage}' not found on node {node}")], and a
    listed one whose entry (the last one of that name) has no "images" in
    its content with [ValueError("Storage '{storage}' does not support VM
    images")]; in both cases the create call is not issued. *)
Theorem create_vm_storage_checks (api : request -> response) (node vmid name : string)
  (cpus memory disk_size : Z) (st : string) (ostype : option string) (m : string)
  (sl : list json) (tr : list request) :
  api (cfg_req node vmid) = RErr m ->
  contains "does not exist" (lower m) = true ->
  api (stor_req node) = ROk (JArr sl) ->
  Forall (fun s => exists e, storage_entry s = Some e) sl ->
  (last_named sl st None = None ->
   create_vm api node vmid name cpus memory disk_size (Some st) ostype tr =
     (Raise (ValueError ("Storage '" ++ st ++ "' not found on node " ++ node)),
      (tr ++ [cfg_req node vmid; stor_req node])%list)) /\
  (forall s c, last_named sl st None = Some s -> storage_entry s = Some (st, c) ->
   contains "images" c = false ->
   create_vm api node vmid name cpus memory disk_size (Some st) ostype tr =
     (Raise (ValueError ("Storage '" ++ st ++ "' does not support VM images")),
      (tr ++ [cfg_req node vmid; stor_req node])%list)).
Proof.
  intros Hc Hm Hs H.
  rewrite (create_vm_listed api node vmid name cpus memory disk_size (Some st) ostype m sl tr Hc Hm Hs).
  destruct (create_after_list_lookup api node vmid name cpus memory disk_size st ostype sl
              (tr ++ [cfg_req node vmid; stor_req node])%list H) as [info [Hk Hg]].
  rewrite Hk. split.
  - intros Hn. rewrite Hn. reflexivity.
  - intros s c Hn He Hc'. rewrite Hn. cbn [negb].
    rewrite (try_bind_ok _ _ _ _ _ _ (Hg s Hn _)).
    rewrite (try_bind_ok _ _ _ _ _ _ (storage_entry_content s st c _ He)).
    rewrite (try_bind_ok (py_in_str "images" (JStr c)) _ _ _ (contains "images" c) _ eq_refl).
    rewrite Hc'. reflexivity.
Qed.

Lemma create_vm_storage_checks_witness :
  create_vm demo_api "pve" "200" "app" 2 2048 10 (Some "local") None [] =
    (Raise (ValueError "Storage 'local' does not support VM images"),
     [cfg_req "pve" "200"; stor_req "pve"]).
Proof.
  refine (proj2 (create_vm_storage_checks demo_api "pve" "200" "app" 2 2048 10 "local" None
                   "Configuration file does not exist"
                   [JObj [("storage", JStr "local"); ("content", JStr "iso,vztmpl,backup"); ("type", JStr "dir")];
                    JObj [("storage", JStr "local-lvm"); ("content", JStr "images,rootdir"); ("type", JStr "lvmthin")]]
                   [] eq_refl eq_refl eq_refl _)
                (JObj [("storage", JStr "local"); ("content", JStr "iso,vztmpl,backup"); ("type", JStr "dir")])
                "iso,vztmpl,backup" eq_refl eq_refl eq_refl).
  repeat constructor; eexists; reflexivity.
Defined.

Lemma coarse_field_getitem s k v tr :
  coarse_field s k = JStr v -> getitem s k tr = (Ok (JStr v), tr).
Proof.
  destruct s as [| | | | | |l]; try discriminate. cbn.
  destruct (dict_lookup l k); [intros ->; reflexivity | discriminate].
Qed.

(** With an explicit [storage] that the node lists with "images" in its
    content and of type [ty], [create_vm] (past its pre-check) issues the
    config read, the storage listing and one create call, in that order,
    whose keyword arguments are exactly [expected_vm_config]: the fixed
    configuration with [ostype] defaulting to "l26", then [scsi0] as
    "{storage}:{disk_size},format=raw" for "lvm" and "lvmthin" storages,
    "format=qcow2" plus [ide2] "{storage}:cloudinit" for "dir", "nfs" and
    "cifs" storages, and "format=raw" for any other type.  When the create
    call succeeds the tool returns one text block. *)
Theorem create_vm_config_by_type (api : request -> response) (node vmid name : string)
  (cpus memory disk_size : Z) (st : string) (ostype : option string) (m : string)
  (sl : list json) (s : json) (c ty : string) (tr : list request) :
  api (cfg_req node vmid) = RErr m ->
  contains "does not exist" (lower m) = true ->
  api (stor_req node) = ROk (JArr sl) ->
  Forall (fun s => exists e, storage_entry s = Some e) sl ->
  last_named sl st None = Some s ->
  storage_entry s = Some (st, c) ->
  contains "images" c = true ->
  coarse_field s "type" = JStr ty ->
  let vm_config := expected_vm_config vmid name cpus memory disk_size st ty ostype in
  snd (create_vm api node vmid name cpus memory disk_size (Some st) ostype tr) =
    (tr ++ [cfg_req node vmid; stor_req node; create_req node vm_config])%list /\
  (forall raw, api (create_req node vm_config) = ROk raw ->
   exists t, fst (create_vm api node vmid name cpus memory disk_size (Some st) ostype tr) =
             Ok [Text t]).
Proof.
  intros Hc Hm Hs H Hn He Hi Ht vm_config.
  rewrite (create_vm_listed api node vmid name cpus memory disk_size (Some st) ostype m sl tr Hc Hm Hs).
  set (tr2 := (tr ++ [cfg_req node vmid; stor_req node])%list).
  destruct (create_after_list_lookup api node vmid name cpus memory disk_size st ostype sl tr2 H)
    as [info [Hk Hg]].
  rewrite Hk, Hn. cbn [negb].
  rewrite (try_bind_ok _ _ _ _ _ _ (Hg s Hn _)).
  rewrite (try_bind_ok _ _ _ _ _ _ (storage_entry_content s st c _ He)).
  rewrite (try_bind_ok (py_in_str "images" (JStr c)) _ _ _ (contains "images" c) _ eq_refl).
  rewrite Hi. cbn [negb].
  rewrite (try_bind_ok _ _ _ _ _ _ (coarse_field_getitem s "type" ty tr2 Ht)).
  unfold py_in_lits. cbn [existsb py_eq_str]. rewrite !Bool.orb_false_r.
  unfold vm_config, expected_vm_config.
  clear Hk Hg.
  destruct (String.eqb ty "lvm" || String.eqb ty "lvmthin");
    [| destruct (String.eqb ty "dir" || (String.eqb ty "nfs" || String.eqb ty "cifs"))];
    cbv beta iota zeta;
    unfold try_except at 1, bind at 1, call, ret.
  - split.
    + destruct (api (mkReq POST (lits ["nodes"; node; "qemu"]) _)); cbn [snd];
        rewrite ?create_handler_trace; unfold tr2; rewrite <- app_assoc; reflexivity.
    + intros raw Hr.
      replace (api (mkReq POST (lits ["nodes"; node; "qemu"]) _)) with (ROk raw)
        by (rewrite <- Hr; reflexivity).
      eexists; reflexivity.
  - split.
    + destruct (api (mkReq POST (lits ["nodes"; node; "qemu"]) _)); cbn [snd];
        rewrite ?create_handler_trace; unfold tr2; rewrite <- app_assoc; reflexivity.
    + intros raw Hr.
      replace (api (mkReq POST (lits ["nodes"; node; "qemu"]) _)) with (ROk raw)
        by (rewrite <- Hr; reflexivity).
      eexists; reflexivity.
  - split.
    + destruct (api (mkReq POST (lits ["nodes"; node; "qemu"]) _)); cbn [snd];
        rewrite ?create_handler_trace; unfold tr2; rewrite <- app_assoc; reflexivity.
    + intros raw Hr.
      replace (api (mkReq POST (lits ["nodes"; node; "qemu"]) _)) with (ROk raw)
        by (rewrite <- Hr; reflexivity).
      eexists; reflexivity.
Qed.

Lemma create_vm_config_by_type_witness :
  snd (create_vm demo_api "pve" "200" "app" 2 2048 10 (Some "local-lvm") None []) =
    [cfg_req "pve" "200"; stor_req "pve";
     create_req "pve" (expected_vm_config "200" "app" 2 2048 10 "local-lvm" "lvmthin" None)].
Proof.
  refine (proj1 (create_vm_config_by_type demo_api "pve" "200" "app" 2 2048 10 "local-lvm" None
                   "Configuration file does not exist"
                   [JObj [("storage", JStr "local"); ("content", JStr "iso,vztmpl,backup"); ("type", JStr "dir")];
                    JObj [("storage", JStr "local-lvm"); ("content", JStr "images,rootdir"); ("type", JStr "lvmthin")]]
                   (JObj [("storage", JStr "local-lvm"); ("content", JStr "images,rootdir"); ("type", JStr "lvmthin")])
                   "images,rootdir" "lvmthin" []
                   eq_refl eq_refl eq_refl _ eq_refl eq_refl eq_refl eq_refl)).
  repeat constructor; eexists; reflexivity.
Defined.

Section PureFacts.

Context {A B : Type}.

Lemma bind_pure (m : M A) (k : A -> M B) :
  pure_m m -> (forall a, pure_m (k a)) -> pure_m (bind m k).
Proof.
  intros Hm Hk tr. unfold bind. specialize (Hm tr).
  destruct (m tr) as [[a|e] tr']; simpl in Hm |- *; subst; [apply Hk | reflexivity].
Qed.

Lemma bind_pure_trace (Q : list request -> list request -> Prop) (m : M A) (k : A -> M B) :
  pure_m m -> (forall tr, Q tr tr) -> (forall a tr, Q tr (snd (k a tr))) ->
  forall tr, Q tr (snd (bind m k tr)).
Proof.
  intros Hm Hr Hk tr. unfold bind. specialize (Hm tr).
  destruct (m tr) as [[a|e] tr']; simpl in Hm |- *; subst; [apply Hk | apply Hr].
Qed.

End PureFacts.

Lemma ret_pure {A} (a : A) : pure_m (ret a).
Proof. intros tr. reflexivity. Qed.

Lemma raise_pure {A} (e : exc) : pure_m (A := A) (raise e).
Proof. intros tr. reflexivity. Qed.

Lemma getitem_pure' d k : pure_m (getitem d k).
Proof. intros tr. apply getitem_pure. Qed.

Lemma py_get_pure' d k v : pure_m (py_get d k v).
Proof. intros tr. apply py_get_pure. Qed.

Lemma py_in_str_pure n v : pure_m (py_in_str n v).
Proof. intros tr. destruct v; reflexivity. Qed.

Lemma py_dict_set_pure d k v : pure_m (py_dict_set d k v).
Proof. intros tr. unfold py_dict_set. destruct (py_hashable k); [destruct (existsb _ d)|]; reflexivity. Qed.

Lemma py_dict_in_pure d k : pure_m (py_dict_in d k).
Proof. intros tr. unfold py_dict_in. destruct (py_hashable k); [destruct (py_dict_find d k)|]; reflexivity. Qed.

Lemma py_dict_getitem_pure d k : pure_m (py_dict_getitem d k).
Proof. intros tr. unfold py_dict_getitem. destruct (py_hashable k); [destruct (py_dict_find d k)|]; reflexivity. Qed.

Create HintDb pure.

#[local] Hint Resolve bind_pure ret_pure raise_pure getitem_pure' py_get_pure' py_in_str_pure
  py_dict_set_pure py_dict_in_pure py_dict_getitem_pure : pure.

Lemma build_storage_info_pure l : forall d, pure_m (build_storage_info l d).
Proof. induction l; intros d; cbn [build_storage_info]; eauto with pure. Qed.

Lemma first_storage_pure test l : (forall s, pure_m (test s)) -> pure_m (first_storage test l).
Proof.
  intros Ht. induction l; cbn [first_storage]; [apply ret_pure|].
  apply bind_pure; [apply Ht|]. intros b. destruct b; auto with pure.
Qed.

Lemma autodetect_storage_pure l : pure_m (autodetect_storage l).
Proof.
  assert (H1 : forall n, pure_m (first_storage (named_with_images n) l)).
  { intros n. apply first_storage_pure. intros s. unfold named_with_images.
    apply bind_pure; [auto with pure|]. intros x. destruct (py_eq_str x n); auto with pure. }
  assert (H2 : pure_m (first_storage with_images l)).
  { apply first_storage_pure. intros s. unfold with_images. auto with pure. }
  unfold autodetect_storage. apply bind_pure; [apply H1|]. intros st.
  apply bind_pure; [destruct (is_none st); auto with pure|]. intros st'.
  destruct (is_none st'); [|apply ret_pure].
  apply bind_pure; [apply H2|]. intros st''. destruct (is_none st''); auto with pure.
Qed.

Lemma create_after_list_trace api node vmid name cpus memory disk_size storage ostype j tr :
  snd (create_after_list api node vmid name cpus memory disk_size storage ostype j tr) = tr \/
  exists vm_config,
    snd (create_after_list api node vmid name cpus memory disk_size storage ostype j tr) =
    (tr ++ [create_req node vm_config])%list.
Proof.
  set (Q := fun tr tr' => tr' = tr \/ exists vm_config, tr' = (tr ++ [create_req node vm_config])%list).
  assert (Qr : forall tr, Q tr tr) by (intros; left; reflexivity).
  change (Q tr (snd (create_after_list api node vmid name cpus memory disk_size storage ostype j tr))).
  unfold create_after_list. revert tr.
  apply bind_pure_trace; [intros tr; apply py_iter_pure | exact Qr |]. intros sl.
  apply bind_pure_trace; [apply build_storage_info_pure | exact Qr |]. intros info.
  apply bind_pure_trace;
    [destruct storage; [apply ret_pure | apply autodetect_storage_pure] | exact Qr |].
  intros st.
  apply bind_pure_trace; [apply py_dict_in_pure | exact Qr |]. intros known.
  destruct (negb known); [intros; apply Qr|].
  apply bind_pure_trace; [apply py_dict_getitem_pure | exact Qr |]. intros info0.
  apply bind_pure_trace; [apply py_get_pure' | exact Qr |]. intros c.
  apply bind_pure_trace; [apply py_in_str_pure | exact Qr |]. intros has.
  destruct (negb has); [intros; apply Qr|].
  apply bind_pure_trace; [apply getitem_pure' | exact Qr |]. intros ty.
  intros tr.
  destruct (if py_in_lits ty ["lvm"; "lvmthin"] then _ else _) as [fmt cfgs].
  right. eexists. unfold bind at 1, call.
  destruct (api _); reflexivity.
Qed.

(** Whatever the hypervisor answers, [create_vm] issues the config read,
    then possibly the storage listing, then possibly one create call on
    [nodes/{node}/qemu], and nothing else: the create call is its only
    write and it comes after both reads. *)
Theorem create_vm_trace_bound (api : request -> response) (node vmid name : string)
  (cpus memory disk_size : Z) (storage ostype : option string) (tr : list request) :
  let t := snd (create_vm api node vmid name cpus memory disk_size storage ostype tr) in
  t = (tr ++ [cfg_req node vmid])%list \/
  t = (tr ++ [cfg_req node vmid; stor_req node])%list \/
  exists vm_config, t = (tr ++ [cfg_req node vmid; stor_req node; create_req node vm_config])%list.
Proof.
  intros t. unfold t. clear t. rewrite create_vm_split.
  assert (Hp : snd (create_precheck api node vmid tr) = (tr ++ [cfg_req node vmid])%list).
  { unfold create_precheck, try_except, bind, call, raise, ret.
    destruct (api (cfg_req node vmid)); cbv beta iota;
      destruct (negb _); reflexivity. }
  destruct (create_precheck api node vmid tr) as [[x|e] tr1] eqn:E; simpl in Hp; subst tr1.
  2:{ left. rewrite (try_bind_raise _ _ _ _ _ _ E). apply create_handler_trace. }
  rewrite (try_bind_ok _ _ _ _ _ _ E).
  destruct (api (stor_req node)) as [j|msg] eqn:Hs.
  2:{ right; left.
      assert (E2 : call api (stor_req node) (tr ++ [cfg_req node vmid])%list =
                   (Raise (FacadeError msg), ((tr ++ [cfg_req node vmid]) ++ [stor_req node])%list))
        by (unfold call; rewrite Hs; reflexivity).
      rewrite (try_bind_raise _ _ _ _ _ _ E2), create_handler_trace, <- app_assoc. reflexivity. }
  assert (E2 : call api (stor_req node) (tr ++ [cfg_req node vmid])%list =
               (Ok j, ((tr ++ [cfg_req node vmid]) ++ [stor_req node])%list))
    by (unfold call; rewrite Hs; reflexivity).
  rewrite (try_bind_ok _ _ _ _ _ _ E2). unfold try_except.
  set (tr2 := ((tr ++ [cfg_req node vmid]) ++ [stor_req node])%list).
  assert (Ht : forall o tr', snd (match (o, tr') with
                                  | (Ok a, tr'') => (Ok a, tr'')
                                  | (Raise e, tr'') => create_handler vmid e tr''
                                  end) = tr').
  { intros [a|e'] tr'; [reflexivity | apply create_handler_trace]. }
  destruct (create_after_list_trace api node vmid name cpus memory disk_size storage ostype j tr2)
    as [H|[cfg H]];
    destruct (create_after_list api node vmid name cpus memory disk_size storage ostype j tr2)
      as [o tr3] eqn:E3; simpl in H; subst tr3; rewrite Ht.
  - right; left. unfold tr2. rewrite <- app_assoc. reflexivity.
  - right; right. exists cfg. unfold tr2. rewrite <- !app_assoc. reflexivity.
Qed.

(** ** Extras: the output of [json.dumps] *)

Lemma ascii_only_app a b : ascii_only (a ++ b) = ascii_only a && ascii_only b.
Proof.
  induction a as [|c a IH]; [reflexivity|]. cbn [append ascii_only].
  rewrite IH, Bool.andb_assoc. reflexivity.
Qed.

Lemma byte_ascii c : (byte c < 128)%Z -> (nat_of_ascii c <? 128) = true.
Proof.
  intros H. apply Nat.ltb_lt. unfold byte in H. unfold nat_of_ascii. lia.
Qed.

Lemma chrZ_ascii z : (0 <= z < 128)%Z -> (nat_of_ascii (chrZ z) <? 128) = true.
Proof. intros H. apply byte_ascii. rewrite byte_chrZ by lia. lia. Qed.

Lemma hex_digit_ascii d : (0 <= d < 16)%Z -> (nat_of_ascii (hex_digit d) <? 128) = true.
Proof.
  intros H. unfold hex_digit. destruct (Z.ltb_spec d 10); apply chrZ_ascii; lia.
Qed.

Lemma esc_u_ascii c : ascii_only (esc_u c) = true.
Proof.
  assert (forall x, (0 <= Z.land x 15 < 16)%Z) as B
    by (intros x; rewrite land15; apply Z.mod_pos_bound; lia).
  unfold esc_u. cbn [ascii_only str1].
  rewrite !hex_digit_ascii by apply B. reflexivity.
Qed.

Lemma esc_cp_ascii c : ascii_only (esc_cp c) = true.
Proof.
  unfold esc_cp.
  destruct (c =? 34)%Z; [reflexivity|].
  destruct (c =? 92)%Z; [reflexivity|].
  destruct (c =? 8)%Z; [reflexivity|].
  destruct (c =? 12)%Z; [reflexivity|].
  destruct (c =? 10)%Z; [reflexivity|].
  destruct (c =? 13)%Z; [reflexivity|].
  destruct (c =? 9)%Z; [reflexivity|].
  destruct ((32 <=? c) && (c <=? 126))%Z eqn:E.
  - apply Bool.andb_true_iff in E as [E1 E2]. apply Z.leb_le in E1, E2.
    cbn [str1 ascii_only]. rewrite chrZ_ascii by lia. reflexivity.
  - destruct (c <? 0x10000)%Z; [apply esc_u_ascii|].
    rewrite ascii_only_app, !esc_u_ascii. reflexivity.
Qed.

Lemma esc_all_ascii cs : ascii_only (esc_all cs) = true.
Proof.
  induction cs as [|c cs IH]; [reflexivity|]. cbn [esc_all].
  rewrite ascii_only_app, esc_cp_ascii, IH. reflexivity.
Qed.

Lemma escape_ascii s : ascii_only (escape s) = true.
Proof. apply esc_all_ascii. Qed.

Lemma dumps_str_ascii s : ascii_only (dumps_str s) = true.
Proof.
  unfold dumps_str. cbn [ascii_only]. rewrite ascii_only_app, escape_ascii. reflexivity.
Qed.

Lemma digit_char_ascii d : (d < 10)%N -> nat_of_ascii (digit_char d) < 128.
Proof.
  intros H. unfold digit_char, nat_of_ascii. rewrite N_ascii_embedding by lia. lia.
Qed.

Lemma dec_acc_ascii f : forall n acc, ascii_only acc = true -> ascii_only (dec_acc f n acc) = true.
Proof.
  induction f as [|f IH]; intros n acc H; [exact H|]. cbn [dec_acc].
  assert (Hc : ascii_only (String (digit_char (n mod 10)) acc) = true).
  { cbn [ascii_only]. rewrite H, Bool.andb_true_r. apply Nat.ltb_lt, digit_char_ascii.
    apply N.mod_lt. discriminate. }
  destruct (n <? 10)%N; [exact Hc | apply IH; exact Hc].
Qed.

Lemma dec_Z_ascii z : ascii_only (dec_Z z) = true.
Proof.
  destruct z; [reflexivity | apply dec_acc_ascii; reflexivity |].
  cbn [dec_Z ascii_only]. apply dec_acc_ascii. reflexivity.
Qed.

Lemma zeros_ascii k : ascii_only (zeros k) = true.
Proof. induction k as [|k IH]; [reflexivity | exact IH]. Qed.

Lemma str_take_ascii k s : ascii_only s = true -> ascii_only (str_take k s) = true.
Proof.
  revert s. induction k as [|k IH]; intros [|c s] H; try reflexivity.
  cbn [str_take ascii_only] in *. apply andb_prop in H as [H1 H2].
  rewrite H1, (IH s H2). reflexivity.
Qed.

Lemma str_drop_ascii k s : ascii_only s = true -> ascii_only (str_drop k s) = true.
Proof.
  revert s. induction k as [|k IH]; intros [|c s] H; try exact H; try reflexivity.
  cbn [str_drop ascii_only] in *. apply andb_prop in H as [_ H2]. exact (IH s H2).
Qed.

Lemma fmt_exp_ascii x : ascii_only (fmt_exp x) = true.
Proof.
  unfold fmt_exp. rewrite !ascii_only_app, dec_Z_ascii.
  destruct (x <? 0)%Z, (Z.abs x <? 10)%Z; reflexivity.
Qed.

Lemma format_r_ascii ds decpt : ascii_only ds = true -> ascii_only (format_r ds decpt) = true.
Proof.
  intros H. unfold format_r.
  destruct ((decpt <=? -4)%Z || (16 <? decpt)%Z).
  - destruct ds as [|d1 rest]; [reflexivity|].
    cbn [ascii_only] in H |- *. apply andb_prop in H as [H1 H2]. rewrite H1.
    rewrite !ascii_only_app, fmt_exp_ascii.
    destruct (String.eqb rest ""); cbn [append ascii_only]; rewrite ?H2; reflexivity.
  - destruct (decpt <=? 0)%Z.
    + cbn [append ascii_only]. rewrite ascii_only_app, zeros_ascii, H. reflexivity.
    + destruct (decpt <? Z.of_nat (String.length ds))%Z.
      * rewrite ascii_only_app, str_take_ascii by exact H. cbn [append ascii_only].
        rewrite str_drop_ascii by exact H. reflexivity.
      * rewrite !ascii_only_app, H, zeros_ascii. reflexivity.
Qed.

Lemma shortest_digits_dec m e : exists C, fst (shortest_digits m e) = dec_Z C.
Proof.
  unfold shortest_digits. destruct (scale2 m 1 (- e)) as [num den].
  destruct (dtoa_loop _ _ _ _ _ _) as [[C0 E0]|];
  match goal with |- context [strip_zeros ?a ?b ?c] => destruct (strip_zeros a b c) as [C E] end;
  eexists; reflexivity.
Qed.

Lemma json_float_ascii fl : ascii_only (json_float fl) = true.
Proof.
  destruct fl as [neg m e | [] |]; try reflexivity. cbn [json_float]. unfold repr_fin.
  rewrite ascii_only_app. replace (ascii_only (if neg then "-" else "")) with true
    by (destruct neg; reflexivity).
  destruct (m =? 0)%Z; [reflexivity|].
  destruct (shortest_digits_dec m e) as [C HC].
  destruct (shortest_digits m e) as [ds decpt]. cbn [fst] in HC. subst ds.
  apply format_r_ascii, dec_Z_ascii.
Qed.

Lemma dumps_items_ascii t :
  Forall (fun j => ascii_only (dumps j) = true) t -> ascii_only (dumps_items t) = true.
Proof.
  induction 1 as [|y t Hy _ IH]; [reflexivity|].
  rewrite dumps_items_cons, !ascii_only_app, Hy, IH.
  reflexivity.
Qed.

Lemma dumps_members_ascii t :
  Forall (fun kv => ascii_only (dumps (snd kv)) = true) t ->
  ascii_only (dumps_members t) = true.
Proof.
  induction 1 as [|[k v] t Hv _ IH]; [reflexivity|]. simpl snd in Hv.
  rewrite dumps_members_cons.
  rewrite !ascii_only_app, dumps_str_ascii, Hv, IH. reflexivity.
Qed.

(** [json.dumps] with its default [ensure_ascii=True]: whatever the value,
    the text it produces, which every JSON-returning tool puts in its text
    block, consists of ASCII characters only: a character of a string or
    key outside printable ASCII is written as a [\uXXXX] escape (a
    surrogate pair of two escapes above U+FFFF), and numbers, floats
    ([repr], [Infinity], [NaN]) and the literals are ASCII text. *)
Theorem dumps_ascii_only (j : json) : ascii_only (dumps j) = true.
Proof.
  induction j as [| b | z | fl | s | l IH | l IH] using json_ind2.
  - reflexivity.
  - destruct b; reflexivity.
  - apply dec_Z_ascii.
  - apply json_float_ascii.
  - apply dumps_str_ascii.
  - destruct l as [|x t]; [reflexivity|]. inversion IH as [|? ? Hx Ht]; subst.
    rewrite dumps_arr_cons.
    rewrite !ascii_only_app, Hx, (dumps_items_ascii t Ht). reflexivity.
  - destruct l as [|[k v] t]; [reflexivity|]. inversion IH as [|? ? Hv Ht]; subst.
    simpl snd in Hv. rewrite dumps_obj_cons.
    rewrite !ascii_only_app, dumps_str_ascii, Hv, (dumps_members_ascii t Ht). reflexivity.
Qed.

(** ** Extras: [proxmox_request] *)

Lemma dict_lookup_set {A} (l : list (string * A)) k v k' :
  dict_lookup (dict_set l k v) k' = if String.eqb k' k then Some v else dict_lookup l k'.
Proof.
  induction l as [|[k0 v0] t IH]; cbn [dict_set dict_lookup].
  - destruct (String.eqb k' k); reflexivity.
  - destruct (String.eqb_spec k k0) as [<-|Hk]; cbn [dict_lookup].
    + destruct (String.eqb k' k); reflexivity.
    + rewrite IH. destruct (String.eqb_spec k' k) as [Heq|]; [subst k'|reflexivity].
      rewrite (proj2 (String.eqb_neq k k0) Hk). reflexivity.
Qed.

Lemma dict_lookup_absent {A} (l : list (string * A)) k :
  existsb (String.eqb k) (map fst l) = false -> dict_lookup l k = None.
Proof.
  induction l as [|[k0 v0] t IH]; cbn [map existsb fst dict_lookup]; intros H; [reflexivity|].
  apply Bool.orb_false_iff in H as [H1 H2]. rewrite H1. exact (IH H2).
Qed.

(** [{**a, **b}]: a key of [b] takes [b]'s value, any other key keeps [a]'s. *)
Lemma dict_lookup_merge {A} (a b : list (string * A)) k :
  keys_distinct (map fst b) = true ->
  dict_lookup (dict_merge a b) k =
  match dict_lookup b k with Some v => Some v | None => dict_lookup a k end.
Proof.
  unfold dict_merge. revert a.
  induction b as [|[k0 v0] t IH]; intros a Hd; [reflexivity|].
  cbn [fold_left fst snd]. cbn [map fst keys_distinct] in Hd.
  apply Bool.andb_true_iff in Hd as [Hn Hd]. apply Bool.negb_true_iff in Hn.
  rewrite (IH _ Hd), dict_lookup_set. cbn [dict_lookup].
  destruct (String.eqb_spec k k0) as [->|]; [|reflexivity].
  rewrite (dict_lookup_absent t k0 Hn). reflexivity.
Qed.

(** [proxmox_request] issues no request when [path] is empty or when the
    upper-cased [method] is none of "GET", "POST", "PUT" and "DELETE": it
    fails before reaching the client. *)
Theorem proxmox_request_rejects (api : request -> response) (method path : string)
  (params data : list (string * json)) (tr : list request) :
  path = "" \/ existsb (String.eqb (upper method)) ["GET"; "POST"; "PUT"; "DELETE"] = false ->
  exists e, proxmox_request api method path params data tr = (Raise e, tr).
Proof.
  intros H. unfold proxmox_request.
  destruct (String.eqb_spec path "") as [->|Hp].
  - apply handle_error_raises.
  - destruct H as [H|H]; [contradiction|].
    cbn [existsb] in H. rewrite Bool.orb_false_r in H.
    apply Bool.orb_false_iff in H as [H1 H]. apply Bool.orb_false_iff in H as [H2 H].
    apply Bool.orb_false_iff in H as [H3 H4].
    cbv zeta. rewrite H1, H2, H3, H4. apply handle_error_raises.
Qed.

Lemma proxmox_request_rejects_witness :
  exists e, proxmox_request demo_api "patch" "nodes/pve/qemu" [] [] [] = (Raise e, []).
Proof. apply proxmox_request_rejects. right. reflexivity. Defined.

(** For a POST or a PUT (the method is matched in any letter case), the one
    request [proxmox_request] issues carries [{**params, **data}]: for
    every key, the value of [data] if [data] has the key, else the value of
    [params]. *)
Theorem proxmox_request_write_payload (api : request -> response) (method path : string)
  (params data : list (string * json)) (v : verb) (tr : list request) :
  path <> "" ->
  upper method = verb_name v ->
  v = POST \/ v = PUT ->
  keys_distinct (map fst data) = true ->
  exists args,
    snd (proxmox_request api method path params data tr) =
      (tr ++ [mkReq v [JStr (norm_path path)] args])%list /\
    forall k, dict_lookup args k =
              match dict_lookup data k with Some x => Some x | None => dict_lookup params k end.
Proof.
  intros Hp Hm Hv Hd. exists (dict_merge params data). split.
  - unfold proxmox_request. rewrite (proj2 (String.eqb_neq path "") Hp). cbv zeta.
    rewrite Hm. unfold try_except, bind, call.
    destruct Hv as [-> | ->]; cbn [verb_name String.eqb Ascii.eqb Bool.eqb andb];
      destruct (api _); try reflexivity; apply handle_error_trace.
  - intros k. apply dict_lookup_merge. exact Hd.
Qed.

Lemma proxmox_request_write_payload_witness :
  exists args,
    snd (proxmox_request demo_api "post" "/api2/json/nodes/pve/qemu/100/config"
           [("a", JInt 1)] [("a", JInt 2); ("b", JStr "x")] []) =
      [mkReq POST [JStr "nodes/pve/qemu/100/config"] args] /\
    forall k, dict_lookup args k =
              match dict_lookup [("a", JInt 2); ("b", JStr "x")] k with
              | Some x => Some x | None => dict_lookup [("a", JInt 1)] k end.
Proof.
  apply (proxmox_request_write_payload demo_api "post" "/api2/json/nodes/pve/qemu/100/config"
           [("a", JInt 1)] [("a", JInt 2); ("b", JStr "x")] POST []).
  - discriminate.
  - reflexivity.
  - left; reflexivity.
  - reflexivity.
Defined.

(** ** Extras: optional arguments and the task-returning wrappers *)

Lemma task_call_trace api op r tr : snd (task_call api op r tr) = (tr ++ [r])%list.
Proof.
  unfold task_call, try_except, bind, call, ret.
  destruct (api r); [reflexivity | apply handle_error_trace].
Qed.

(** Each optional argument of [clone_vm], [migrate_vm], [create_vm_snapshot],
    [create_user] and [set_acl] is sent only when it is given (an absent one
    is left out, never sent as null), in the order of the code, booleans as
    the integers 0 and 1; each tool issues exactly that one request. *)
Theorem optional_args_omitted :
  (forall api node vmid target newid name full storage tr,
     snd (clone_vm api node vmid target newid name full storage tr) =
     (tr ++ [mkReq POST (vm_path node vmid ["clone"])
               (opt_arg "target" (option_map JStr target) ++
                opt_arg "newid" (option_map JStr newid) ++
                opt_arg "name" (option_map JStr name) ++
                opt_arg "full" (option_map py_int_bool full) ++
                opt_arg "storage" (option_map JStr storage))])%list) /\
  (forall api node vmid target online tr,
     snd (migrate_vm api node vmid target online tr) =
     (tr ++ [mkReq POST (vm_path node vmid ["migrate"])
               ([("target", JStr target)] ++ opt_arg "online" (option_map py_int_bool online))])%list) /\
  (forall api node vmid snapname vmstate description tr,
     snd (create_vm_snapshot api node vmid snapname vmstate description tr) =
     (tr ++ [mkReq POST (vm_path node vmid ["snapshot"])
               ([("snapname", JStr snapname)] ++
                opt_arg "vmstate" (option_map py_int_bool vmstate) ++
                opt_arg "description" (option_map JStr description))])%list) /\
  (forall api user password comment expire enable tr,
     snd (create_user api user password comment expire enable tr) =
     (tr ++ [mkReq POST (lits ["access"; "users"])
               ([("userid", JStr user)] ++
                opt_arg "password" (option_map JStr password) ++
                opt_arg "comment" (option_map JStr comment) ++
                opt_arg "expire" (option_map JInt expire) ++
                opt_arg "enable" (option_map py_int_bool enable))])%list) /\
  (forall api path roles users groups propagate delete tr,
     snd (set_acl api path roles users groups propagate delete tr) =
     (tr ++ [mkReq PUT (lits ["access"; "acl"])
               ([("path", JStr path)] ++
                opt_arg "roles" (option_map JStr roles) ++
                opt_arg "users" (option_map JStr users) ++
                opt_arg "groups" (option_map JStr groups) ++
                opt_arg "propagate" (option_map py_int_bool propagate) ++
                opt_arg "delete" (option_map py_int_bool delete))])%list).
Proof.
  repeat split.
  - intros api node vmid target newid name full storage tr.
    unfold clone_vm. rewrite task_call_trace.
    destruct target, newid, name, full, storage; reflexivity.
  - intros api node vmid target online tr.
    unfold migrate_vm. rewrite task_call_trace. destruct online; reflexivity.
  - intros api node vmid snapname vmstate description tr.
    unfold create_vm_snapshot, try_except, bind, call, ret.
    destruct vmstate as [[]|], description;
      (destruct (api _); [reflexivity | apply handle_error_trace]).
  - intros api user password comment expire enable tr.
    unfold create_user, bind, call, ret.
    destruct password, comment, expire, enable as [[]|]; destruct (api _); reflexivity.
  - intros api path roles users groups propagate delete tr.
    unfold set_acl, bind, call, ret.
    destruct roles, users, groups, propagate, delete; destruct (api _); reflexivity.
Qed.

Lemma task_call_tool api op r : task_tool api (task_call api op r) r.
Proof.
  intros tr. split; [apply task_call_trace|].
  intros raw Hr Hw. unfold task_call, try_except, bind, call, ret. rewrite Hr.
  eexists. split; [reflexivity|]. apply loads_dumps.
  cbn [wf map fst snd keys_distinct existsb forallb negb andb]. rewrite Hw. reflexivity.
Qed.

(** The single-request VM wrappers each issue exactly their one request
    (snapshot delete and rollback, config update, disk resize, move,
    import, attach, and detach, which sends [{disk: ""}]), and on success
    return one text block that decodes to [{"task": <answer>}]. *)
Theorem task_wrappers (api : request -> response) (node vmid snapname disk size storage source : string)
  (changes opts : list (string * json)) :
  task_tool api (delete_vm_snapshot api node vmid snapname)
    (mkReq DELETE (vm_path node vmid ["snapshot"; snapname]) []) /\
  task_tool api (rollback_vm_snapshot api node vmid snapname)
    (mkReq POST (vm_path node vmid ["snapshot"; snapname; "rollback"]) []) /\
  task_tool api (update_vm_config api node vmid changes)
    (mkReq POST (vm_path node vmid ["config"]) changes) /\
  task_tool api (resize_vm_disk api node vmid disk size)
    (mkReq POST (vm_path node vmid ["resize"]) [("disk", JStr disk); ("size", JStr size)]) /\
  task_tool api (move_disk api node vmid disk storage)
    (mkReq POST (vm_path node vmid ["move_disk"]) [("disk", JStr disk); ("storage", JStr storage)]) /\
  task_tool api (import_disk api node vmid source storage)
    (mkReq POST (vm_path node vmid ["importdisk"]) [("source", JStr source); ("storage", JStr storage)]) /\
  task_tool api (attach_disk api node vmid disk opts)
    (mkReq POST (vm_path node vmid ["config"]) [(disk, JObj opts)]) /\
  task_tool api (detach_disk api node vmid disk)
    (mkReq POST (vm_path node vmid ["config"]) [(disk, JStr "")]).
Proof. repeat split; apply task_call_tool. Qed.
